(** * Cinephage release scoring: a shallow embedding of
    [src/lib/server/scoring/scorer.ts] and of the condition matcher it
    drives, with the properties of the scoring specification.

  Numbers.  JavaScript numbers are modelled exactly: format scores are
  integers ([Z]; every score the profiles ship is an integer far below
  2^53, so sums and differences are exact), score totals live in [JsNum.num]
  (an integer, an infinity or NaN), thresholds and sizes are rationals
  ([Q]); rounding of doubles is outside the model. *)

From Stdlib Require Import ZArith QArith Qround String Ascii List Bool Lia.
From Stdlib Require Import Sorted Permutation.
From stdpp Require Import base option list strings gmap pretty.

Local Open Scope string_scope.
Local Open Scope Z_scope.
Local Open Scope list_scope.

(** ** JavaScript numbers that can be infinite *)

Module JsNum.

Inductive num : Type :=
| Fin (z : Z)
| PosInf
| NegInf
| NaN.

(** [a - b] on IEEE values: opposite infinities absorb, equal ones give NaN. *)
Definition sub (a b : num) : num :=
  match a, b with
  | NaN, _ | _, NaN => NaN
  | Fin x, Fin y => Fin (x - y)
  | Fin _, PosInf => NegInf
  | Fin _, NegInf => PosInf
  | PosInf, PosInf => NaN
  | PosInf, _ => PosInf
  | NegInf, NegInf => NaN
  | NegInf, _ => NegInf
  end.

(** [Math.abs] *)
Definition abs (a : num) : num :=
  match a with
  | Fin x => Fin (Z.abs x)
  | PosInf | NegInf => PosInf
  | NaN => NaN
  end.

(** [a < b]; every comparison with NaN is false. *)
Definition ltb (a b : num) : bool :=
  match a, b with
  | NaN, _ | _, NaN => false
  | Fin x, Fin y => x <? y
  | NegInf, NegInf => false
  | NegInf, _ => true
  | _, NegInf => false
  | PosInf, _ => false
  | Fin _, PosInf => true
  end.

Definition gtb (a b : num) : bool := ltb b a.

(** Comparisons of a total with a rational threshold. *)
Definition ltb_Q (a : num) (q : Q) : bool :=
  match a with
  | Fin x => negb (Qle_bool q (inject_Z x))
  | NegInf => true
  | PosInf | NaN => false
  end.

Definition gtb_Q (a : num) (q : Q) : bool :=
  match a with
  | Fin x => negb (Qle_bool (inject_Z x) q)
  | PosInf => true
  | NegInf | NaN => false
  end.

Definition geb_Q (a : num) (q : Q) : bool :=
  match a with
  | Fin x => Qle_bool q (inject_Z x)
  | PosInf => true
  | NegInf | NaN => false
  end.

End JsNum.

(** ** Rationals: the comparisons and renderings the scorer uses *)

Module JsFormat.

Definition Qltb (a b : Q) : bool := negb (Qle_bool b a).
Definition Qgtb (a b : Q) : bool := Qltb b a.

Fixpoint zeros (n : nat) : string :=
  match n with
  | O => ""
  | S k => "0" +:+ zeros k
  end.

(** [Number.prototype.toFixed(f)] on the exact value, below 10^21: the
    integer [n] nearest to [x * 10^f] (the larger one on a tie), printed
    with [f] digits after the point. *)
Definition toFixed (f : nat) (x : Q) : string :=
  let neg := Qltb x 0 in
  let ax := if neg then Qopp x else x in
  let n := Qfloor (ax * inject_Z (10 ^ Z.of_nat f) + (1 # 2)) in
  let m := pretty (Z.to_N n) in
  let body :=
    match f with
    | O => m
    | _ =>
        let k := String.length m in
        let m' := if (k <=? f)%nat then zeros (f + 1 - k) +:+ m else m in
        let k' := String.length m' in
        String.substring 0 (k' - f) m' +:+ "." +:+ String.substring (k' - f) f m'
    end in
  (if neg then "-" else "") +:+ body.

(** [Array.prototype.join] *)
Fixpoint join (sep : string) (l : list string) : string :=
  match l with
  | [] => ""
  | [x] => x
  | x :: rest => x +:+ sep +:+ join sep rest
  end.

End JsFormat.

(** ** Data model

    [scoring/types.ts] is not among the sources; the records below follow
    section 3 of the specification and the way [scorer.ts] and the tests
    build and read them. *)

(** Modelled from the spec: the condition discriminator of [types.ts]
  (missing here), the closed list of section 3. *)
Module ConditionType.
Inductive t : Type :=
| resolution | source | release_title | release_group | codec | audio
| hdr | streaming_service | flag | indexer.
End ConditionType.

(** Modelled from the spec: the flag names a [flag] condition can carry. *)
Module Flag.
Inductive t : Type := isRemux | isRepack | isProper | is3d.
End Flag.

(** Modelled from the spec: [FormatCondition] of [types.ts].  One predicate
    of a format.  A payload field that the condition does not carry is [None]
    (JavaScript [undefined]); the [hdr] payload can also be the value [null],
    hence the nested option. *)
Module FormatCondition.
Record t : Type := mk {
  name : string;
  type : ConditionType.t;
  required : bool;
  negate : bool;
  resolution : option string;
  source : option string;
  pattern : option string;
  codec : option string;
  audio : option string;
  hdr : option (option string);
  streamingService : option string;
  flag : option Flag.t
}.
End FormatCondition.

(** Modelled from the spec: [CustomFormat] of [types.ts]; the category is
    the string [categoryToBreakdownKey] receives. *)
Module CustomFormat.
Record t : Type := mk {
  id : string;
  name : string;
  description : string;
  category : string;
  tags : list string;
  conditions : list FormatCondition.t
}.
End CustomFormat.

(** Modelled from the spec: [ReleaseAttributes] of [types.ts].
    [hdr = None] is JavaScript [null] (SDR); an absent group, service or flag
    is [None] ([undefined]). *)
Module ReleaseAttributes.
Record t : Type := mk {
  title : string;
  cleanTitle : string;
  year : option Z;
  resolution : string;
  source : string;
  codec : string;
  hdr : option string;
  audio : string;
  releaseGroup : option string;
  streamingService : option string;
  isRemux : option bool;
  isRepack : option bool;
  isProper : option bool;
  is3d : option bool;
  languages : list string
}.
End ReleaseAttributes.

(** Modelled from the spec: the result of evaluating one condition. *)
Module ConditionMatchResult.
Record t : Type := mk {
  condition : FormatCondition.t;
  matches : bool;
  rawMatch : bool
}.
End ConditionMatchResult.

(** Modelled from the spec: [MatchedFormat] of [types.ts], a format that
    matched with its condition trace. *)
Module MatchedFormat.
Record t : Type := mk {
  format : CustomFormat.t;
  conditionResults : list ConditionMatchResult.t
}.
End MatchedFormat.

(** Modelled from the spec: [ScoredFormat] of [types.ts], as
    [calculateFormatScores] builds it. *)
Module ScoredFormat.
Record t : Type := mk {
  format : CustomFormat.t;
  conditionResults : list ConditionMatchResult.t;
  score : Z
}.
End ScoredFormat.

(** Modelled from the spec: the protocol tags of section 6. *)
Module Protocol.
Inductive t : Type := torrent | usenet | streaming.

Definition eqb (a b : t) : bool :=
  match a, b with
  | torrent, torrent | usenet, usenet | streaming, streaming => true
  | _, _ => false
  end.

Definition toString (p : t) : string :=
  match p with
  | torrent => "torrent"
  | usenet => "usenet"
  | streaming => "streaming"
  end.
End Protocol.

(** Modelled from the spec: [ScoringProfile] of [types.ts].  [formatScores]
    is the object used as a map from format id to score; a threshold or size
    limit that is [undefined] or [null] is [None]. *)
Module ScoringProfile.
Record t : Type := mk {
  id : string;
  name : string;
  description : string;
  formatScores : gmap string Z;
  minScore : option Q;
  upgradeUntilScore : Z;
  minScoreIncrement : Z;
  movieMinSizeGb : option Q;
  movieMaxSizeGb : option Q;
  episodeMinSizeMb : option Q;
  episodeMaxSizeMb : option Q;
  allowedProtocols : option (list Protocol.t);
  upgradesAllowed : bool
}.
End ScoringProfile.

(** Modelled from the spec: the media types of a size context. *)
Module MediaType.
Inductive t : Type := movie | tv.
End MediaType.

(** Modelled from the spec: [SizeValidationContext] of [types.ts]. *)
Module SizeValidationContext.
Record t : Type := mk {
  mediaType : MediaType.t;
  isSeasonPack : option bool;
  episodeCount : option Z
}.
End SizeValidationContext.

(** Modelled from the spec: one bucket of the breakdown, as
    [buildBreakdown] initialises it. *)
Module CategoryScore.
Record t : Type := mk {
  score : Z;
  formats : list string
}.
End CategoryScore.

(** Modelled from the spec: [ScoreBreakdown] of [types.ts], the nine
    buckets of [buildBreakdown]. *)
Module ScoreBreakdown.
Record t : Type := mk {
  resolution : CategoryScore.t;
  source : CategoryScore.t;
  codec : CategoryScore.t;
  audio : CategoryScore.t;
  hdr : CategoryScore.t;
  streaming : CategoryScore.t;
  releaseGroupTier : CategoryScore.t;
  banned : CategoryScore.t;
  enhancement : CategoryScore.t
}.

(** [keyof ScoreBreakdown] *)
Inductive key : Type :=
| Kresolution | Ksource | Kcodec | Kaudio | Khdr | Kstreaming
| KreleaseGroupTier | Kbanned | Kenhancement.

Definition get (k : key) (b : t) : CategoryScore.t :=
  match k with
  | Kresolution => resolution b
  | Ksource => source b
  | Kcodec => codec b
  | Kaudio => audio b
  | Khdr => hdr b
  | Kstreaming => streaming b
  | KreleaseGroupTier => releaseGroupTier b
  | Kbanned => banned b
  | Kenhancement => enhancement b
  end.

Definition set (k : key) (v : CategoryScore.t) (b : t) : t :=
  match k with
  | Kresolution => mk v (source b) (codec b) (audio b) (hdr b) (streaming b) (releaseGroupTier b) (banned b) (enhancement b)
  | Ksource => mk (resolution b) v (codec b) (audio b) (hdr b) (streaming b) (releaseGroupTier b) (banned b) (enhancement b)
  | Kcodec => mk (resolution b) (source b) v (audio b) (hdr b) (streaming b) (releaseGroupTier b) (banned b) (enhancement b)
  | Kaudio => mk (resolution b) (source b) (codec b) v (hdr b) (streaming b) (releaseGroupTier b) (banned b) (enhancement b)
  | Khdr => mk (resolution b) (source b) (codec b) (audio b) v (streaming b) (releaseGroupTier b) (banned b) (enhancement b)
  | Kstreaming => mk (resolution b) (source b) (codec b) (audio b) (hdr b) v (releaseGroupTier b) (banned b) (enhancement b)
  | KreleaseGroupTier => mk (resolution b) (source b) (codec b) (audio b) (hdr b) (streaming b) v (banned b) (enhancement b)
  | Kbanned => mk (resolution b) (source b) (codec b) (audio b) (hdr b) (streaming b) (releaseGroupTier b) v (enhancement b)
  | Kenhancement => mk (resolution b) (source b) (codec b) (audio b) (hdr b) (streaming b) (releaseGroupTier b) (banned b) v
  end.

Definition keys : list key :=
  [Kresolution; Ksource; Kcodec; Kaudio; Khdr; Kstreaming;
   KreleaseGroupTier; Kbanned; Kenhancement].

(** The sum of the nine subtotals. *)
Definition sum (b : t) : Z :=
  fold_right (fun k acc => CategoryScore.score (get k b) + acc) 0 keys.
End ScoreBreakdown.

(** Modelled from the spec: [ScoringResult] of [types.ts], the record
    [scoreRelease] returns. *)
Module ScoringResult.
Record t : Type := mk {
  releaseName : string;
  profile : string;
  totalScore : JsNum.num;
  matchedFormats : list ScoredFormat.t;
  breakdown : ScoreBreakdown.t;
  meetsMinimum : bool;
  isBanned : bool;
  bannedReasons : list string;
  sizeRejected : bool;
  sizeRejectionReason : option string;
  protocolRejected : bool;
  protocolRejectionReason : option string
}.
End ScoringResult.

(** ** Exceptions: a result or a thrown error *)

Module Exc.

Inductive t (A : Type) : Type :=
| Ok (a : A)
| Throw (msg : string).

Arguments Ok {A} a.
Arguments Throw {A} msg.

Definition ret {A : Type} (a : A) : t A := Ok a.

Definition bind {A B : Type} (m : t A) (k : A -> t B) : t B :=
  match m with
  | Ok a => k a
  | Throw e => Throw e
  end.

(** [try { m } catch { h }] *)
Definition catch {A : Type} (m : t A) (h : string -> t A) : t A :=
  match m with
  | Ok a => Ok a
  | Throw e => h e
  end.

Fixpoint mapM {A B : Type} (f : A -> t B) (l : list A) : t (list B) :=
  match l with
  | [] => Ok []
  | x :: rest =>
      bind (f x) (fun y => bind (mapM f rest) (fun ys => Ok (y :: ys)))
  end.

End Exc.

Notation "'let!' x ':=' m 'in' k" := (Exc.bind m (fun x => k))
  (at level 10, x name, m at level 100, k at level 200).

(** ** Condition matcher and format evaluator

    [scoring/matcher.ts] is not part of the sources at hand; its tests
    ([matcher.test.ts]) and the specification (sections 4.1 and 4.2) are. *)

Module Matcher.

(** Modelled from the spec: a compiled regular expression, as its [test]
    method. *)
Definition RegExp : Type := string -> bool.

(** Modelled from the spec: the expression that matches nothing. *)
Definition neverMatches : RegExp := fun _ => false.

(** [String.prototype.toLowerCase] on ASCII letters. *)
Definition toLowerAscii (c : ascii) : ascii :=
  let n := nat_of_ascii c in
  if ((65 <=? n) && (n <=? 90))%nat then ascii_of_nat (n + 32) else c.

Fixpoint toLowerCase (s : string) : string :=
  match s with
  | EmptyString => EmptyString
  | String c rest => String (toLowerAscii c) (toLowerCase rest)
  end.

(** [hay.includes(needle)] *)
Fixpoint includes (needle hay : string) : bool :=
  String.prefix needle hay ||
  match hay with
  | EmptyString => false
  | String _ rest => includes needle rest
  end.

(** Modelled from the spec: exact equality of an enum payload with the
    attribute; a condition without the payload equals nothing. *)
Definition optionEqb (payload : option string) (attr : string) : bool :=
  match payload with
  | Some v => String.eqb v attr
  | None => false
  end.

(** Modelled from the spec: the attribute a flag name reads. *)
Definition flagValue (f : Flag.t) (attrs : ReleaseAttributes.t) : option bool :=
  match f with
  | Flag.isRemux => ReleaseAttributes.isRemux attrs
  | Flag.isRepack => ReleaseAttributes.isRepack attrs
  | Flag.isProper => ReleaseAttributes.isProper attrs
  | Flag.is3d => ReleaseAttributes.is3d attrs
  end.

(** Modelled from the spec: the result of [evaluateFormat]. *)
Module FormatMatchResult.
Record t : Type := mk {
  matches : bool;
  conditionResults : list ConditionMatchResult.t
}.
End FormatMatchResult.

Section WithRegExp.

(** [new RegExp(pattern, 'i')]: the compiled expression, or the SyntaxError
    the constructor throws on a pattern that does not compile. *)
Variable RegExp_new : string -> Exc.t RegExp.

(** Modelled from the spec: the pattern compiler of [matcher.ts] (section
    4.1: an invalid pattern must not throw, it behaves as permanently
    non-matching).  The cache keyed by pattern string memoises this function
    and is left out: it changes no result. *)
Definition getPattern (pattern : string) : Exc.t RegExp :=
  Exc.catch (RegExp_new pattern) (fun _ => Exc.ret neverMatches).

(** Modelled from the spec: the raw predicate of one condition of
    [matcher.ts] (section 4.1), before negation.  The [indexer] type has no
    rule in the specification and no attribute to look at; it never matches. *)
Definition rawMatchOf (condition : FormatCondition.t) (attrs : ReleaseAttributes.t)
  : Exc.t bool :=
  match FormatCondition.type condition with
  | ConditionType.resolution =>
      Exc.ret (optionEqb (FormatCondition.resolution condition)
                         (ReleaseAttributes.resolution attrs))
  | ConditionType.source =>
      Exc.ret (optionEqb (FormatCondition.source condition)
                         (ReleaseAttributes.source attrs))
  | ConditionType.codec =>
      Exc.ret (optionEqb (FormatCondition.codec condition)
                         (ReleaseAttributes.codec attrs))
  | ConditionType.audio =>
      Exc.ret (optionEqb (FormatCondition.audio condition)
                         (ReleaseAttributes.audio attrs)
               || (optionEqb (FormatCondition.audio condition) "atmos"
                   && includes "atmos" (toLowerCase (ReleaseAttributes.title attrs))))
  | ConditionType.hdr =>
      Exc.ret (match FormatCondition.hdr condition, ReleaseAttributes.hdr attrs with
               | None, _ => false
               | Some None, None => true
               | Some None, Some _ => false
               | Some (Some h), None => String.eqb h "sdr"
               | Some (Some h), Some a => String.eqb h a
               end)
  | ConditionType.release_title =>
      match FormatCondition.pattern condition with
      | Some p =>
          let! re := getPattern p in
          Exc.ret (re (ReleaseAttributes.title attrs))
      | None => Exc.ret false
      end
  | ConditionType.release_group =>
      match FormatCondition.pattern condition, ReleaseAttributes.releaseGroup attrs with
      | Some p, Some g =>
          let! re := getPattern p in
          Exc.ret (re g)
      | _, _ => Exc.ret false
      end
  | ConditionType.streaming_service =>
      match FormatCondition.streamingService condition,
            ReleaseAttributes.streamingService attrs with
      | Some s, Some a => Exc.ret (String.eqb (toLowerCase s) (toLowerCase a))
      | _, _ => Exc.ret false
      end
  | ConditionType.flag =>
      match FormatCondition.flag condition with
      | Some f => Exc.ret (default false (flagValue f attrs))
      | None => Exc.ret false
      end
  | ConditionType.indexer => Exc.ret false
  end.

(** Modelled from the spec: [evaluateCondition] of [matcher.ts] (section
    4.1): [matches = negate ? !rawMatch : rawMatch], both returned. *)
Definition evaluateCondition (condition : FormatCondition.t) (attrs : ReleaseAttributes.t)
  : Exc.t ConditionMatchResult.t :=
  let! rawMatch := rawMatchOf condition attrs in
  Exc.ret (ConditionMatchResult.mk condition
             (if FormatCondition.negate condition then negb rawMatch else rawMatch)
             rawMatch).

Definition isRequired (r : ConditionMatchResult.t) : bool :=
  FormatCondition.required (ConditionMatchResult.condition r).

(** Modelled from the spec: [evaluateFormat] of [matcher.ts] (section 4.2):
    partition the conditions into required and optional ones; all required
    ones must match; if an optional one exists, at least one must match. *)
Definition evaluateFormat (format : CustomFormat.t) (attrs : ReleaseAttributes.t)
  : Exc.t FormatMatchResult.t :=
  let! conditionResults :=
    Exc.mapM (fun c => evaluateCondition c attrs) (CustomFormat.conditions format) in
  let required := List.filter isRequired conditionResults in
  let optional := List.filter (fun r => negb (isRequired r)) conditionResults in
  let requiredMatch := forallb ConditionMatchResult.matches required in
  let optionalMatch :=
    (length optional =? 0)%nat || existsb ConditionMatchResult.matches optional in
  Exc.ret (FormatMatchResult.mk (requiredMatch && optionalMatch) conditionResults).

(** Modelled from the spec: [matchFormats] of [matcher.ts] (section 4.2):
    the formats of the library that match, each with its condition trace. *)
Fixpoint matchFormats (attrs : ReleaseAttributes.t) (formats : list CustomFormat.t)
  : Exc.t (list MatchedFormat.t) :=
  match formats with
  | [] => Exc.ret []
  | format :: rest =>
      let! r := evaluateFormat format attrs in
      let! matched := matchFormats attrs rest in
      Exc.ret (if FormatMatchResult.matches r
               then MatchedFormat.mk format (FormatMatchResult.conditionResults r) :: matched
               else matched)
  end.

(** The matcher as the pure function the scorer calls: the list that
    [matchFormats] returns (it always returns one, [matchFormats_total]). *)
Definition matchFormatsOrEmpty (attrs : ReleaseAttributes.t) (formats : list CustomFormat.t)
  : list MatchedFormat.t :=
  match matchFormats attrs formats with
  | Exc.Ok l => l
  | Exc.Throw _ => []
  end.

End WithRegExp.

End Matcher.

(** ** Arrays and template literals *)

Module JsArray.

(** Whether [Array.prototype.sort] reads a comparator result as "greater":
    a positive number; NaN counts as 0. *)
Definition positive (v : JsNum.num) : bool := JsNum.gtb_Q v 0.

(** Insertion of one element in front of a sorted list, past the elements
    the comparator puts before it. *)
Fixpoint insert {A : Type} (cmp : A -> A -> JsNum.num) (x : A) (sorted : list A) : list A :=
  match sorted with
  | [] => [x]
  | y :: rest => if positive (cmp x y) then y :: insert cmp x rest else x :: y :: rest
  end.

(** [Array.prototype.sort(cmp)]: the sort is stable, and a stable sort has
    one result for a comparator that orders the elements consistently; it is
    computed here by insertion from the right. *)
Definition sort {A : Type} (cmp : A -> A -> JsNum.num) (l : list A) : list A :=
  fold_right (insert cmp) [] l.

End JsArray.

Module JsShow.

(** [`${n}`] for a total: an integer in decimal, or an infinity or NaN. *)
Definition num (n : JsNum.num) : string :=
  match n with
  | JsNum.Fin z => pretty z
  | JsNum.PosInf => "Infinity"
  | JsNum.NegInf => "-Infinity"
  | JsNum.NaN => "NaN"
  end.

(** [`${s}`] for a string that may be [undefined]. *)
Definition optionalString (s : option string) : string :=
  match s with
  | Some v => v
  | None => "undefined"
  end.

(** The line feed. *)
Definition newline : string := String (ascii_of_nat 10) EmptyString.

End JsShow.

(** ** The scorer ([scoring/scorer.ts]) *)

Module Winner.
Inductive t : Type := release1 | release2 | tie.
End Winner.

Module Comparison.
Record t : Type := mk {
  winner : Winner.t;
  release1Score : ScoringResult.t;
  release2Score : ScoringResult.t;
  scoreDifference : JsNum.num
}.
End Comparison.

Module Release.
Record t : Type := mk {
  name : string;
  attributes : option ReleaseAttributes.t;
  sizeBytes : option Z
}.
End Release.

(** The [options] argument of [isUpgrade]; a field left out is [None]. *)
Module UpgradeOptions.
Record t : Type := mk {
  minimumImprovement : option Q;
  allowSidegrade : option bool;
  existingAttrs : option ReleaseAttributes.t;
  candidateAttrs : option ReleaseAttributes.t;
  existingSizeBytes : option Z;
  candidateSizeBytes : option Z
}.

(** The default [options = {}]. *)
Definition empty : t := mk None None None None None None.
End UpgradeOptions.

Module UpgradeResult.
Record t : Type := mk {
  isUpgrade : bool;
  improvement : JsNum.num;
  existing : ScoringResult.t;
  candidate : ScoringResult.t
}.
End UpgradeResult.

(** [ScoringResult & { rank: number }] *)
Module RankedResult.
Record t : Type := mk {
  result : ScoringResult.t;
  rank : Z
}.
End RankedResult.

(** The records [debugRelease] returns. *)
Module DebugCondition.
Record t : Type := mk {
  type : ConditionType.t;
  matched : bool;
  required : bool;
  negate : bool
}.
End DebugCondition.

Module DebugFormat.
Record t : Type := mk {
  id : string;
  name : string;
  category : string;
  conditions : list DebugCondition.t
}.
End DebugFormat.

Module DebugResult.
Record t : Type := mk {
  releaseName : string;
  matchedFormats : list DebugFormat.t
}.
End DebugResult.

Module Scorer.

Import JsFormat.

Definition BAN_THRESHOLD : Z := -999999.

(** HDR format priority order (most specific/best first). *)
Definition HDR_PRIORITY : list string :=
  [ "hdr-dolby-vision";
    "hdr-dolby-vision-no-fallback";
    "hdr-hdr10plus";
    "hdr-hdr10";
    "hdr10-missing";
    "hdr-generic";
    "hdr-hlg";
    "hdr-pq";
    "hdr-missing";
    "hdr-sdr" ].

Fixpoint indexOfFrom (l : list string) (x : string) (i : Z) : Z :=
  match l with
  | [] => -1
  | y :: rest => if String.eqb y x then i else indexOfFrom rest x (i + 1)
  end.

(** [Array.prototype.indexOf] *)
Definition indexOf (l : list string) (x : string) : Z := indexOfFrom l x 0.

Definition isHdr (mf : MatchedFormat.t) : bool :=
  String.eqb (CustomFormat.category (MatchedFormat.format mf)) "hdr".

Definition effectivePriority (hdr : MatchedFormat.t) : Z :=
  let priority := indexOf HDR_PRIORITY (CustomFormat.id (MatchedFormat.format hdr)) in
  if priority =? -1 then 100 else priority.

(** One turn of the loop over [hdrFormats]; the state is
    [(bestHdr, bestPriority)]. *)
Definition hdrStep (st : option MatchedFormat.t * JsNum.num) (hdr : MatchedFormat.t)
  : option MatchedFormat.t * JsNum.num :=
  let '(bestHdr, bestPriority) := st in
  if JsNum.ltb (JsNum.Fin (effectivePriority hdr)) bestPriority
  then (Some hdr, JsNum.Fin (effectivePriority hdr))
  else (bestHdr, bestPriority).

Definition applyMutualExclusivity (matchedFormats : list MatchedFormat.t)
  (_profile : ScoringProfile.t) : list MatchedFormat.t :=
  let hdrFormats := List.filter isHdr matchedFormats in
  let otherFormats := List.filter (fun mf => negb (isHdr mf)) matchedFormats in
  if (1 <? length hdrFormats)%nat then
    let '(bestHdr, _) := fold_left hdrStep hdrFormats (None, JsNum.PosInf) in
    match bestHdr with
    | Some best => otherFormats ++ [best]
    | None => otherFormats
    end
  else matchedFormats.

Definition calculateFormatScores (matchedFormats : list MatchedFormat.t)
  (profile : ScoringProfile.t) : list ScoredFormat.t :=
  map (fun mf =>
         let score :=
           default 0 (ScoringProfile.formatScores profile
                        !! CustomFormat.id (MatchedFormat.format mf)) in
         ScoredFormat.mk (MatchedFormat.format mf) (MatchedFormat.conditionResults mf) score)
      matchedFormats.

Definition categoryMapping : list (string * ScoreBreakdown.key) :=
  [ ("resolution", ScoreBreakdown.Kresolution);
    ("source", ScoreBreakdown.Ksource);
    ("codec", ScoreBreakdown.Kcodec);
    ("audio", ScoreBreakdown.Kaudio);
    ("hdr", ScoreBreakdown.Khdr);
    ("streaming", ScoreBreakdown.Kstreaming);
    ("enhancement", ScoreBreakdown.Kenhancement);
    ("banned", ScoreBreakdown.Kbanned);
    ("release_group_tier", ScoreBreakdown.KreleaseGroupTier);
    ("micro", ScoreBreakdown.KreleaseGroupTier);
    ("low_quality", ScoreBreakdown.KreleaseGroupTier) ].

Fixpoint lookupKey (m : list (string * ScoreBreakdown.key)) (category : string)
  : option ScoreBreakdown.key :=
  match m with
  | [] => None
  | (k, v) :: rest => if String.eqb k category then Some v else lookupKey rest category
  end.

(** [mapping[category] ?? null] *)
Definition categoryToBreakdownKey (category : string) : option ScoreBreakdown.key :=
  lookupKey categoryMapping category.

Definition emptyCategory : CategoryScore.t := CategoryScore.mk 0 [].

Definition emptyBreakdown : ScoreBreakdown.t :=
  ScoreBreakdown.mk emptyCategory emptyCategory emptyCategory emptyCategory
    emptyCategory emptyCategory emptyCategory emptyCategory emptyCategory.

(** One turn of the loop of [buildBreakdown]. *)
Definition breakdownStep (breakdown : ScoreBreakdown.t) (mf : ScoredFormat.t)
  : ScoreBreakdown.t :=
  match categoryToBreakdownKey (CustomFormat.category (ScoredFormat.format mf)) with
  | Some breakdownKey =>
      let old := ScoreBreakdown.get breakdownKey breakdown in
      ScoreBreakdown.set breakdownKey
        (CategoryScore.mk (CategoryScore.score old + ScoredFormat.score mf)
           (CategoryScore.formats old ++ [CustomFormat.name (ScoredFormat.format mf)]))
        breakdown
  | None => breakdown
  end.

Definition buildBreakdown (scoredFormats : list ScoredFormat.t) : ScoreBreakdown.t :=
  fold_left breakdownStep scoredFormats emptyBreakdown.

Definition isBanScore (f : ScoredFormat.t) : bool :=
  ScoredFormat.score f <=? BAN_THRESHOLD.

(** JavaScript truthiness of an optional boolean. *)
Definition truthy (b : option bool) : bool := default false b.

Section WithCollaborators.

(** The release parser followed by [extractAttributes] ([parseRelease]). *)
Variable parseRelease : string -> ReleaseAttributes.t.

(** [matchFormats] of [matcher.ts] and the format library [ALL_FORMATS]. *)
Variable matchFormats : ReleaseAttributes.t -> list CustomFormat.t -> list MatchedFormat.t.
Variable ALL_FORMATS : list CustomFormat.t.

(** How a template literal prints a number ([Number.prototype.toString]). *)
Variable numberToString : Q -> string.

(** [minSize !== null && size < minSize] and its mirror image. *)
Definition belowMin (minSize : option Q) (size : Q) : bool :=
  match minSize with
  | Some lo => Qltb size lo
  | None => false
  end.

Definition aboveMax (maxSize : option Q) (size : Q) : bool :=
  match maxSize with
  | Some hi => Qgtb size hi
  | None => false
  end.

(** [`${bound}`] for a bound that is a number or [null]. *)
Definition showBound (bound : option Q) : string :=
  match bound with
  | Some q => numberToString q
  | None => "null"
  end.

Definition scoreRelease (releaseName : string) (profile : ScoringProfile.t)
  (attributes : option ReleaseAttributes.t) (fileSizeBytes : option Z)
  (sizeContext : option SizeValidationContext.t) (protocol : option Protocol.t)
  : ScoringResult.t :=
  (* 1. Extract attributes if not provided *)
  let attrs := match attributes with Some a => a | None => parseRelease releaseName end in
  (* 2. Match all formats against the release *)
  let matchedFormats := matchFormats attrs ALL_FORMATS in
  (* 2.5 Apply mutual exclusivity rules *)
  let matchedFormats := applyMutualExclusivity matchedFormats profile in
  (* 3. Calculate scores based on profile *)
  let scoredFormats := calculateFormatScores matchedFormats profile in
  (* (the debug logging for small profiles changes no value) *)
  (* 4. Build score breakdown by category *)
  let breakdown := buildBreakdown scoredFormats in
  (* 5. Calculate total score *)
  let totalScore := fold_left (fun sum f => sum + ScoredFormat.score f) scoredFormats 0 in
  (* 6. Check for bans *)
  let isBanned := existsb isBanScore scoredFormats in
  let bannedReasons :=
    map (fun f => CustomFormat.name (ScoredFormat.format f))
        (List.filter isBanScore scoredFormats) in
  (* 7. Check file size limits (media-specific) *)
  let '(sizeRejected, sizeRejectionReason) :=
    match fileSizeBytes, sizeContext with
    | Some bytes, Some ctx =>
        if 0 <? bytes then
          let fileSizeGb := (inject_Z bytes / inject_Z (1024 * 1024 * 1024))%Q in
          let fileSizeMb := (inject_Z bytes / inject_Z (1024 * 1024))%Q in
          match SizeValidationContext.mediaType ctx with
          | MediaType.movie =>
              let minSize := ScoringProfile.movieMinSizeGb profile in
              let maxSize := ScoringProfile.movieMaxSizeGb profile in
              if belowMin minSize fileSizeGb then
                (true, Some ("Movie size " +:+ toFixed 2 fileSizeGb
                             +:+ " GB is below minimum " +:+ showBound minSize +:+ " GB"))
              else if aboveMax maxSize fileSizeGb then
                (true, Some ("Movie size " +:+ toFixed 2 fileSizeGb
                             +:+ " GB exceeds maximum " +:+ showBound maxSize +:+ " GB"))
              else (false, None)
          | MediaType.tv =>
              let minSizeMb := ScoringProfile.episodeMinSizeMb profile in
              let maxSizeMb := ScoringProfile.episodeMaxSizeMb profile in
              let effectiveSizeMb :=
                if truthy (SizeValidationContext.isSeasonPack ctx) then
                  match SizeValidationContext.episodeCount ctx with
                  | None => (-1)%Q  (* signal to skip size validation below *)
                  | Some episodeCount =>
                      (* [!episodeCount || episodeCount <= 0] *)
                      if (episodeCount =? 0) || (episodeCount <=? 0)
                      then (-1)%Q
                      else (fileSizeMb / inject_Z episodeCount)%Q
                  end
                else fileSizeMb in
              (* [!sizeRejected] holds here: nothing has rejected yet *)
              if Qgtb effectiveSizeMb 0 then
                let perEp :=
                  if truthy (SizeValidationContext.isSeasonPack ctx)
                  then " per episode (avg)" else "" in
                if belowMin minSizeMb effectiveSizeMb then
                  (true, Some ("Episode size " +:+ toFixed 0 effectiveSizeMb +:+ " MB" +:+ perEp
                               +:+ " is below minimum " +:+ showBound minSizeMb +:+ " MB"))
                else if aboveMax maxSizeMb effectiveSizeMb then
                  (true, Some ("Episode size " +:+ toFixed 0 effectiveSizeMb +:+ " MB" +:+ perEp
                               +:+ " exceeds maximum " +:+ showBound maxSizeMb +:+ " MB"))
                else (false, None)
              else (false, None)
          end
        else (false, None)
    | _, _ => (false, None)
    end in
  (* 8. Check protocol restrictions *)
  let '(protocolRejected, protocolRejectionReason) :=
    match protocol, ScoringProfile.allowedProtocols profile with
    | Some protocol, Some allowedProtocols =>
        if (0 <? length allowedProtocols)%nat
           && negb (existsb (Protocol.eqb protocol) allowedProtocols)
        then (true, Some ("Protocol '" +:+ Protocol.toString protocol
                          +:+ "' not allowed. Profile accepts: "
                          +:+ join ", " (map Protocol.toString allowedProtocols)))
        else (false, None)
    | _, _ => (false, None)
    end in
  (* 9. Determine if release meets minimum quality threshold *)
  let meetsMinimum :=
    negb isBanned && negb sizeRejected && negb protocolRejected
    && Qle_bool (default 0%Q (ScoringProfile.minScore profile)) (inject_Z totalScore) in
  ScoringResult.mk
    releaseName
    (ScoringProfile.name profile)
    (if isBanned then JsNum.NegInf else JsNum.Fin totalScore)
    scoredFormats
    breakdown
    meetsMinimum
    isBanned
    bannedReasons
    sizeRejected
    sizeRejectionReason
    protocolRejected
    protocolRejectionReason.

Definition compareReleases (release1 release2 : string) (profile : ScoringProfile.t)
  (attrs1 attrs2 : option ReleaseAttributes.t) (size1Bytes size2Bytes : option Z)
  : Comparison.t :=
  let score1 := scoreRelease release1 profile attrs1 size1Bytes None None in
  let score2 := scoreRelease release2 profile attrs2 size2Bytes None None in
  let diff := JsNum.sub (ScoringResult.totalScore score1) (ScoringResult.totalScore score2) in
  let winner :=
    if JsNum.gtb_Q diff 0 then Winner.release1
    else if JsNum.ltb_Q diff 0 then Winner.release2
    else Winner.tie in
  Comparison.mk winner score1 score2 (JsNum.abs diff).

Definition filterQualityReleases (releases : list Release.t) (profile : ScoringProfile.t)
  : list ScoringResult.t :=
  List.filter
    (fun r => ScoringResult.meetsMinimum r && negb (ScoringResult.isBanned r)
              && negb (ScoringResult.sizeRejected r)
              && negb (ScoringResult.protocolRejected r))
    (map (fun r => scoreRelease (Release.name r) profile (Release.attributes r)
                     (Release.sizeBytes r) None None)
         releases).

Definition isUpgrade (existingRelease candidateRelease : string)
  (profile : ScoringProfile.t) (options : UpgradeOptions.t) : UpgradeResult.t :=
  let minimumImprovement := default 0%Q (UpgradeOptions.minimumImprovement options) in
  let allowSidegrade := default false (UpgradeOptions.allowSidegrade options) in
  let existing :=
    scoreRelease existingRelease profile (UpgradeOptions.existingAttrs options)
      (UpgradeOptions.existingSizeBytes options) None None in
  let candidate :=
    scoreRelease candidateRelease profile (UpgradeOptions.candidateAttrs options)
      (UpgradeOptions.candidateSizeBytes options) None None in
  (* Never upgrade to a banned, size-rejected, protocol-rejected, or
     below-minimum release *)
  if ScoringResult.isBanned candidate
     || ScoringResult.sizeRejected candidate
     || ScoringResult.protocolRejected candidate
     || negb (ScoringResult.meetsMinimum candidate)
  then UpgradeResult.mk false (JsNum.Fin 0) existing candidate
  else
    let improvement :=
      JsNum.sub (ScoringResult.totalScore candidate) (ScoringResult.totalScore existing) in
    let isUpgradeResult :=
      if allowSidegrade
      then JsNum.geb_Q improvement minimumImprovement
      else JsNum.gtb_Q improvement minimumImprovement in
    UpgradeResult.mk isUpgradeResult improvement existing candidate.

(** The comparator of [rankReleases]: rejected releases go to the end,
    otherwise the higher total comes first. *)
Definition rankCompare (a b : ScoringResult.t) : JsNum.num :=
  let aRejected :=
    ScoringResult.isBanned a || ScoringResult.sizeRejected a
    || ScoringResult.protocolRejected a in
  let bRejected :=
    ScoringResult.isBanned b || ScoringResult.sizeRejected b
    || ScoringResult.protocolRejected b in
  if aRejected && negb bRejected then JsNum.Fin 1
  else if negb aRejected && bRejected then JsNum.Fin (-1)
  else JsNum.sub (ScoringResult.totalScore b) (ScoringResult.totalScore a).

Definition rankReleases (releases : list Release.t) (profile : ScoringProfile.t)
  : list RankedResult.t :=
  let scored :=
    map (fun r => scoreRelease (Release.name r) profile (Release.attributes r)
                    (Release.sizeBytes r) None None)
        releases in
  let sorted := JsArray.sort rankCompare scored in
  imap (fun i s => RankedResult.mk s (Z.of_nat i + 1)) sorted.

Definition getMatchedFormatIds (releaseName : string)
  (attributes : option ReleaseAttributes.t) : list string :=
  let attrs := match attributes with Some a => a | None => parseRelease releaseName end in
  let matched := matchFormats attrs ALL_FORMATS in
  map (fun m => CustomFormat.id (MatchedFormat.format m)) matched.

Definition debugRelease (releaseName : string)
  (attributes : option ReleaseAttributes.t) : DebugResult.t :=
  let attrs := match attributes with Some a => a | None => parseRelease releaseName end in
  let matched := matchFormats attrs ALL_FORMATS in
  DebugResult.mk releaseName
    (map (fun m =>
            DebugFormat.mk
              (CustomFormat.id (MatchedFormat.format m))
              (CustomFormat.name (MatchedFormat.format m))
              (CustomFormat.category (MatchedFormat.format m))
              (map (fun c =>
                      DebugCondition.mk
                        (FormatCondition.type (ConditionMatchResult.condition c))
                        (ConditionMatchResult.matches c)
                        (FormatCondition.required (ConditionMatchResult.condition c))
                        (FormatCondition.negate (ConditionMatchResult.condition c)))
                   (MatchedFormat.conditionResults m)))
         matched).

End WithCollaborators.

(** The property names of the breakdown, in the order [buildBreakdown]
    creates them ([Object.entries] lists them in that order). *)
Definition keyName (k : ScoreBreakdown.key) : string :=
  match k with
  | ScoreBreakdown.Kresolution => "resolution"
  | ScoreBreakdown.Ksource => "source"
  | ScoreBreakdown.Kcodec => "codec"
  | ScoreBreakdown.Kaudio => "audio"
  | ScoreBreakdown.Khdr => "hdr"
  | ScoreBreakdown.Kstreaming => "streaming"
  | ScoreBreakdown.KreleaseGroupTier => "releaseGroupTier"
  | ScoreBreakdown.Kbanned => "banned"
  | ScoreBreakdown.Kenhancement => "enhancement"
  end.

(** One line of the breakdown section of [explainScore]. *)
Definition categoryLine (k : ScoreBreakdown.key) (data : CategoryScore.t) : string :=
  let sign := if 0 <=? CategoryScore.score data then "+" else "" in
  "  " +:+ keyName k +:+ ": " +:+ sign +:+ pretty (CategoryScore.score data)
  +:+ " (" +:+ join ", " (CategoryScore.formats data) +:+ ")".

(** The [lines] array of [explainScore], before it is joined. *)
Definition explainLines (result : ScoringResult.t) : list string :=
  [ "Release: " +:+ ScoringResult.releaseName result;
    "Profile: " +:+ ScoringResult.profile result;
    "Total Score: " +:+ JsShow.num (ScoringResult.totalScore result);
    "" ]
  ++ (if ScoringResult.isBanned result
      then [ "BANNED";
             "Reasons: " +:+ join ", " (ScoringResult.bannedReasons result);
             "" ]
      else [])
  ++ (if ScoringResult.sizeRejected result
      then [ "SIZE REJECTED";
             "Reason: " +:+ JsShow.optionalString (ScoringResult.sizeRejectionReason result);
             "" ]
      else [])
  ++ (if ScoringResult.protocolRejected result
      then [ "PROTOCOL REJECTED";
             "Reason: "
             +:+ JsShow.optionalString (ScoringResult.protocolRejectionReason result);
             "" ]
      else [])
  ++ [ "Score Breakdown:" ]
  ++ map (fun k => categoryLine k (ScoreBreakdown.get k (ScoringResult.breakdown result)))
         (List.filter
            (fun k =>
               (0 <? length (CategoryScore.formats
                               (ScoreBreakdown.get k (ScoringResult.breakdown result))))%nat)
            ScoreBreakdown.keys)
  ++ [ "";
       "Meets Minimum: " +:+ (if ScoringResult.meetsMinimum result then "Yes" else "No") ].

Definition explainScore (result : ScoringResult.t) : string :=
  join JsShow.newline (explainLines result).

End Scorer.

(** ** Release group formats ([scoring/formats/groups.ts]) *)

Module Groups.

Definition inRange (lo hi : nat) (c : ascii) : bool :=
  let n := nat_of_ascii c in ((lo <=? n) && (n <=? hi))%nat.

(** The characters that [/[^a-z0-9-]/g] leaves in place. *)
Definition isIdChar (c : ascii) : bool :=
  inRange 97 122 c || inRange 48 57 c || Ascii.eqb c "-".

(** The characters of the class [[.*+?^${}()|[\]\\]]. *)
Definition isRegExpSpecial (c : ascii) : bool :=
  existsb (Ascii.eqb c)
    [ "."; "*"; "+"; "?"; "^"; "$"; "{"; "}"; "("; ")"; "|"; "["; "]"; "\" ]%char.

(** [s.replace(/[^a-z0-9-]/g, '')] *)
Fixpoint keepIdChars (s : string) : string :=
  match s with
  | EmptyString => EmptyString
  | String c rest => if isIdChar c then String c (keepIdChars rest) else keepIdChars rest
  end.

(** [s.replace(/[.*+?^${}()|[\]\\]/g, '\\$&')]: a backslash in front of
    every special character. *)
Fixpoint escapeRegExp (s : string) : string :=
  match s with
  | EmptyString => EmptyString
  | String c rest =>
      if isRegExpSpecial c then String "\" (String c (escapeRegExp rest))
      else String c (escapeRegExp rest)
  end.

(** Helper to create a simple release group format; the names are ASCII. *)
Definition createGroupFormat (name : string) (description : option string)
  (tags : option (list string)) : CustomFormat.t :=
  let id := "group-" +:+ keepIdChars (Matcher.toLowerCase name) in
  CustomFormat.mk
    id
    name
    (match description with
     | Some d => if String.eqb d "" then name +:+ " release group" else d
     | None => name +:+ " release group"
     end)
    "release_group_tier"
    ("Release Group" :: default [] tags)
    [ FormatCondition.mk name ConditionType.release_group true false
        None None (Some ("^" +:+ escapeRegExp name +:+ "$")) None None None None None ].

Section WithTable.

(** The table of release group formats. *)
Variable RELEASE_GROUP_FORMATS : list CustomFormat.t.

Definition RELEASE_GROUP_NAMES : list string :=
  map CustomFormat.name RELEASE_GROUP_FORMATS.

(** Check if a release group is known. *)
Definition isKnownGroup (group : option string) : bool :=
  match group with
  | None => false
  | Some g =>
      if String.eqb g "" then false
      else existsb (fun name => String.eqb (Matcher.toLowerCase g) (Matcher.toLowerCase name))
                   RELEASE_GROUP_NAMES
  end.

End WithTable.

End Groups.

(** ** Vocabulary of the statements below *)

Module MatcherSpec.

(** Whether one condition matches the attributes ([matches] of the result of
    [evaluateCondition]; a throw counts as no match). *)
Definition conditionMatches (RegExp_new : string -> Exc.t Matcher.RegExp)
  (condition : FormatCondition.t) (attrs : ReleaseAttributes.t) : bool :=
  match Matcher.evaluateCondition RegExp_new condition attrs with
  | Exc.Ok r => ConditionMatchResult.matches r
  | Exc.Throw _ => false
  end.

End MatcherSpec.

Module ScorerSpec.

Section WithCollaborators.

Variable parseRelease : string -> ReleaseAttributes.t.
Variable matchFormats : ReleaseAttributes.t -> list CustomFormat.t -> list MatchedFormat.t.
Variable ALL_FORMATS : list CustomFormat.t.

(** The formats that survive matching and mutual exclusivity, with the score
    the profile gives each: steps 1 to 3 of [scoreRelease]. *)
Definition scoredOf (releaseName : string) (profile : ScoringProfile.t)
  (attributes : option ReleaseAttributes.t) : list ScoredFormat.t :=
  Scorer.calculateFormatScores
    (Scorer.applyMutualExclusivity
       (matchFormats (match attributes with Some a => a | None => parseRelease releaseName end)
          ALL_FORMATS)
       profile)
    profile.

End WithCollaborators.

(** The arithmetic sum of the scores of a list of scored formats. *)
Definition sumScores (l : list ScoredFormat.t) : Z :=
  fold_right (fun f s => ScoredFormat.score f + s) 0 l.

(** The breakdown bucket of a scored format, if its category has one. *)
Definition bucketOf (f : ScoredFormat.t) : option ScoreBreakdown.key :=
  Scorer.categoryToBreakdownKey (CustomFormat.category (ScoredFormat.format f)).

Definition key_eqb (a b : ScoreBreakdown.key) : bool :=
  match a, b with
  | ScoreBreakdown.Kresolution, ScoreBreakdown.Kresolution
  | ScoreBreakdown.Ksource, ScoreBreakdown.Ksource
  | ScoreBreakdown.Kcodec, ScoreBreakdown.Kcodec
  | ScoreBreakdown.Kaudio, ScoreBreakdown.Kaudio
  | ScoreBreakdown.Khdr, ScoreBreakdown.Khdr
  | ScoreBreakdown.Kstreaming, ScoreBreakdown.Kstreaming
  | ScoreBreakdown.KreleaseGroupTier, ScoreBreakdown.KreleaseGroupTier
  | ScoreBreakdown.Kbanned, ScoreBreakdown.Kbanned
  | ScoreBreakdown.Kenhancement, ScoreBreakdown.Kenhancement => true
  | _, _ => false
  end.

Definition inBucket (k : ScoreBreakdown.key) (f : ScoredFormat.t) : bool :=
  match bucketOf f with
  | Some k' => key_eqb k k'
  | None => false
  end.

Definition hasBucket (f : ScoredFormat.t) : bool :=
  match bucketOf f with
  | Some _ => true
  | None => false
  end.

(** The categories that [categoryToBreakdownKey] maps. *)
Definition mappedCategories : list string :=
  [ "resolution"; "source"; "codec"; "audio"; "hdr"; "streaming"; "enhancement";
    "banned"; "release_group_tier"; "micro"; "low_quality" ].

(** The rank of a format id in the priority order of the hdr formats as
    the specification lists it: 0 for the best, 9 for the last, and 100,
    below all of them, for an id that is not listed. *)
Definition hdrRank (id : string) : Z :=
  if String.eqb "hdr-dolby-vision" id then 0
  else if String.eqb "hdr-dolby-vision-no-fallback" id then 1
  else if String.eqb "hdr-hdr10plus" id then 2
  else if String.eqb "hdr-hdr10" id then 3
  else if String.eqb "hdr10-missing" id then 4
  else if String.eqb "hdr-generic" id then 5
  else if String.eqb "hdr-hlg" id then 6
  else if String.eqb "hdr-pq" id then 7
  else if String.eqb "hdr-missing" id then 8
  else if String.eqb "hdr-sdr" id then 9
  else 100.

Definition rankOf (mf : MatchedFormat.t) : Z :=
  hdrRank (CustomFormat.id (MatchedFormat.format mf)).

(** A match of the hdr category. *)
Definition inHdr (mf : MatchedFormat.t) : bool :=
  String.eqb (CustomFormat.category (MatchedFormat.format mf)) "hdr".

(** The score a profile resolves for a format: its entry for the format's
    id, and 0 without one. *)
Definition resolvedScore (profile : ScoringProfile.t) (format : CustomFormat.t) : Z :=
  default 0 (ScoringProfile.formatScores profile !! CustomFormat.id format).

(** A match as it is scored: the format, its condition results and the
    resolved score. *)
Definition scoredAs (profile : ScoringProfile.t) (mf : MatchedFormat.t) : ScoredFormat.t :=
  ScoredFormat.mk (MatchedFormat.format mf) (MatchedFormat.conditionResults mf)
    (resolvedScore profile (MatchedFormat.format mf)).

(** A match that counts among the matches [matched]: every match outside
    the hdr category; the hdr match when it is the only one; and, of several
    hdr matches, the first one of least rank. *)
Definition counted (matched : list MatchedFormat.t) (mf : MatchedFormat.t) : Prop :=
  inHdr mf = false
  \/ (length (List.filter inHdr matched) <= 1)%nat
  \/ exists pre post,
       List.filter inHdr matched = pre ++ mf :: post
       /\ (forall h, In h pre -> rankOf mf < rankOf h)
       /\ (forall h, In h post -> rankOf mf <= rankOf h).

End ScorerSpec.

(** ** Example data: the releases, formats and profiles of the tests *)

Module Examples.

(** A stand-in for the regular-expression engine: a pattern of plain
    characters matches as a case-insensitive substring, and a pattern with
    an opening bracket does not compile. *)
Definition literalRegExp (pattern : string) : Exc.t Matcher.RegExp :=
  if Matcher.includes "[" pattern
  then Exc.Throw "SyntaxError: Invalid regular expression"
  else Exc.Ok (fun s => Matcher.includes (Matcher.toLowerCase pattern) (Matcher.toLowerCase s)).

(** The digits after the decimal point of [r / d] for [0 <= r < d], up to
    [fuel] of them, ending with the last digit that is not 0. *)
Fixpoint fractionDigits (fuel : nat) (r d : Z) : string :=
  match fuel with
  | O => ""
  | S fuel' =>
      if r =? 0 then ""
      else pretty ((r * 10) / d) +:+ fractionDigits fuel' ((r * 10) mod d) d
  end.

(** A stand-in for [Number.prototype.toString] on the numbers a profile
    holds: the decimal notation without exponent, an integer without a
    point and a fraction with the digits of its decimal expansion (1.5, 0.75),
    cut after 20 digits. *)
Definition showNumber (q : Q) : string :=
  let n := Z.abs (Qnum q) in
  let d := Zpos (Qden q) in
  let digits := fractionDigits 20 (n mod d) d in
  (if Qnum q <? 0 then "-" else "")
  +:+ pretty (n / d)
  +:+ (if String.eqb digits "" then "" else "." +:+ digits).

(** [createRelease()] of [matcher.test.ts]. *)
Definition release : ReleaseAttributes.t :=
  ReleaseAttributes.mk
    "Movie.2024.2160p.UHD.BluRay.REMUX.DV.HDR.TrueHD.Atmos.7.1-GROUP"
    "Movie" (Some 2024) "2160p" "bluray" "h265" (Some "dolby-vision") "truehd"
    (Some "GROUP") None (Some true) (Some false) (Some false) (Some false) ["english"].

(** The same release without a release group. *)
Definition releaseWithoutGroup : ReleaseAttributes.t :=
  ReleaseAttributes.mk
    "Movie.2024.2160p.UHD.BluRay.REMUX.DV.HDR.TrueHD.Atmos.7.1"
    "Movie" (Some 2024) "2160p" "bluray" "h265" (Some "dolby-vision") "truehd"
    None None (Some true) (Some false) (Some false) (Some false) ["english"].

Definition camRelease : ReleaseAttributes.t :=
  ReleaseAttributes.mk
    "Movie.2024.CAM.x264-GROUP"
    "Movie" (Some 2024) "unknown" "cam" "h264" None "unknown"
    (Some "GROUP") None (Some false) (Some false) (Some false) (Some false) [].

(** [createCondition] of [matcher.test.ts], one constructor per payload. *)
Definition condition (type : ConditionType.t) (required negate : bool) : FormatCondition.t :=
  FormatCondition.mk "Test Condition" type required negate
    None None None None None None None None.

Definition resolutionIs (v : string) (required negate : bool) : FormatCondition.t :=
  FormatCondition.mk "Test Condition" ConditionType.resolution required negate
    (Some v) None None None None None None None.

Definition sourceIs (v : string) (required negate : bool) : FormatCondition.t :=
  FormatCondition.mk "Test Condition" ConditionType.source required negate
    None (Some v) None None None None None None.

Definition hdrIs (v : string) (required negate : bool) : FormatCondition.t :=
  FormatCondition.mk "Test Condition" ConditionType.hdr required negate
    None None None None None (Some (Some v)) None None.

Definition titleMatches (p : string) (required negate : bool) : FormatCondition.t :=
  FormatCondition.mk "Test Condition" ConditionType.release_title required negate
    None None (Some p) None None None None None.

Definition groupMatches (p : string) (required negate : bool) : FormatCondition.t :=
  FormatCondition.mk "Test Condition" ConditionType.release_group required negate
    None None (Some p) None None None None None.

(** [createFormat([])]: no conditions, category 'other'. *)
Definition sentinel : CustomFormat.t :=
  CustomFormat.mk "test-format" "Test Format" "Test format description" "other" [] [].

Definition remux2160 : CustomFormat.t :=
  CustomFormat.mk "2160p-remux" "2160p Remux" "4K Remux" "resolution" []
    [resolutionIs "2160p" true false; titleMatches "Remux" true false].

Definition dolbyVision : CustomFormat.t :=
  CustomFormat.mk "hdr-dolby-vision" "Dolby Vision" "DV with fallback" "hdr" []
    [hdrIs "dolby-vision" true false].

Definition genericHdr : CustomFormat.t :=
  CustomFormat.mk "hdr-generic" "HDR" "Generic HDR" "hdr" []
    [titleMatches "HDR" true false].

Definition cam : CustomFormat.t :=
  CustomFormat.mk "banned-cam" "CAM" "Camera recording" "banned" []
    [sourceIs "cam" true false].

Definition library : list CustomFormat.t := [remux2160; genericHdr; dolbyVision; cam].

Definition profile : ScoringProfile.t :=
  ScoringProfile.mk "test-profile" "Test Profile" "A profile for the examples"
    (<["2160p-remux" := 20000]> (<["hdr-dolby-vision" := 3000]>
       (<["hdr-generic" := 500]> (<["banned-cam" := -999999]> ∅))))
    (Some 0%Q) 100000 0
    None None (Some (100 # 1)) (Some (800 # 1))
    (Some [Protocol.usenet]) true.

(** A parser stand-in: every name parses to the attributes given. *)
Definition parseAs (attrs : ReleaseAttributes.t) : string -> ReleaseAttributes.t :=
  fun _ => attrs.

Definition matcher : ReleaseAttributes.t -> list CustomFormat.t -> list MatchedFormat.t :=
  Matcher.matchFormatsOrEmpty literalRegExp.

(** The scorer over the example library, and over the sentinel alone. *)
Definition score (attrs : ReleaseAttributes.t) :=
  Scorer.scoreRelease (parseAs attrs) matcher library showNumber.

Definition scoreSentinel :=
  Scorer.scoreRelease (parseAs release) matcher [sentinel] showNumber.

Definition seasonPack (episodeCount : option Z) : SizeValidationContext.t :=
  SizeValidationContext.mk MediaType.tv (Some true) episodeCount.

(** A profile that bans generic HDR and rewards Dolby Vision. *)
Definition hdrBanProfile : ScoringProfile.t :=
  ScoringProfile.mk "hdr-ban-profile" "No Generic HDR" "Bans the generic HDR format"
    (<["hdr-dolby-vision" := 3000]> (<["hdr-generic" := -999999]> ∅))
    (Some 0%Q) 100000 0
    None None None None
    None true.

(** What [matchFormats] answers for a release tagged DV and HDR: the Dolby
    Vision format and the generic HDR format both match. *)
Definition dvAndHdrMatched : list MatchedFormat.t :=
  [ MatchedFormat.mk dolbyVision []; MatchedFormat.mk genericHdr [] ].

Definition dvAndHdrMatcher : ReleaseAttributes.t -> list CustomFormat.t -> list MatchedFormat.t :=
  fun _ _ => dvAndHdrMatched.

Definition tenGiB : Z := 10 * 1024 * 1024 * 1024.

End Examples.

(** ** Vocabulary and example data for the remaining functions *)

Module CoverageSpec.

(** A result that [rankReleases] sends to the end. *)
Definition rejected (r : ScoringResult.t) : bool :=
  ScoringResult.isBanned r || ScoringResult.sizeRejected r
  || ScoringResult.protocolRejected r.

(** [a] may stand before [b] in a ranking: a rejected result never stands
    before an accepted one, and within the same class the total of [a] is
    not below the total of [b]. *)
Definition rankedBefore (a b : ScoringResult.t) : Prop :=
  (rejected a = true -> rejected b = true)
  /\ (rejected a = rejected b ->
      JsNum.ltb (ScoringResult.totalScore a) (ScoringResult.totalScore b) = false).

(** The total of a result is what its ban flag says: -Infinity when banned,
    an integer when not. *)
Definition totalMatchesBan (r : ScoringResult.t) : Prop :=
  exists z, ScoringResult.totalScore r
            = if ScoringResult.isBanned r then JsNum.NegInf else JsNum.Fin z.

(** The other way of the winner. *)
Definition flipWinner (w : Winner.t) : Winner.t :=
  match w with
  | Winner.release1 => Winner.release2
  | Winner.release2 => Winner.release1
  | Winner.tie => Winner.tie
  end.

(** Reading an escaped pattern back: a backslash stands for the character
    after it. *)
Fixpoint unescapeRegExp (s : string) : string :=
  match s with
  | EmptyString => EmptyString
  | String c rest =>
      if Ascii.eqb c "\"
      then match rest with
           | EmptyString => EmptyString
           | String d rest' => String d (unescapeRegExp rest')
           end
      else String c (unescapeRegExp rest)
  end.

(** Every character of a string satisfies a test. *)
Fixpoint allChars (p : ascii -> bool) (s : string) : bool :=
  match s with
  | EmptyString => true
  | String c rest => p c && allChars p rest
  end.

(** A character of a to z, 0 to 9, or the hyphen (character codes 97 to 122,
    48 to 57, and 45). *)
Definition isSlugChar (c : ascii) : bool :=
  let n := nat_of_ascii c in
  (((97 <=? n) && (n <=? 122)) || ((48 <=? n) && (n <=? 57)) || (n =? 45))%nat.

End CoverageSpec.

Module CoverageExamples.

(** A profile with movie limits of 1.5 GB and 50 GB. *)
Definition movieProfile : ScoringProfile.t :=
  ScoringProfile.mk "movie-profile" "Movie Profile" "Movie size limits"
    (<["2160p-remux" := 20000]> ∅)
    (Some 0%Q) 100000 0
    (Some (3 # 2)) (Some (50 # 1)) None None
    None true.

Definition movieContext : SizeValidationContext.t :=
  SizeValidationContext.mk MediaType.movie None None.

Definition oneGiB : Z := 1024 * 1024 * 1024.

Definition groups : list CustomFormat.t :=
  [ Groups.createGroupFormat "D-Z0N3" None None;
    Groups.createGroupFormat "FLUX" (Some "Quality WEB-DL group") None;
    Groups.createGroupFormat "Erai-raws" (Some "Anime group") (Some ["Anime"]) ].

End CoverageExamples.

(** * Properties *)

(** ** Arithmetic of totals *)

Lemma Qle_bool_inject_Z_0_r (x : Z) : Qle_bool (inject_Z x) 0 = (x <=? 0).
Proof. unfold Qle_bool, inject_Z; cbn [Qnum Qden]. f_equal; lia. Qed.

Lemma Qle_bool_inject_Z_0_l (x : Z) : Qle_bool 0 (inject_Z x) = (0 <=? x).
Proof. unfold Qle_bool, inject_Z; cbn [Qnum Qden]. f_equal; lia. Qed.

Lemma gtb_Q_Fin_0 (x : Z) : JsNum.gtb_Q (JsNum.Fin x) 0 = (0 <? x).
Proof. simpl. rewrite Qle_bool_inject_Z_0_r. apply eq_sym, Z.ltb_antisym. Qed.

Lemma ltb_Q_Fin_0 (x : Z) : JsNum.ltb_Q (JsNum.Fin x) 0 = (x <? 0).
Proof. simpl. rewrite Qle_bool_inject_Z_0_l. apply eq_sym, Z.ltb_antisym. Qed.

Lemma fold_left_add_acc {A : Type} (f : A -> Z) (l : list A) (acc : Z) :
  fold_left (fun sum x => sum + f x) l acc = acc + fold_right (fun x s => f x + s) 0 l.
Proof.
  revert acc. induction l as [|x l IH]; intros acc; simpl.
  - lia.
  - rewrite IH. lia.
Qed.

(** ** The matcher *)

Section MatcherProperties.

Variable RegExp_new : string -> Exc.t Matcher.RegExp.

Abbreviation getPattern := (Matcher.getPattern RegExp_new).
Abbreviation rawMatchOf := (Matcher.rawMatchOf RegExp_new).
Abbreviation evaluateCondition := (Matcher.evaluateCondition RegExp_new).
Abbreviation evaluateFormat := (Matcher.evaluateFormat RegExp_new).
Abbreviation matchFormats := (Matcher.matchFormats RegExp_new).
Abbreviation conditionMatches := (MatcherSpec.conditionMatches RegExp_new).

(** The compiler catches the SyntaxError of the constructor. *)
Lemma getPattern_total (pattern : string) :
  exists re, getPattern pattern = Exc.Ok re
    /\ (forall e, RegExp_new pattern = Exc.Throw e -> re = Matcher.neverMatches)
    /\ (forall re', RegExp_new pattern = Exc.Ok re' -> re = re').
Proof.
  unfold Matcher.getPattern. destruct (RegExp_new pattern) as [re | e]; cbn.
  - exists re. split; [reflexivity |]. split; [discriminate | now intros re' [= <-]].
  - exists Matcher.neverMatches. split; [reflexivity |]. split; [reflexivity | discriminate].
Qed.

Lemma rawMatchOf_total condition attrs :
  exists b, rawMatchOf condition attrs = Exc.Ok b.
Proof.
  unfold Matcher.rawMatchOf.
  destruct (FormatCondition.type condition); try (eexists; reflexivity).
  - destruct (FormatCondition.pattern condition) as [p|]; [| eexists; reflexivity].
    destruct (getPattern_total p) as (re & -> & _). eexists; reflexivity.
  - destruct (FormatCondition.pattern condition) as [p|]; [| eexists; reflexivity].
    destruct (ReleaseAttributes.releaseGroup attrs) as [g|]; [| eexists; reflexivity].
    destruct (getPattern_total p) as (re & -> & _). eexists; reflexivity.
  - destruct (FormatCondition.streamingService condition),
             (ReleaseAttributes.streamingService attrs); eexists; reflexivity.
  - destruct (FormatCondition.flag condition); eexists; reflexivity.
Qed.

Lemma evaluateCondition_total condition attrs :
  exists b,
    rawMatchOf condition attrs = Exc.Ok b
    /\ evaluateCondition condition attrs =
         Exc.Ok (ConditionMatchResult.mk condition
                   (if FormatCondition.negate condition then negb b else b) b).
Proof.
  destruct (rawMatchOf_total condition attrs) as (b & Hb).
  exists b. split; [exact Hb |]. unfold Matcher.evaluateCondition. now rewrite Hb.
Qed.

Lemma conditionMatches_result condition attrs r :
  evaluateCondition condition attrs = Exc.Ok r ->
  ConditionMatchResult.condition r = condition
  /\ ConditionMatchResult.matches r = conditionMatches condition attrs.
Proof.
  intros Hr. unfold MatcherSpec.conditionMatches. rewrite Hr.
  destruct (evaluateCondition_total condition attrs) as (b & _ & Hb).
  rewrite Hb in Hr. injection Hr as <-. split; reflexivity.
Qed.

Lemma mapM_evaluateCondition (conditions : list FormatCondition.t) attrs :
  exists results,
    Exc.mapM (fun c => evaluateCondition c attrs) conditions = Exc.Ok results
    /\ Forall2 (fun c r => evaluateCondition c attrs = Exc.Ok r) conditions results.
Proof.
  induction conditions as [|c l (results & Hl & Hall)].
  - exists []. split; [reflexivity | constructor].
  - destruct (evaluateCondition_total c attrs) as (b & _ & Hc).
    eexists. cbn [Exc.mapM]. rewrite Hc, Hl. cbn. split; [reflexivity |].
    constructor; assumption.
Qed.

Lemma Forall2_results (conditions : list FormatCondition.t) attrs results :
  Forall2 (fun c r => evaluateCondition c attrs = Exc.Ok r) conditions results ->
  map ConditionMatchResult.condition results = conditions
  /\ (forall r, In r results ->
        In (ConditionMatchResult.condition r) conditions
        /\ ConditionMatchResult.matches r
           = conditionMatches (ConditionMatchResult.condition r) attrs)
  /\ (forall c, In c conditions ->
        exists r, In r results /\ ConditionMatchResult.condition r = c
                  /\ ConditionMatchResult.matches r = conditionMatches c attrs).
Proof.
  induction 1 as [|c r l rs Hcr Hrest (IHmap & IHr & IHc)].
  - split; [reflexivity |]. split; intros ? [].
  - destruct (conditionMatches_result c attrs r Hcr) as [Hcond Hm].
    split; [cbn; now rewrite Hcond, IHmap |]. split.
    + intros r' [<- | Hin].
      * rewrite Hcond. split; [now left | exact Hm].
      * destruct (IHr r' Hin) as [Hin' Hm']. split; [now right | exact Hm'].
    + intros c' [<- | Hin].
      * exists r. split; [now left |]. split; [exact Hcond | exact Hm].
      * destruct (IHc c' Hin) as (r' & Hr' & Hc' & Hm').
        exists r'. split; [now right |]. split; assumption.
Qed.

Lemma evaluateFormat_total format attrs :
  exists results,
    Forall2 (fun c r => evaluateCondition c attrs = Exc.Ok r)
            (CustomFormat.conditions format) results
    /\ evaluateFormat format attrs =
         Exc.Ok (Matcher.FormatMatchResult.mk
                   (forallb ConditionMatchResult.matches
                      (List.filter Matcher.isRequired results)
                    && ((length (List.filter (fun r => negb (Matcher.isRequired r)) results)
                         =? 0)%nat
                        || existsb ConditionMatchResult.matches
                             (List.filter (fun r => negb (Matcher.isRequired r)) results)))
                   results).
Proof.
  destruct (mapM_evaluateCondition (CustomFormat.conditions format) attrs)
    as (results & Hmap & Hall).
  exists results. split; [exact Hall |].
  unfold Matcher.evaluateFormat. rewrite Hmap. reflexivity.
Qed.

(** C3: evaluateFormat returns a result whose trace has one entry per
    condition, in order; it matches iff every required condition matches
    and, when the format has an optional condition at all, at least one
    optional condition matches; a format without conditions matches. *)
Theorem evaluateFormat_rule (format : CustomFormat.t) (attrs : ReleaseAttributes.t) :
  exists r,
    evaluateFormat format attrs = Exc.Ok r
    /\ map ConditionMatchResult.condition (Matcher.FormatMatchResult.conditionResults r)
       = CustomFormat.conditions format
    /\ (Matcher.FormatMatchResult.matches r = true <->
          (forall c, In c (CustomFormat.conditions format) ->
                     FormatCondition.required c = true -> conditionMatches c attrs = true)
          /\ ((exists c, In c (CustomFormat.conditions format)
                         /\ FormatCondition.required c = false) ->
              exists c, In c (CustomFormat.conditions format)
                        /\ FormatCondition.required c = false
                        /\ conditionMatches c attrs = true))
    /\ (CustomFormat.conditions format = [] -> Matcher.FormatMatchResult.matches r = true).
Proof.
  destruct (evaluateFormat_total format attrs) as (results & Hall & Heval).
  destruct (Forall2_results _ _ _ Hall) as (Hmap & Hres & Hcond).
  eexists. split; [exact Heval |].
  cbn [Matcher.FormatMatchResult.matches Matcher.FormatMatchResult.conditionResults].
  split; [exact Hmap |]. split.
  - rewrite andb_true_iff, orb_true_iff, forallb_forall, existsb_exists, Nat.eqb_eq.
    split.
    + intros [Hreq Hopt]. split.
      * intros c Hc Hrequired.
        destruct (Hcond c Hc) as (r & Hr & Hrc & Hrm). rewrite <- Hrm.
        apply Hreq. apply filter_In. split; [exact Hr |].
        unfold Matcher.isRequired. now rewrite Hrc.
      * intros (c & Hc & Hoptional).
        destruct (Hcond c Hc) as (r & Hr & Hrc & _).
        assert (Hin : In r (List.filter (fun r => negb (Matcher.isRequired r)) results)).
        { apply filter_In. split; [exact Hr |].
          unfold Matcher.isRequired. now rewrite Hrc, Hoptional. }
        destruct Hopt as [Hnone | (r' & Hr' & Hm')].
        -- apply length_zero_iff_nil in Hnone. rewrite Hnone in Hin. destruct Hin.
        -- apply filter_In in Hr'. destruct Hr' as [Hr' Hopt'].
           destruct (Hres r' Hr') as [Hc' Hm''].
           exists (ConditionMatchResult.condition r').
           split; [exact Hc' |]. split.
           ++ unfold Matcher.isRequired in Hopt'. now apply negb_true_iff in Hopt'.
           ++ now rewrite <- Hm''.
    + intros [Hreq Hopt]. split.
      * intros r Hr. apply filter_In in Hr. destruct Hr as [Hr Hrequired].
        destruct (Hres r Hr) as [Hc Hm]. rewrite Hm. apply Hreq; assumption.
      * destruct (List.filter (fun r => negb (Matcher.isRequired r)) results)
          as [|r0 rest] eqn:Hfilter; [left; reflexivity | right].
        assert (Hr0 : In r0 (List.filter (fun r => negb (Matcher.isRequired r)) results))
          by (rewrite Hfilter; now left).
        apply filter_In in Hr0. destruct Hr0 as [Hr0 Hopt0].
        destruct (Hres r0 Hr0) as [Hc0 _].
        destruct Hopt as (c & Hc & Hoptional & Hm).
        { exists (ConditionMatchResult.condition r0). split; [exact Hc0 |].
          unfold Matcher.isRequired in Hopt0. now apply negb_true_iff in Hopt0. }
        destruct (Hcond c Hc) as (r & Hr & Hrc & Hrm).
        exists r. split; [| now rewrite Hrm].
        rewrite <- Hfilter. apply filter_In. split; [exact Hr |].
        unfold Matcher.isRequired. now rewrite Hrc, Hoptional.
  - intros Hempty. rewrite Hempty in Hall. inversion Hall. reflexivity.
Qed.

Lemma matchFormats_total (attrs : ReleaseAttributes.t) (formats : list CustomFormat.t) :
  exists matched, matchFormats attrs formats = Exc.Ok matched.
Proof.
  induction formats as [|f l (matched & IH)]; [eexists; reflexivity |].
  destruct (evaluateFormat_total f attrs) as (results & _ & Heval).
  cbn [Matcher.matchFormats]. rewrite Heval, IH. eexists. reflexivity.
Qed.

Lemma matchFormatsOrEmpty_ok (attrs : ReleaseAttributes.t) (formats : list CustomFormat.t) :
  matchFormats attrs formats
  = Exc.Ok (Matcher.matchFormatsOrEmpty RegExp_new attrs formats).
Proof.
  unfold Matcher.matchFormatsOrEmpty.
  destruct (matchFormats_total attrs formats) as (matched & ->). reflexivity.
Qed.

(** In the modelled matcher, evaluating a condition never throws.  A pattern
    that does not compile gives the expression that matches nothing, so a title
    or group condition on it has rawMatch = false; a condition on a missing
    attribute (no release group, no streaming service, an undefined flag, a
    missing payload) has rawMatch = false; matches is rawMatch, inverted when
    the condition is negated, so it is false for every such condition that is
    not negated; matching a whole library always returns its list. *)
Theorem evaluateCondition_never_throws
  (condition : FormatCondition.t) (attrs : ReleaseAttributes.t) :
  exists r,
    evaluateCondition condition attrs = Exc.Ok r
    /\ ConditionMatchResult.condition r = condition
    /\ ConditionMatchResult.matches r =
         (if FormatCondition.negate condition
          then negb (ConditionMatchResult.rawMatch r)
          else ConditionMatchResult.rawMatch r)
    /\ (forall p e,
          FormatCondition.pattern condition = Some p -> RegExp_new p = Exc.Throw e ->
          getPattern p = Exc.Ok Matcher.neverMatches
          /\ (FormatCondition.type condition = ConditionType.release_title
              \/ FormatCondition.type condition = ConditionType.release_group ->
              ConditionMatchResult.rawMatch r = false))
    /\ (FormatCondition.type condition = ConditionType.release_group ->
        ReleaseAttributes.releaseGroup attrs = None ->
        ConditionMatchResult.rawMatch r = false)
    /\ (FormatCondition.type condition = ConditionType.streaming_service ->
        ReleaseAttributes.streamingService attrs = None ->
        ConditionMatchResult.rawMatch r = false)
    /\ (FormatCondition.type condition = ConditionType.flag ->
        (FormatCondition.flag condition = None
         \/ exists f, FormatCondition.flag condition = Some f
                      /\ Matcher.flagValue f attrs = None) ->
        ConditionMatchResult.rawMatch r = false)
    /\ (FormatCondition.type condition = ConditionType.release_title
        \/ FormatCondition.type condition = ConditionType.release_group ->
        FormatCondition.pattern condition = None ->
        ConditionMatchResult.rawMatch r = false)
    /\ (ConditionMatchResult.rawMatch r = false ->
        ConditionMatchResult.matches r = FormatCondition.negate condition)
    /\ (forall formats, exists matched, matchFormats attrs formats = Exc.Ok matched).
Proof.
  destruct (evaluateCondition_total condition attrs) as (b & Hraw & Heval).
  eexists. split; [exact Heval |].
  cbn [ConditionMatchResult.condition ConditionMatchResult.matches
       ConditionMatchResult.rawMatch].
  split; [reflexivity |]. split; [reflexivity |].
  unfold Matcher.rawMatchOf in Hraw.
  split.
  { intros p e Hp He.
    assert (Hget : getPattern p = Exc.Ok Matcher.neverMatches)
      by (unfold Matcher.getPattern; now rewrite He).
    split; [exact Hget |].
    intros [Ht | Ht]; rewrite Ht, Hp in Hraw.
    - rewrite Hget in Hraw. cbn in Hraw. now injection Hraw as <-.
    - destruct (ReleaseAttributes.releaseGroup attrs).
      + rewrite Hget in Hraw. cbn in Hraw. now injection Hraw as <-.
      + now injection Hraw as <-. }
  split.
  { intros Ht Hg. rewrite Ht, Hg in Hraw.
    destruct (FormatCondition.pattern condition); now injection Hraw as <-. }
  split.
  { intros Ht Hs. rewrite Ht, Hs in Hraw.
    destruct (FormatCondition.streamingService condition); now injection Hraw as <-. }
  split.
  { intros Ht [Hf | (f & Hf & Hv)]; rewrite Ht, Hf in Hraw.
    - now injection Hraw as <-.
    - rewrite Hv in Hraw. now injection Hraw as <-. }
  split.
  { intros [Ht | Ht] Hp; rewrite Ht, Hp in Hraw; now injection Hraw as <-. }
  split.
  { intros ->. now destruct (FormatCondition.negate condition). }
  intros formats. apply matchFormats_total.
Qed.

End MatcherProperties.

(** ** Mutual exclusivity of the HDR formats *)

Lemma indexOfFrom_cases (l : list string) (x : string) (i : Z) :
  (~ In x l /\ Scorer.indexOfFrom l x i = -1)
  \/ (exists n : nat,
        l !! n = Some x
        /\ Scorer.indexOfFrom l x i = i + Z.of_nat n
        /\ forall k : nat, l !! k = Some x -> (n <= k)%nat).
Proof.
  revert i. induction l as [|y rest IH]; intros i; cbn [Scorer.indexOfFrom].
  - left. split; [intros [] | reflexivity].
  - destruct (String.eqb y x) eqn:Heq.
    + apply String.eqb_eq in Heq. subst y. right. exists 0%nat.
      split; [reflexivity |]. split; [lia |]. intros k _. lia.
    + apply String.eqb_neq in Heq.
      destruct (IH (i + 1)) as [[Hnot Hidx] | (n & Hn & Hidx & Hfirst)].
      * left. split; [| exact Hidx]. intros [Hy | Hin]; [congruence | exact (Hnot Hin)].
      * right. exists (S n). split; [exact Hn |]. split; [lia |].
        intros [|k] Hk; [cbn in Hk; congruence |].
        apply Hfirst in Hk. lia.
Qed.

(** The effective priority is the position of the id in [HDR_PRIORITY]
    (its first one), or 100 for an id that is not in the list. *)
Lemma effectivePriority_cases (h : MatchedFormat.t) :
  let id := CustomFormat.id (MatchedFormat.format h) in
  (~ In id Scorer.HDR_PRIORITY /\ Scorer.effectivePriority h = 100)
  \/ (exists n : nat,
        Scorer.HDR_PRIORITY !! n = Some id
        /\ Scorer.effectivePriority h = Z.of_nat n
        /\ (n < 10)%nat
        /\ forall k : nat, Scorer.HDR_PRIORITY !! k = Some id -> (n <= k)%nat).
Proof.
  intros id. unfold Scorer.effectivePriority, Scorer.indexOf. fold id.
  destruct (indexOfFrom_cases Scorer.HDR_PRIORITY id 0)
    as [[Hnot ->] | (n & Hn & -> & Hfirst)].
  - left. split; [exact Hnot | reflexivity].
  - right. exists n. split; [exact Hn |].
    destruct (Z.eqb_spec (0 + Z.of_nat n) (-1)) as [Hbad | _]; [lia |].
    split; [lia |]. split; [| exact Hfirst].
    apply lookup_lt_Some in Hn. exact Hn.
Qed.

Lemma hdrStep_from_best (b h : MatchedFormat.t) :
  Scorer.hdrStep (Some b, JsNum.Fin (Scorer.effectivePriority b)) h =
    if Scorer.effectivePriority h <? Scorer.effectivePriority b
    then (Some h, JsNum.Fin (Scorer.effectivePriority h))
    else (Some b, JsNum.Fin (Scorer.effectivePriority b)).
Proof. reflexivity. Qed.

(** The loop keeps the first format of least effective priority. *)
Lemma fold_hdrStep_best (l : list MatchedFormat.t) (b : MatchedFormat.t) :
  exists best pre post,
    fold_left Scorer.hdrStep l (Some b, JsNum.Fin (Scorer.effectivePriority b))
      = (Some best, JsNum.Fin (Scorer.effectivePriority best))
    /\ b :: l = pre ++ best :: post
    /\ (forall h, In h pre -> Scorer.effectivePriority best < Scorer.effectivePriority h)
    /\ (forall h, In h post -> Scorer.effectivePriority best <= Scorer.effectivePriority h).
Proof.
  revert b. induction l as [|h l IH]; intros b.
  - exists b, [], []. cbn. repeat split; intros ? [].
  - cbn [fold_left]. rewrite hdrStep_from_best.
    destruct (Z.ltb_spec (Scorer.effectivePriority h) (Scorer.effectivePriority b)) as [Hlt | Hge].
    + destruct (IH h) as (best & pre & post & Hfold & Hsplit & Hpre & Hpost).
      exists best, (b :: pre), post. split; [exact Hfold |].
      split; [cbn; now rewrite Hsplit |]. split; [| exact Hpost].
      intros x [<- | Hin]; [| now apply Hpre].
      assert (Hbh : Scorer.effectivePriority best <= Scorer.effectivePriority h).
      { destruct pre as [|p pre'].
        - cbn in Hsplit. injection Hsplit as <- _. lia.
        - cbn in Hsplit. injection Hsplit as <- _.
          assert (Scorer.effectivePriority best < Scorer.effectivePriority h)
            by (apply Hpre; left; reflexivity).
          lia. }
      lia.
    + destruct (IH b) as (best & pre & post & Hfold & Hsplit & Hpre & Hpost).
      destruct pre as [|p pre'].
      * cbn in Hsplit. injection Hsplit as <- <-.
        exists b, [], (h :: l). split; [exact Hfold |]. split; [reflexivity |].
        split; [intros ? [] |].
        intros x [<- | Hin]; [exact Hge | now apply Hpost].
      * cbn in Hsplit. injection Hsplit as <- ->.
        exists best, (b :: h :: pre'), post. split; [exact Hfold |].
        split; [reflexivity |]. split; [| exact Hpost].
        assert (Hb : Scorer.effectivePriority best < Scorer.effectivePriority b)
          by (apply Hpre; left; reflexivity).
        intros x [<- | [<- | Hin]]; [exact Hb | lia |].
        apply Hpre. right. exact Hin.
Qed.

Lemma filter_negb_idem {A : Type} (f : A -> bool) (l : list A) :
  List.filter (fun x => negb (f x)) (List.filter (fun x => negb (f x)) l)
    = List.filter (fun x => negb (f x)) l
  /\ List.filter f (List.filter (fun x => negb (f x)) l) = [].
Proof.
  induction l as [|x l [IH1 IH2]]; [split; reflexivity |].
  cbn [List.filter]. destruct (f x) eqn:Hfx; cbn [negb List.filter].
  - split; assumption.
  - rewrite Hfx. cbn [negb]. rewrite IH1. split; [reflexivity | exact IH2].
Qed.

(** The effective priority the code computes from [HDR_PRIORITY] is the
    rank of the specification's order. *)
Lemma effectivePriority_hdrRank (h : MatchedFormat.t) :
  Scorer.effectivePriority h = ScorerSpec.rankOf h.
Proof.
  unfold Scorer.effectivePriority, Scorer.indexOf, Scorer.HDR_PRIORITY,
    ScorerSpec.rankOf, ScorerSpec.hdrRank.
  cbn [Scorer.indexOfFrom].
  repeat (destruct (String.eqb _ (CustomFormat.id (MatchedFormat.format h)));
          [reflexivity |]).
  reflexivity.
Qed.

(** The rank is the position in the ten-id order, and 100 outside it. *)
Lemma hdrRank_table :
  let priorityOrder :=
    [ "hdr-dolby-vision"; "hdr-dolby-vision-no-fallback"; "hdr-hdr10plus"; "hdr-hdr10";
      "hdr10-missing"; "hdr-generic"; "hdr-hlg"; "hdr-pq"; "hdr-missing"; "hdr-sdr" ] in
  (forall id (n : nat), priorityOrder !! n = Some id -> ScorerSpec.hdrRank id = Z.of_nat n)
  /\ (forall id, ~ In id priorityOrder -> ScorerSpec.hdrRank id = 100).
Proof.
  intros priorityOrder. subst priorityOrder. split.
  - intros id n H.
    do 10 (destruct n as [|n]; [cbn in H; injection H as <-; reflexivity |]).
    cbn in H. discriminate.
  - intros id Hnot. unfold ScorerSpec.hdrRank.
    repeat match goal with
           | |- context [String.eqb ?a id] =>
               destruct (String.eqb_spec a id) as [Heq | _];
               [exfalso; apply Hnot; rewrite <- Heq; cbn;
                repeat (first [left; reflexivity | right]) |]
           end.
    reflexivity.
Qed.

(** A list has one first element of least rank. *)
Lemma first_least_unique {A : Type} (rank : A -> Z) (pre pre' post post' : list A) (a b : A) :
  pre ++ a :: post = pre' ++ b :: post' ->
  (forall h, In h pre -> rank a < rank h) ->
  (forall h, In h post -> rank a <= rank h) ->
  (forall h, In h pre' -> rank b < rank h) ->
  (forall h, In h post' -> rank b <= rank h) ->
  a = b.
Proof.
  revert pre'. induction pre as [|p pre IH]; intros [|p' pre'] Heq Hpre Hpost Hpre' Hpost'.
  - cbn in Heq. now injection Heq.
  - cbn in Heq. injection Heq as -> ->.
    assert (rank b < rank p') by (apply Hpre'; left; reflexivity).
    assert (rank p' <= rank b) by (apply Hpost, in_or_app; right; left; reflexivity).
    lia.
  - cbn in Heq. injection Heq as -> <-.
    assert (rank a < rank b) by (apply Hpre; left; reflexivity).
    assert (rank b <= rank a) by (apply Hpost', in_or_app; right; left; reflexivity).
    lia.
  - cbn in Heq. injection Heq as -> Heq.
    apply (IH pre' Heq); [| exact Hpost | | exact Hpost'].
    + intros h Hh. apply Hpre. right. exact Hh.
    + intros h Hh. apply Hpre'. right. exact Hh.
Qed.

(** What mutual exclusivity returns, in the specification's vocabulary. *)
Lemma applyMutualExclusivity_split
  (matchedFormats : list MatchedFormat.t) (profile : ScoringProfile.t) :
  let result := Scorer.applyMutualExclusivity matchedFormats profile in
  let hdrFormats := List.filter ScorerSpec.inHdr matchedFormats in
  let otherFormats := List.filter (fun mf => negb (ScorerSpec.inHdr mf)) matchedFormats in
  ((length hdrFormats <= 1)%nat /\ result = matchedFormats)
  \/ ((1 < length hdrFormats)%nat /\
      exists best pre post,
        result = otherFormats ++ [best]
        /\ hdrFormats = pre ++ best :: post
        /\ (forall h, In h pre -> ScorerSpec.rankOf best < ScorerSpec.rankOf h)
        /\ (forall h, In h post -> ScorerSpec.rankOf best <= ScorerSpec.rankOf h)).
Proof.
  intros result hdrFormats otherFormats.
  unfold result, Scorer.applyMutualExclusivity.
  change Scorer.isHdr with ScorerSpec.inHdr. fold hdrFormats otherFormats.
  destruct (Nat.ltb_spec 1 (length hdrFormats)) as [Hmany | Hfew].
  - right. split; [exact Hmany |].
    destruct hdrFormats as [|b l] eqn:Hhdr; [cbn in Hmany; lia |].
    cbn [fold_left].
    replace (Scorer.hdrStep (None, JsNum.PosInf) b)
      with (Some b, JsNum.Fin (Scorer.effectivePriority b)) by reflexivity.
    destruct (fold_hdrStep_best l b) as (best & pre & post & -> & Hsplit & Hpre & Hpost).
    exists best, pre, post. split; [reflexivity |]. split; [exact Hsplit |].
    split; intros h Hh; rewrite <- !effectivePriority_hdrRank; auto.
  - left. split; [exact Hfew | reflexivity].
Qed.

(** The matches that survive mutual exclusivity are the matches that count. *)
Lemma applyMutualExclusivity_counted
  (matchedFormats : list MatchedFormat.t) (profile : ScoringProfile.t) (mf : MatchedFormat.t) :
  In mf (Scorer.applyMutualExclusivity matchedFormats profile)
  <-> In mf matchedFormats /\ ScorerSpec.counted matchedFormats mf.
Proof.
  destruct (applyMutualExclusivity_split matchedFormats profile)
    as [[Hfew ->] | (Hmany & best & pre & post & -> & Hsplit & Hpre & Hpost)].
  - split; [intros Hin; split; [exact Hin | right; left; exact Hfew] | intros [Hin _]; exact Hin].
  - split.
    + intros Hin. apply in_app_or in Hin. destruct Hin as [Hin | [<- | []]].
      * apply filter_In in Hin. destruct Hin as [Hin Hother]. split; [exact Hin |].
        left. now apply negb_true_iff.
      * assert (Hin : In best (List.filter ScorerSpec.inHdr matchedFormats))
          by (rewrite Hsplit; apply in_or_app; right; left; reflexivity).
        apply filter_In in Hin. split; [apply Hin |].
        right. right. exists pre, post. split; [exact Hsplit |]. split; assumption.
    + intros [Hin [Hother | [Hfew | (pre' & post' & Hsplit' & Hpre' & Hpost')]]].
      * apply in_or_app. left. apply filter_In. split; [exact Hin |].
        now apply negb_true_iff.
      * lia.
      * rewrite Hsplit in Hsplit'.
        assert (best = mf)
          by (exact (first_least_unique ScorerSpec.rankOf pre pre' post post' best mf
                       Hsplit' Hpre Hpost Hpre' Hpost')).
        subst mf. apply in_or_app. right. left. reflexivity.
Qed.

(** C4: applyMutualExclusivity leaves the matches outside the hdr category as
    they are; with at most one hdr match nothing changes; with more than one
    it keeps exactly one hdr format, the one whose id comes earliest in the
    order hdr-dolby-vision, hdr-dolby-vision-no-fallback, hdr-hdr10plus,
    hdr-hdr10, hdr10-missing, hdr-generic, hdr-hlg, hdr-pq, hdr-missing,
    hdr-sdr (the rank of an id is its position in this order, and an id
    outside it ranks 100, below every listed one), the first such match if
    several rank equally. *)
Theorem applyMutualExclusivity_keeps_best_hdr
  (matchedFormats : list MatchedFormat.t) (profile : ScoringProfile.t) :
  let result := Scorer.applyMutualExclusivity matchedFormats profile in
  let priorityOrder :=
    [ "hdr-dolby-vision"; "hdr-dolby-vision-no-fallback"; "hdr-hdr10plus"; "hdr-hdr10";
      "hdr10-missing"; "hdr-generic"; "hdr-hlg"; "hdr-pq"; "hdr-missing"; "hdr-sdr" ] in
  let isHdr (mf : MatchedFormat.t) :=
    String.eqb (CustomFormat.category (MatchedFormat.format mf)) "hdr" in
  let rank (mf : MatchedFormat.t) :=
    ScorerSpec.hdrRank (CustomFormat.id (MatchedFormat.format mf)) in
  let hdrFormats := List.filter isHdr matchedFormats in
  let otherFormats := List.filter (fun mf => negb (isHdr mf)) matchedFormats in
  (forall id (n : nat), priorityOrder !! n = Some id -> ScorerSpec.hdrRank id = Z.of_nat n)
  /\ (forall id, ~ In id priorityOrder -> ScorerSpec.hdrRank id = 100)
  /\ List.filter (fun mf => negb (isHdr mf)) result = otherFormats
  /\ ((length hdrFormats <= 1)%nat -> result = matchedFormats)
  /\ ((1 < length hdrFormats)%nat ->
      exists best,
        result = otherFormats ++ [best]
        /\ List.filter isHdr result = [best]
        /\ In best hdrFormats
        /\ (forall h, In h hdrFormats -> rank best <= rank h)
        /\ (exists pre post,
              hdrFormats = pre ++ best :: post
              /\ forall h, In h pre -> rank best < rank h)).
Proof.
  intros result priorityOrder isHdr rank hdrFormats otherFormats.
  destruct hdrRank_table as [Hlisted Hunlisted].
  split; [exact Hlisted |]. split; [exact Hunlisted |].
  pose proof (applyMutualExclusivity_split matchedFormats profile) as Hcases.
  cbv zeta in Hcases.
  change ScorerSpec.inHdr with isHdr in Hcases.
  change ScorerSpec.rankOf with rank in Hcases.
  fold result hdrFormats otherFormats in Hcases.
  split; [| split].
  - destruct Hcases as [[_ ->] | (_ & best & pre & post & -> & Hsplit & _)];
      [reflexivity |].
    unfold otherFormats. rewrite List.filter_app.
    destruct (filter_negb_idem isHdr matchedFormats) as [-> _].
    assert (Hbest : isHdr best = true).
    { assert (Hin : In best hdrFormats)
        by (rewrite Hsplit; apply in_or_app; right; left; reflexivity).
      apply filter_In in Hin. apply Hin. }
    cbn [List.filter]. rewrite Hbest. cbn [negb]. apply app_nil_r.
  - intros Hfew. destruct Hcases as [[_ H] | [Hmany _]]; [exact H | lia].
  - intros Hmany.
    destruct Hcases as [[Hfew _] | (_ & best & pre & post & Hres & Hsplit & Hpre & Hpost)];
      [lia |].
    assert (Hin : In best hdrFormats)
      by (rewrite Hsplit; apply in_or_app; right; left; reflexivity).
    assert (Hbest : isHdr best = true) by (apply filter_In in Hin; apply Hin).
    exists best. split; [exact Hres |]. split; [| split; [exact Hin |]].
    + rewrite Hres. unfold otherFormats. rewrite List.filter_app.
      destruct (filter_negb_idem isHdr matchedFormats) as [_ ->].
      cbn [List.filter]. rewrite Hbest. reflexivity.
    + split; [| exists pre, post; split; assumption].
      intros h Hh. rewrite Hsplit in Hh. apply in_app_or in Hh.
      destruct Hh as [Hh | [<- | Hh]]; [apply Hpre in Hh; lia | lia | now apply Hpost].
Qed.

(** ** The breakdown *)

Lemma key_eqb_eq (a b : ScoreBreakdown.key) : ScorerSpec.key_eqb a b = true <-> a = b.
Proof. destruct a, b; cbn; split; (reflexivity || discriminate). Qed.

Lemma get_set_same (k : ScoreBreakdown.key) v b :
  ScoreBreakdown.get k (ScoreBreakdown.set k v b) = v.
Proof. destruct k; reflexivity. Qed.

Lemma get_set_other (k k' : ScoreBreakdown.key) v b :
  k <> k' -> ScoreBreakdown.get k (ScoreBreakdown.set k' v b) = ScoreBreakdown.get k b.
Proof. destruct k, k'; intros H; (reflexivity || congruence). Qed.

Lemma sum_set (k : ScoreBreakdown.key) (s : Z) (fs : list string) b :
  ScoreBreakdown.sum
    (ScoreBreakdown.set k
       (CategoryScore.mk (CategoryScore.score (ScoreBreakdown.get k b) + s) fs) b)
  = ScoreBreakdown.sum b + s.
Proof. destruct k; unfold ScoreBreakdown.sum; cbn; lia. Qed.

Lemma lookupKey_None (m : list (string * ScoreBreakdown.key)) (category : string) :
  Scorer.lookupKey m category = None <-> ~ In category (map fst m).
Proof.
  induction m as [|[k v] m IH]; cbn.
  - split; [intros _ [] | reflexivity].
  - destruct (String.eqb k category) eqn:Heq.
    + apply String.eqb_eq in Heq. split; [discriminate | intros H; exfalso; apply H; now left].
    + apply String.eqb_neq in Heq. rewrite IH. split.
      * intros H [Hk | Hin]; [congruence | exact (H Hin)].
      * intros H Hin. apply H. now right.
Qed.

Lemma categoryToBreakdownKey_None (category : string) :
  Scorer.categoryToBreakdownKey category = None
  <-> ~ In category ScorerSpec.mappedCategories.
Proof. apply lookupKey_None. Qed.

(** Every bucket holds the formats whose category maps to it, in order, and
    the sum of their scores. *)
Lemma fold_breakdownStep_bucket (k : ScoreBreakdown.key) (l : list ScoredFormat.t) b :
  ScoreBreakdown.get k (fold_left Scorer.breakdownStep l b) =
    CategoryScore.mk
      (CategoryScore.score (ScoreBreakdown.get k b)
       + ScorerSpec.sumScores (List.filter (ScorerSpec.inBucket k) l))
      (CategoryScore.formats (ScoreBreakdown.get k b)
       ++ map (fun f => CustomFormat.name (ScoredFormat.format f))
              (List.filter (ScorerSpec.inBucket k) l)).
Proof.
  revert b. induction l as [|f l IH]; intros b; cbn [fold_left List.filter].
  - cbn. rewrite Z.add_0_r, app_nil_r. now destruct (ScoreBreakdown.get k b).
  - rewrite IH. unfold Scorer.breakdownStep, ScorerSpec.inBucket, ScorerSpec.bucketOf.
    destruct (Scorer.categoryToBreakdownKey _) as [k'|]; [| reflexivity].
    destruct (ScorerSpec.key_eqb k k') eqn:Hk.
    + apply key_eqb_eq in Hk. subst k'. rewrite get_set_same.
      cbn [CategoryScore.score CategoryScore.formats map ScorerSpec.sumScores fold_right].
      rewrite <- app_assoc. f_equal. unfold ScorerSpec.sumScores. lia.
    + assert (k <> k') by (intros ->; now rewrite (proj2 (key_eqb_eq k' k')) in Hk).
      rewrite get_set_other by assumption. reflexivity.
Qed.

Lemma fold_breakdownStep_sum (l : list ScoredFormat.t) b :
  ScoreBreakdown.sum (fold_left Scorer.breakdownStep l b) =
    ScoreBreakdown.sum b + ScorerSpec.sumScores (List.filter ScorerSpec.hasBucket l).
Proof.
  revert b. induction l as [|f l IH]; intros b; cbn [fold_left List.filter].
  - cbn. lia.
  - rewrite IH. unfold Scorer.breakdownStep, ScorerSpec.hasBucket, ScorerSpec.bucketOf.
    destruct (Scorer.categoryToBreakdownKey _) as [k'|].
    + rewrite sum_set. unfold ScorerSpec.sumScores. cbn [fold_right]. lia.
    + reflexivity.
Qed.

Lemma sumScores_split (p : ScoredFormat.t -> bool) (l : list ScoredFormat.t) :
  ScorerSpec.sumScores l =
    ScorerSpec.sumScores (List.filter p l)
    + ScorerSpec.sumScores (List.filter (fun f => negb (p f)) l).
Proof.
  induction l as [|f l IH]; [reflexivity |].
  unfold ScorerSpec.sumScores in *.
  cbn [List.filter]. destruct (p f); cbn [negb fold_right] in *; lia.
Qed.

Lemma filter_all_true {A : Type} (p : A -> bool) (l : list A) :
  (forall x, In x l -> p x = true) -> List.filter p l = l.
Proof.
  induction l as [|x l IH]; [reflexivity |]. intros H. cbn [List.filter].
  rewrite (H x) by now left. f_equal. apply IH. intros y Hy. apply H. now right.
Qed.

(** ** Sizes *)

Lemma Qltb_lt (a b : Q) : JsFormat.Qltb a b = true <-> (a < b)%Q.
Proof.
  unfold JsFormat.Qltb. rewrite negb_true_iff. split.
  - intros H. apply Qnot_le_lt. intros Hle. apply Qle_bool_iff in Hle. congruence.
  - intros H. destruct (Qle_bool b a) eqn:E; [| reflexivity].
    apply Qle_bool_iff in E. exfalso. exact (Qlt_not_le _ _ H E).
Qed.

Lemma Qgtb_lt (a b : Q) : JsFormat.Qgtb a b = true <-> (b < a)%Q.
Proof. apply Qltb_lt. Qed.

Lemma megabytes_pos (bytes : Z) :
  0 < bytes -> (0 < inject_Z bytes / inject_Z (1024 * 1024))%Q.
Proof.
  intros H. unfold Qdiv. apply Qmult_lt_0_compat.
  - change 0%Q with (inject_Z 0). rewrite <- Zlt_Qlt. exact H.
  - apply Qinv_lt_0_compat. reflexivity.
Qed.

Lemma average_pos (bytes n : Z) :
  0 < bytes -> 0 < n -> (0 < inject_Z bytes / inject_Z (1024 * 1024) / inject_Z n)%Q.
Proof.
  intros Hb Hn. unfold Qdiv at 1. apply Qmult_lt_0_compat.
  - now apply megabytes_pos.
  - apply Qinv_lt_0_compat. change 0%Q with (inject_Z 0). rewrite <- Zlt_Qlt. exact Hn.
Qed.

(** ** The shape of a scoring result *)

Section ScorerProperties.

Variable parseRelease : string -> ReleaseAttributes.t.
Variable matchFormats : ReleaseAttributes.t -> list CustomFormat.t -> list MatchedFormat.t.
Variable ALL_FORMATS : list CustomFormat.t.
Variable numberToString : Q -> string.

Abbreviation scoreRelease :=
  (Scorer.scoreRelease parseRelease matchFormats ALL_FORMATS numberToString).
Abbreviation compareReleases :=
  (Scorer.compareReleases parseRelease matchFormats ALL_FORMATS numberToString).
Abbreviation isUpgrade :=
  (Scorer.isUpgrade parseRelease matchFormats ALL_FORMATS numberToString).
Abbreviation filterQualityReleases :=
  (Scorer.filterQualityReleases parseRelease matchFormats ALL_FORMATS numberToString).
Abbreviation scoredOf := (ScorerSpec.scoredOf parseRelease matchFormats ALL_FORMATS).
Abbreviation sumScores := ScorerSpec.sumScores.

Ltac split_pairs :=
  repeat match goal with
         | |- context [let '(_, _) := ?X in _] => destruct X as [? ?]
         end.

Lemma scoreRelease_shape releaseName profile attributes fileSizeBytes sizeContext protocol :
  let r := scoreRelease releaseName profile attributes fileSizeBytes sizeContext protocol in
  let scored := scoredOf releaseName profile attributes in
  ScoringResult.matchedFormats r = scored
  /\ ScoringResult.breakdown r = Scorer.buildBreakdown scored
  /\ ScoringResult.isBanned r = existsb Scorer.isBanScore scored
  /\ ScoringResult.bannedReasons r =
       map (fun f => CustomFormat.name (ScoredFormat.format f))
           (List.filter Scorer.isBanScore scored)
  /\ ScoringResult.totalScore r =
       (if ScoringResult.isBanned r then JsNum.NegInf else JsNum.Fin (sumScores scored))
  /\ ScoringResult.meetsMinimum r =
       negb (ScoringResult.isBanned r) && negb (ScoringResult.sizeRejected r)
       && negb (ScoringResult.protocolRejected r)
       && Qle_bool (default 0%Q (ScoringProfile.minScore profile))
                   (inject_Z (sumScores scored)).
Proof.
  unfold Scorer.scoreRelease, ScorerSpec.scoredOf, ScorerSpec.sumScores.
  split_pairs. cbn [ScoringResult.matchedFormats ScoringResult.breakdown
    ScoringResult.isBanned ScoringResult.bannedReasons ScoringResult.totalScore
    ScoringResult.meetsMinimum ScoringResult.sizeRejected ScoringResult.protocolRejected].
  rewrite fold_left_add_acc, Z.add_0_l.
  repeat split; reflexivity.
Qed.

Lemma scoreRelease_fields releaseName profile attributes fileSizeBytes sizeContext protocol :
  let r := scoreRelease releaseName profile attributes fileSizeBytes sizeContext protocol in
  ScoringResult.releaseName r = releaseName
  /\ ScoringResult.profile r = ScoringProfile.name profile.
Proof.
  unfold Scorer.scoreRelease. split_pairs. split; reflexivity.
Qed.

(** Without a size context nothing is size-rejected; without a protocol
    nothing is protocol-rejected (the guards of steps 7 and 8). *)
Lemma scoreRelease_no_sizeContext releaseName profile attributes fileSizeBytes protocol :
  ScoringResult.sizeRejected
    (scoreRelease releaseName profile attributes fileSizeBytes None protocol) = false
  /\ ScoringResult.sizeRejectionReason
    (scoreRelease releaseName profile attributes fileSizeBytes None protocol) = None.
Proof.
  unfold Scorer.scoreRelease.
  destruct fileSizeBytes; split_pairs; split; reflexivity.
Qed.

Lemma scoreRelease_no_protocol releaseName profile attributes fileSizeBytes sizeContext :
  ScoringResult.protocolRejected
    (scoreRelease releaseName profile attributes fileSizeBytes sizeContext None) = false
  /\ ScoringResult.protocolRejectionReason
    (scoreRelease releaseName profile attributes fileSizeBytes sizeContext None) = None.
Proof.
  unfold Scorer.scoreRelease. split_pairs. split; reflexivity.
Qed.

Lemma isBanScore_spec (f : ScoredFormat.t) :
  Scorer.isBanScore f = true <-> ScoredFormat.score f <= -999999.
Proof. unfold Scorer.isBanScore, Scorer.BAN_THRESHOLD. apply Z.leb_le. Qed.

Lemma totalScore_cases releaseName profile attributes fileSizeBytes sizeContext protocol :
  let r := scoreRelease releaseName profile attributes fileSizeBytes sizeContext protocol in
  (ScoringResult.isBanned r = true /\ ScoringResult.totalScore r = JsNum.NegInf)
  \/ (ScoringResult.isBanned r = false
      /\ ScoringResult.totalScore r =
           JsNum.Fin (sumScores (ScoringResult.matchedFormats r))).
Proof.
  intros r.
  destruct (scoreRelease_shape releaseName profile attributes fileSizeBytes sizeContext protocol)
    as (Hm & _ & _ & _ & Ht & _).
  fold r in Hm, Ht. rewrite Ht, Hm.
  destruct (ScoringResult.isBanned r); [left | right]; split; reflexivity.
Qed.

(** ** Bans *)

(** C1 (as amended): the formats a result lists are the matches that count
    after mutual exclusivity (every match outside the hdr category, and of
    several hdr matches only the first of least rank), each with the score
    the profile resolves for its id (0 without an entry).  scoreRelease marks
    the result banned iff one of the matches that count has a resolved score
    of at most -999999; a banned result reports the total -Infinity whatever
    the sum is (a result that is not banned reports the sum); bannedReasons
    holds the names of exactly those matches, in match order. *)
Theorem scoreRelease_ban_rule
  releaseName profile attributes fileSizeBytes sizeContext protocol :
  let r := scoreRelease releaseName profile attributes fileSizeBytes sizeContext protocol in
  let attrs := match attributes with Some a => a | None => parseRelease releaseName end in
  let matched := matchFormats attrs ALL_FORMATS in
  let score (format : CustomFormat.t) :=
    default 0 (ScoringProfile.formatScores profile !! CustomFormat.id format) in
  let banning (mf : MatchedFormat.t) :=
    In mf matched /\ ScorerSpec.counted matched mf
    /\ score (MatchedFormat.format mf) <= -999999 in
  ScoringResult.matchedFormats r
    = map (fun mf => ScoredFormat.mk (MatchedFormat.format mf)
                       (MatchedFormat.conditionResults mf)
                       (score (MatchedFormat.format mf)))
          (Scorer.applyMutualExclusivity matched profile)
  /\ (forall mf, In mf (Scorer.applyMutualExclusivity matched profile)
                 <-> In mf matched /\ ScorerSpec.counted matched mf)
  /\ (ScoringResult.isBanned r = true <-> exists mf, banning mf)
  /\ (ScoringResult.isBanned r = true -> ScoringResult.totalScore r = JsNum.NegInf)
  /\ (ScoringResult.isBanned r = false ->
        ScoringResult.totalScore r = JsNum.Fin (sumScores (ScoringResult.matchedFormats r)))
  /\ ScoringResult.bannedReasons r =
       map (fun f => CustomFormat.name (ScoredFormat.format f))
           (List.filter (fun f => ScoredFormat.score f <=? -999999)
                        (ScoringResult.matchedFormats r))
  /\ (forall name, In name (ScoringResult.bannedReasons r) <->
        exists mf, banning mf /\ CustomFormat.name (MatchedFormat.format mf) = name).
Proof.
  intros r attrs matched score banning.
  destruct (scoreRelease_shape releaseName profile attributes fileSizeBytes sizeContext protocol)
    as (Hm & _ & Hb & Hr & _ & _).
  fold r in Hm, Hb, Hr.
  pose proof (totalScore_cases releaseName profile attributes fileSizeBytes
                sizeContext protocol) as Ht.
  fold r in Ht. cbv zeta in Ht.
  assert (Hlist : ScoringResult.matchedFormats r
                  = map (ScorerSpec.scoredAs profile)
                        (Scorer.applyMutualExclusivity matched profile))
    by (rewrite Hm; reflexivity).
  assert (Hkept : forall mf, In mf (Scorer.applyMutualExclusivity matched profile)
                             <-> In mf matched /\ ScorerSpec.counted matched mf)
    by (intros mf; apply applyMutualExclusivity_counted).
  assert (Hscored : forall f,
            In f (ScoringResult.matchedFormats r) /\ ScoredFormat.score f <= -999999
            <-> exists mf, banning mf /\ f = ScorerSpec.scoredAs profile mf).
  { intros f. rewrite Hlist, in_map_iff. split.
    - intros [(mf & <- & Hin) Hf]. exists mf. split; [| reflexivity].
      apply Hkept in Hin. destruct Hin as [Hin Hc]. repeat split; assumption.
    - intros (mf & (Hin & Hc & Hf) & ->). split; [| exact Hf].
      exists mf. split; [reflexivity |]. apply Hkept. split; assumption. }
  split; [exact Hlist |]. split; [exact Hkept |].
  split; [| split; [| split; [| split]]].
  - rewrite Hb, <- Hm, existsb_exists. split.
    + intros (f & Hin & Hf). apply isBanScore_spec in Hf.
      destruct (proj1 (Hscored f) (conj Hin Hf)) as (mf & Hmf & _). exists mf. exact Hmf.
    + intros (mf & Hmf).
      destruct (proj2 (Hscored (ScorerSpec.scoredAs profile mf))) as [Hin Hf];
        [exists mf; split; [exact Hmf | reflexivity] |].
      exists (ScorerSpec.scoredAs profile mf). split; [exact Hin | now apply isBanScore_spec].
  - intros Hbanned. destruct Ht as [[_ Ht] | [Hn _]]; [exact Ht | congruence].
  - intros Hfree. destruct Ht as [[Hn _] | [_ Ht]]; [congruence | exact Ht].
  - rewrite Hr, Hm. reflexivity.
  - intros name. rewrite Hr, <- Hm, in_map_iff. split.
    + intros (f & <- & Hin). apply filter_In in Hin. destruct Hin as [Hin Hf].
      apply isBanScore_spec in Hf.
      destruct (proj1 (Hscored f) (conj Hin Hf)) as (mf & Hmf & ->).
      exists mf. split; [exact Hmf | reflexivity].
    + intros (mf & Hmf & <-).
      destruct (proj2 (Hscored (ScorerSpec.scoredAs profile mf))) as [Hin Hf];
        [exists mf; split; [exact Hmf | reflexivity] |].
      exists (ScorerSpec.scoredAs profile mf). split; [reflexivity |].
      apply filter_In. split; [exact Hin | now apply isBanScore_spec].
Qed.

(** ** The final verdict *)

Lemma meetsMinimum_formula
  releaseName profile attributes fileSizeBytes sizeContext protocol :
  let r := scoreRelease releaseName profile attributes fileSizeBytes sizeContext protocol in
  ScoringResult.meetsMinimum r =
    negb (ScoringResult.isBanned r) && negb (ScoringResult.sizeRejected r)
    && negb (ScoringResult.protocolRejected r)
    && JsNum.geb_Q (ScoringResult.totalScore r) (default 0%Q (ScoringProfile.minScore profile)).
Proof.
  intros r.
  destruct (scoreRelease_shape releaseName profile attributes fileSizeBytes sizeContext protocol)
    as (_ & _ & _ & _ & Ht & Hmin).
  fold r in Ht, Hmin.
  rewrite Hmin, Ht. destruct (ScoringResult.isBanned r); reflexivity.
Qed.

Lemma meetsMinimum_flags
  releaseName profile attributes fileSizeBytes sizeContext protocol :
  let r := scoreRelease releaseName profile attributes fileSizeBytes sizeContext protocol in
  ScoringResult.meetsMinimum r = true ->
  ScoringResult.isBanned r = false
  /\ ScoringResult.sizeRejected r = false
  /\ ScoringResult.protocolRejected r = false.
Proof.
  intros r Hyes.
  pose proof (meetsMinimum_formula releaseName profile attributes fileSizeBytes
                sizeContext protocol) as Hformula.
  fold r in Hformula. cbv zeta in Hformula.
  rewrite Hyes in Hformula. symmetry in Hformula.
  repeat (apply andb_true_iff in Hformula; destruct Hformula as [Hformula ?]).
  repeat split; now apply negb_true_iff.
Qed.

(** C2: meetsMinimum is the conjunction of not banned, not size-rejected,
    not protocol-rejected and totalScore >= the profile's minScore (read as
    the code reads it: 0 when the profile has none); so a result that meets
    the minimum has none of the three rejection flags. *)
Theorem scoreRelease_meetsMinimum
  releaseName profile attributes fileSizeBytes sizeContext protocol :
  let r := scoreRelease releaseName profile attributes fileSizeBytes sizeContext protocol in
  ScoringResult.meetsMinimum r =
    negb (ScoringResult.isBanned r) && negb (ScoringResult.sizeRejected r)
    && negb (ScoringResult.protocolRejected r)
    && JsNum.geb_Q (ScoringResult.totalScore r) (default 0%Q (ScoringProfile.minScore profile))
  /\ (ScoringResult.meetsMinimum r = true ->
        ScoringResult.isBanned r = false
        /\ ScoringResult.sizeRejected r = false
        /\ ScoringResult.protocolRejected r = false).
Proof.
  intros r. split.
  - apply meetsMinimum_formula.
  - apply meetsMinimum_flags.
Qed.

(** The filter of [filterQualityReleases] repeats what [meetsMinimum] already
    says: it keeps exactly the results that meet the minimum. *)
Lemma filterQualityReleases_meetsMinimum releases profile :
  filterQualityReleases releases profile =
    List.filter ScoringResult.meetsMinimum
      (map (fun r => scoreRelease (Release.name r) profile (Release.attributes r)
                       (Release.sizeBytes r) None None) releases).
Proof.
  unfold Scorer.filterQualityReleases.
  induction releases as [|x l IH]; [reflexivity |].
  cbn [map List.filter]. rewrite IH.
  pose proof (meetsMinimum_flags (Release.name x) profile (Release.attributes x)
                (Release.sizeBytes x) None None) as Himp.
  cbv zeta in Himp.
  destruct (ScoringResult.meetsMinimum _) eqn:Hm.
  - destruct (Himp eq_refl) as (-> & -> & ->). reflexivity.
  - reflexivity.
Qed.

(** ** Comparing two releases *)

Lemma sub_totals_gt (b1 b2 : bool) (x y : Z) :
  let t1 := if b1 then JsNum.NegInf else JsNum.Fin x in
  let t2 := if b2 then JsNum.NegInf else JsNum.Fin y in
  JsNum.gtb_Q (JsNum.sub t1 t2) 0 = JsNum.gtb t1 t2
  /\ JsNum.ltb_Q (JsNum.sub t1 t2) 0 = JsNum.ltb t1 t2.
Proof.
  destruct b1, b2; cbn [JsNum.sub JsNum.gtb JsNum.ltb];
    try (split; reflexivity).
  rewrite gtb_Q_Fin_0, ltb_Q_Fin_0. split.
  - destruct (Z.ltb_spec 0 (x - y)), (Z.ltb_spec y x); (reflexivity || lia).
  - destruct (Z.ltb_spec (x - y) 0), (Z.ltb_spec x y); (reflexivity || lia).
Qed.

(** C8: compareReleases scores both releases and names release1 the winner
    iff its totalScore is strictly greater, release2 iff it is strictly
    smaller, and a tie iff the two totals are equal; two banned releases
    (both totals -Infinity) tie. *)
Theorem compareReleases_winner
  release1 release2 profile attrs1 attrs2 size1Bytes size2Bytes :
  let c := compareReleases release1 release2 profile attrs1 attrs2 size1Bytes size2Bytes in
  let t1 := ScoringResult.totalScore (Comparison.release1Score c) in
  let t2 := ScoringResult.totalScore (Comparison.release2Score c) in
  Comparison.release1Score c = scoreRelease release1 profile attrs1 size1Bytes None None
  /\ Comparison.release2Score c = scoreRelease release2 profile attrs2 size2Bytes None None
  /\ (Comparison.winner c = Winner.release1 <-> JsNum.gtb t1 t2 = true)
  /\ (Comparison.winner c = Winner.release2 <-> JsNum.ltb t1 t2 = true)
  /\ (Comparison.winner c = Winner.tie <-> t1 = t2)
  /\ (t1 = JsNum.NegInf -> t2 = JsNum.NegInf -> Comparison.winner c = Winner.tie).
Proof.
  intros c t1 t2.
  assert (Hc1 : Comparison.release1Score c
                = scoreRelease release1 profile attrs1 size1Bytes None None) by reflexivity.
  assert (Hc2 : Comparison.release2Score c
                = scoreRelease release2 profile attrs2 size2Bytes None None) by reflexivity.
  assert (Hw : Comparison.winner c =
               if JsNum.gtb_Q (JsNum.sub t1 t2) 0 then Winner.release1
               else if JsNum.ltb_Q (JsNum.sub t1 t2) 0 then Winner.release2
               else Winner.tie) by reflexivity.
  destruct (scoreRelease_shape release1 profile attrs1 size1Bytes None None)
    as (_ & _ & _ & _ & Ht1 & _).
  destruct (scoreRelease_shape release2 profile attrs2 size2Bytes None None)
    as (_ & _ & _ & _ & Ht2 & _).
  rewrite <- Hc1 in Ht1. rewrite <- Hc2 in Ht2. fold t1 in Ht1. fold t2 in Ht2.
  clearbody c t1 t2.
  destruct (sub_totals_gt
              (ScoringResult.isBanned (Comparison.release1Score c))
              (ScoringResult.isBanned (Comparison.release2Score c))
              (sumScores (scoredOf release1 profile attrs1))
              (sumScores (scoredOf release2 profile attrs2))) as [Hgt Hlt].
  cbv zeta in Hgt, Hlt. rewrite <- Ht1, <- Ht2 in Hgt, Hlt.
  rewrite Hgt, Hlt in Hw. clear Hgt Hlt.
  split; [exact Hc1 |]. split; [exact Hc2 |].
  rewrite Hw, Ht1, Ht2. clear Hw Ht1 Ht2.
  destruct (ScoringResult.isBanned (Comparison.release1Score c)),
           (ScoringResult.isBanned (Comparison.release2Score c));
    cbn [JsNum.gtb JsNum.ltb].
  - repeat split; intros; (reflexivity || discriminate).
  - repeat split; intros; (reflexivity || discriminate).
  - repeat split; intros; (reflexivity || discriminate).
  - set (x := sumScores (scoredOf release1 profile attrs1)).
    set (y := sumScores (scoredOf release2 profile attrs2)).
    destruct (Z.ltb_spec y x), (Z.ltb_spec x y); try lia;
      repeat split; intros; try reflexivity; try discriminate;
      try (f_equal; lia);
      match goal with
      | H : JsNum.Fin _ = JsNum.Fin _ |- _ => injection H; intros; lia
      end.
Qed.

(** ** Upgrades *)

Lemma isUpgrade_scores existingRelease candidateRelease profile options :
  let u := isUpgrade existingRelease candidateRelease profile options in
  UpgradeResult.existing u =
    scoreRelease existingRelease profile (UpgradeOptions.existingAttrs options)
      (UpgradeOptions.existingSizeBytes options) None None
  /\ UpgradeResult.candidate u =
    scoreRelease candidateRelease profile (UpgradeOptions.candidateAttrs options)
      (UpgradeOptions.candidateSizeBytes options) None None.
Proof.
  unfold Scorer.isUpgrade.
  destruct (_ || _ || _ || _); split; reflexivity.
Qed.

(** C6: a candidate that is banned, size-rejected, protocol-rejected or
    below the minimum is never an upgrade (and the improvement is left at 0);
    otherwise the improvement is candidate total minus existing total and the
    verdict is improvement >= minimumImprovement when sidegrades are allowed,
    improvement > minimumImprovement when not; the defaults are 0 and false. *)
Theorem isUpgrade_rule existingRelease candidateRelease profile options :
  let u := isUpgrade existingRelease candidateRelease profile options in
  let e := UpgradeResult.existing u in
  let c := UpgradeResult.candidate u in
  let minimumImprovement := default 0%Q (UpgradeOptions.minimumImprovement options) in
  let allowSidegrade := default false (UpgradeOptions.allowSidegrade options) in
  e = scoreRelease existingRelease profile (UpgradeOptions.existingAttrs options)
        (UpgradeOptions.existingSizeBytes options) None None
  /\ c = scoreRelease candidateRelease profile (UpgradeOptions.candidateAttrs options)
        (UpgradeOptions.candidateSizeBytes options) None None
  /\ (ScoringResult.isBanned c = true \/ ScoringResult.sizeRejected c = true
      \/ ScoringResult.protocolRejected c = true \/ ScoringResult.meetsMinimum c = false ->
      UpgradeResult.isUpgrade u = false /\ UpgradeResult.improvement u = JsNum.Fin 0)
  /\ (ScoringResult.isBanned c = false -> ScoringResult.sizeRejected c = false ->
      ScoringResult.protocolRejected c = false -> ScoringResult.meetsMinimum c = true ->
      UpgradeResult.improvement u =
        JsNum.sub (ScoringResult.totalScore c) (ScoringResult.totalScore e)
      /\ UpgradeResult.isUpgrade u =
           (if allowSidegrade
            then JsNum.geb_Q (UpgradeResult.improvement u) minimumImprovement
            else JsNum.gtb_Q (UpgradeResult.improvement u) minimumImprovement)).
Proof.
  intros u e c minimumImprovement allowSidegrade.
  destruct (isUpgrade_scores existingRelease candidateRelease profile options) as [He Hc].
  fold u in He, Hc. fold e in He. fold c in Hc.
  split; [exact He |]. split; [exact Hc |].
  assert (Hu : u =
    if ScoringResult.isBanned c || ScoringResult.sizeRejected c
       || ScoringResult.protocolRejected c || negb (ScoringResult.meetsMinimum c)
    then UpgradeResult.mk false (JsNum.Fin 0) e c
    else UpgradeResult.mk
           (if allowSidegrade
            then JsNum.geb_Q (JsNum.sub (ScoringResult.totalScore c)
                                        (ScoringResult.totalScore e)) minimumImprovement
            else JsNum.gtb_Q (JsNum.sub (ScoringResult.totalScore c)
                                        (ScoringResult.totalScore e)) minimumImprovement)
           (JsNum.sub (ScoringResult.totalScore c) (ScoringResult.totalScore e)) e c).
  { rewrite He, Hc. reflexivity. }
  clearbody u e c. split.
  - intros Hrej.
    assert (Hg : ScoringResult.isBanned c || ScoringResult.sizeRejected c
                 || ScoringResult.protocolRejected c
                 || negb (ScoringResult.meetsMinimum c) = true).
    { destruct Hrej as [-> | [-> | [-> | ->]]]; cbn;
        rewrite ?orb_true_r; reflexivity. }
    rewrite Hg in Hu. subst u. split; reflexivity.
  - intros Hb Hs Hp Hm. rewrite Hb, Hs, Hp, Hm in Hu. cbn in Hu.
    subst u. split; reflexivity.
Qed.

(** With the default options the verdict is the strict comparison with 0. *)
Lemma isUpgrade_default_options existingRelease candidateRelease profile :
  let u := isUpgrade existingRelease candidateRelease profile UpgradeOptions.empty in
  let c := UpgradeResult.candidate u in
  ScoringResult.isBanned c = false -> ScoringResult.meetsMinimum c = true ->
  UpgradeResult.isUpgrade u = JsNum.gtb_Q (UpgradeResult.improvement u) 0.
Proof.
  intros u c Hb Hm.
  destruct (isUpgrade_scores existingRelease candidateRelease profile UpgradeOptions.empty)
    as [_ Hc].
  fold u in Hc. fold c in Hc.
  destruct (meetsMinimum_flags candidateRelease profile None None None None)
    as (_ & Hs & Hp).
  { cbn [UpgradeOptions.candidateAttrs UpgradeOptions.candidateSizeBytes
         UpgradeOptions.empty] in Hc. rewrite <- Hc. exact Hm. }
  cbn [UpgradeOptions.candidateAttrs UpgradeOptions.candidateSizeBytes
       UpgradeOptions.empty] in Hc.
  rewrite <- Hc in Hs, Hp.
  unfold u, Scorer.isUpgrade.
  cbn [UpgradeOptions.candidateAttrs UpgradeOptions.candidateSizeBytes
       UpgradeOptions.existingAttrs UpgradeOptions.existingSizeBytes
       UpgradeOptions.minimumImprovement UpgradeOptions.allowSidegrade
       UpgradeOptions.empty] in *.
  rewrite <- Hc, Hb, Hs, Hp, Hm. reflexivity.
Qed.

(** C10: isUpgrade scores both releases without a size context and without
    a protocol; scoreRelease validates the size only with a size context and
    the protocol only with a protocol; so, whatever the options (sizes
    included), neither result inside isUpgrade is size-rejected or
    protocol-rejected, and the rejection guard on the candidate reduces to
    banned or below the minimum. *)
Theorem isUpgrade_never_size_or_protocol_rejected
  existingRelease candidateRelease profile options :
  let u := isUpgrade existingRelease candidateRelease profile options in
  let e := UpgradeResult.existing u in
  let c := UpgradeResult.candidate u in
  (forall releaseName attributes fileSizeBytes protocol,
      ScoringResult.sizeRejected
        (scoreRelease releaseName profile attributes fileSizeBytes None protocol) = false)
  /\ (forall releaseName attributes fileSizeBytes sizeContext,
      ScoringResult.protocolRejected
        (scoreRelease releaseName profile attributes fileSizeBytes sizeContext None) = false)
  /\ ScoringResult.sizeRejected e = false
  /\ ScoringResult.protocolRejected e = false
  /\ ScoringResult.sizeRejected c = false
  /\ ScoringResult.protocolRejected c = false
  /\ ScoringResult.isBanned c || ScoringResult.sizeRejected c
     || ScoringResult.protocolRejected c || negb (ScoringResult.meetsMinimum c)
     = ScoringResult.isBanned c || negb (ScoringResult.meetsMinimum c)
  /\ (UpgradeResult.isUpgrade u = true ->
      ScoringResult.isBanned c = false /\ ScoringResult.meetsMinimum c = true).
Proof.
  intros u e c.
  destruct (isUpgrade_scores existingRelease candidateRelease profile options) as [He Hc].
  fold u in He, Hc. fold e in He. fold c in Hc.
  assert (Hse : ScoringResult.sizeRejected e = false)
    by (rewrite He; apply scoreRelease_no_sizeContext).
  assert (Hpe : ScoringResult.protocolRejected e = false)
    by (rewrite He; apply scoreRelease_no_protocol).
  assert (Hsc : ScoringResult.sizeRejected c = false)
    by (rewrite Hc; apply scoreRelease_no_sizeContext).
  assert (Hpc : ScoringResult.protocolRejected c = false)
    by (rewrite Hc; apply scoreRelease_no_protocol).
  split; [intros; apply scoreRelease_no_sizeContext |].
  split; [intros; apply scoreRelease_no_protocol |].
  repeat (split; [assumption |]).
  split.
  - rewrite Hsc, Hpc, !orb_false_r. reflexivity.
  - intros Hup.
    unfold u, Scorer.isUpgrade in Hup. rewrite <- Hc in Hup.
    destruct (ScoringResult.isBanned c); [discriminate Hup |].
    destruct (ScoringResult.meetsMinimum c); [split; reflexivity |].
    rewrite !orb_true_r in Hup. discriminate Hup.
Qed.

(** ** Buckets of the breakdown *)

(** C9 (as amended): a matched format whose category is 'other', or any
    category outside the eleven mapped ones, adds its score to the sum of
    step 5 (the reported total unless the release is banned) and enters no
    bucket: each bucket holds exactly the formats whose category maps to it.
    The nine subtotals therefore add up to the sum minus the scores of the
    formats without a bucket; they add up to the sum whenever every matched
    category maps to a bucket. *)
Theorem breakdown_skips_unmapped_categories
  releaseName profile attributes fileSizeBytes sizeContext protocol :
  let r := scoreRelease releaseName profile attributes fileSizeBytes sizeContext protocol in
  let scored := ScoringResult.matchedFormats r in
  Scorer.categoryToBreakdownKey "other" = None
  /\ (forall category, ~ In category ScorerSpec.mappedCategories ->
        Scorer.categoryToBreakdownKey category = None)
  /\ (forall k,
        ScoreBreakdown.get k (ScoringResult.breakdown r) =
          CategoryScore.mk
            (sumScores (List.filter (ScorerSpec.inBucket k) scored))
            (map (fun f => CustomFormat.name (ScoredFormat.format f))
                 (List.filter (ScorerSpec.inBucket k) scored)))
  /\ (forall f k, ScorerSpec.bucketOf f = None -> ScorerSpec.inBucket k f = false)
  /\ (ScoringResult.isBanned r = false ->
        ScoringResult.totalScore r = JsNum.Fin (sumScores scored))
  /\ ScoreBreakdown.sum (ScoringResult.breakdown r)
     + sumScores (List.filter (fun f => negb (ScorerSpec.hasBucket f)) scored)
     = sumScores scored
  /\ ((forall f, In f scored -> ScorerSpec.bucketOf f <> None) ->
        ScoreBreakdown.sum (ScoringResult.breakdown r) = sumScores scored).
Proof.
  intros r scored.
  destruct (scoreRelease_shape releaseName profile attributes fileSizeBytes sizeContext protocol)
    as (Hm & Hbd & _ & _ & _ & _).
  fold r in Hm, Hbd. fold scored in Hm.
  assert (Hsum : ScoreBreakdown.sum (ScoringResult.breakdown r)
                 = sumScores (List.filter ScorerSpec.hasBucket scored)).
  { rewrite Hbd, <- Hm. unfold Scorer.buildBreakdown.
    rewrite fold_breakdownStep_sum. reflexivity. }
  split; [reflexivity |].
  split; [intros category Hc; now apply categoryToBreakdownKey_None |].
  split.
  { intros k. rewrite Hbd, <- Hm. unfold Scorer.buildBreakdown.
    rewrite fold_breakdownStep_bucket. destruct k; reflexivity. }
  split; [intros f k Hf; unfold ScorerSpec.inBucket; now rewrite Hf |].
  split.
  { intros Hfree.
    pose proof (totalScore_cases releaseName profile attributes fileSizeBytes
                  sizeContext protocol) as Ht.
    fold r in Ht. cbv zeta in Ht. fold scored in Ht.
    destruct Ht as [[Hb _] | [_ Ht]]; [congruence | exact Ht]. }
  split.
  - rewrite Hsum. symmetry. apply sumScores_split.
  - intros Hall. rewrite Hsum. f_equal. apply filter_all_true.
    intros f Hf. specialize (Hall f Hf). unfold ScorerSpec.hasBucket.
    destruct (ScorerSpec.bucketOf f); [reflexivity | congruence].
Qed.

(** ** Size validation of TV releases *)

Lemma belowMin_spec (minSize : option Q) (size : Q) :
  Scorer.belowMin minSize size = true <-> exists lo, minSize = Some lo /\ (size < lo)%Q.
Proof.
  destruct minSize as [lo|]; cbn.
  - rewrite Qltb_lt. split; [intros H; exists lo; now split |].
    intros (lo' & [= <-] & H). exact H.
  - split; [discriminate | intros (? & [=] & _)].
Qed.

Lemma aboveMax_spec (maxSize : option Q) (size : Q) :
  Scorer.aboveMax maxSize size = true <-> exists hi, maxSize = Some hi /\ (hi < size)%Q.
Proof.
  destruct maxSize as [hi|]; cbn.
  - rewrite Qgtb_lt. split; [intros H; exists hi; now split |].
    intros (hi' & [= <-] & H). exact H.
  - split; [discriminate | intros (? & [=] & _)].
Qed.

(** What step 7 computes for a TV release with a positive size. *)
Lemma tv_size_check releaseName profile attributes bytes ctx protocol :
  0 < bytes ->
  SizeValidationContext.mediaType ctx = MediaType.tv ->
  let r := scoreRelease releaseName profile attributes (Some bytes) (Some ctx) protocol in
  let fileSizeMb := (inject_Z bytes / inject_Z (1024 * 1024))%Q in
  let seasonPack := Scorer.truthy (SizeValidationContext.isSeasonPack ctx) in
  let effectiveSizeMb :=
    if seasonPack then
      match SizeValidationContext.episodeCount ctx with
      | None => (-1)%Q
      | Some n => if (n =? 0) || (n <=? 0) then (-1)%Q else (fileSizeMb / inject_Z n)%Q
      end
    else fileSizeMb in
  let perEp := if seasonPack then " per episode (avg)" else "" in
  let minSizeMb := ScoringProfile.episodeMinSizeMb profile in
  let maxSizeMb := ScoringProfile.episodeMaxSizeMb profile in
  (ScoringResult.sizeRejected r, ScoringResult.sizeRejectionReason r) =
    if JsFormat.Qgtb effectiveSizeMb 0 then
      if Scorer.belowMin minSizeMb effectiveSizeMb then
        (true, Some ("Episode size " +:+ JsFormat.toFixed 0 effectiveSizeMb +:+ " MB" +:+ perEp
                     +:+ " is below minimum " +:+ Scorer.showBound numberToString minSizeMb
                     +:+ " MB"))
      else if Scorer.aboveMax maxSizeMb effectiveSizeMb then
        (true, Some ("Episode size " +:+ JsFormat.toFixed 0 effectiveSizeMb +:+ " MB" +:+ perEp
                     +:+ " exceeds maximum " +:+ Scorer.showBound numberToString maxSizeMb
                     +:+ " MB"))
      else (false, None)
    else (false, None).
Proof.
  intros Hpos Htv. unfold Scorer.scoreRelease.
  rewrite (proj2 (Z.ltb_lt 0 bytes) Hpos), Htv.
  cbv zeta.
  repeat match goal with
         | |- context [let '(_, _) := ?X in _] => destruct X as [? ?]
         end.
  reflexivity.
Qed.

(** Step 7 for a TV release with a positive size: the skipped season pack,
    the figure that is compared, the verdict and the reason. *)
Lemma tv_size_validation_positive
  releaseName profile attributes bytes ctx protocol :
  0 < bytes ->
  SizeValidationContext.mediaType ctx = MediaType.tv ->
  let r := scoreRelease releaseName profile attributes (Some bytes) (Some ctx) protocol in
  let fileSizeMb := (inject_Z bytes / inject_Z (1024 * 1024))%Q in
  let seasonPack := Scorer.truthy (SizeValidationContext.isSeasonPack ctx) in
  let minSizeMb := ScoringProfile.episodeMinSizeMb profile in
  let maxSizeMb := ScoringProfile.episodeMaxSizeMb profile in
  (seasonPack = true ->
   (SizeValidationContext.episodeCount ctx = None
    \/ exists n, SizeValidationContext.episodeCount ctx = Some n /\ n <= 0) ->
   ScoringResult.sizeRejected r = false /\ ScoringResult.sizeRejectionReason r = None)
  /\
  (forall (figure : Q) (perEp : string),
     (seasonPack = true /\ perEp = " per episode (avg)"
      /\ exists n, SizeValidationContext.episodeCount ctx = Some n /\ 0 < n
                   /\ figure = (fileSizeMb / inject_Z n)%Q)
     \/ (seasonPack = false /\ perEp = "" /\ figure = fileSizeMb) ->
     (ScoringResult.sizeRejected r = true <->
        (exists lo, minSizeMb = Some lo /\ (figure < lo)%Q)
        \/ (exists hi, maxSizeMb = Some hi /\ (hi < figure)%Q))
     /\ (forall lo, minSizeMb = Some lo -> (figure < lo)%Q ->
           ScoringResult.sizeRejectionReason r =
             Some ("Episode size " +:+ JsFormat.toFixed 0 figure +:+ " MB" +:+ perEp
                   +:+ " is below minimum " +:+ numberToString lo +:+ " MB"))
     /\ (forall hi, maxSizeMb = Some hi -> (hi < figure)%Q ->
           (forall lo, minSizeMb = Some lo -> ~ (figure < lo)%Q) ->
           ScoringResult.sizeRejectionReason r =
             Some ("Episode size " +:+ JsFormat.toFixed 0 figure +:+ " MB" +:+ perEp
                   +:+ " exceeds maximum " +:+ numberToString hi +:+ " MB"))
     /\ (ScoringResult.sizeRejected r = false -> ScoringResult.sizeRejectionReason r = None)).
Proof.
  intros Hpos Htv r fileSizeMb seasonPack minSizeMb maxSizeMb.
  pose proof (tv_size_check releaseName profile attributes bytes ctx protocol Hpos Htv) as Hcheck.
  cbv zeta in Hcheck. fold r fileSizeMb seasonPack minSizeMb maxSizeMb in Hcheck.
  split.
  - intros Hpack Hcount. rewrite Hpack in Hcheck.
    assert (Hskip : match SizeValidationContext.episodeCount ctx with
                    | Some n => if (n =? 0) || (n <=? 0) then (-1)%Q
                                else (fileSizeMb / inject_Z n)%Q
                    | None => (-1)%Q
                    end = (-1)%Q).
    { destruct Hcount as [-> | (n & -> & Hn)]; [reflexivity |].
      rewrite (proj2 (Z.leb_le n 0) Hn), orb_true_r. reflexivity. }
    rewrite Hskip in Hcheck. cbn in Hcheck.
    injection Hcheck as -> ->. split; reflexivity.
  - intros figure perEp Hfig. subst fileSizeMb.
    assert (Hverdict :
      (ScoringResult.sizeRejected r, ScoringResult.sizeRejectionReason r) =
        if Scorer.belowMin minSizeMb figure then
          (true, Some ("Episode size " +:+ JsFormat.toFixed 0 figure +:+ " MB" +:+ perEp
                       +:+ " is below minimum " +:+ Scorer.showBound numberToString minSizeMb
                       +:+ " MB"))
        else if Scorer.aboveMax maxSizeMb figure then
          (true, Some ("Episode size " +:+ JsFormat.toFixed 0 figure +:+ " MB" +:+ perEp
                       +:+ " exceeds maximum " +:+ Scorer.showBound numberToString maxSizeMb
                       +:+ " MB"))
        else (false, None)).
    { destruct Hfig as [(Hpack & -> & n & Hn & Hnpos & ->) | (Hpack & -> & ->)];
        rewrite Hpack in Hcheck.
      - rewrite Hn in Hcheck.
        assert (Hno : (n =? 0) || (n <=? 0) = false).
        { apply orb_false_iff. split; [apply Z.eqb_neq | apply Z.leb_gt]; lia. }
        rewrite Hno in Hcheck.
        rewrite (proj2 (Qgtb_lt _ 0) (average_pos bytes n Hpos Hnpos)) in Hcheck.
        exact Hcheck.
      - rewrite (proj2 (Qgtb_lt _ 0) (megabytes_pos bytes Hpos)) in Hcheck.
        exact Hcheck. }
    clear Hcheck Hfig.
    destruct (Scorer.belowMin minSizeMb figure) eqn:Hlo.
    + injection Hverdict as Hrej Hreason.
      pose proof (proj1 (belowMin_spec _ _) Hlo) as (lo & Hmin & Hlt).
      split; [split; [intros _; left; eauto | intros _; exact Hrej] |].
      split.
      { intros lo' Hlo' _. rewrite Hreason, Hmin in *. injection Hlo' as <-. reflexivity. }
      split; [| rewrite Hrej; discriminate].
      intros hi _ _ Hnot. exfalso. exact (Hnot lo Hmin Hlt).
    + assert (Hnlo : forall lo, minSizeMb = Some lo -> ~ (figure < lo)%Q).
      { intros lo Hmin Hlt.
        assert (Scorer.belowMin minSizeMb figure = true) by (apply belowMin_spec; eauto).
        congruence. }
      destruct (Scorer.aboveMax maxSizeMb figure) eqn:Hhi.
      * injection Hverdict as Hrej Hreason.
        pose proof (proj1 (aboveMax_spec _ _) Hhi) as (hi & Hmax & Hlt).
        split; [split; [intros _; right; eauto | intros _; exact Hrej] |].
        split; [intros lo Hmin Hl; exfalso; exact (Hnlo lo Hmin Hl) |].
        split; [| rewrite Hrej; discriminate].
        intros hi' Hhi' _ _. rewrite Hreason, Hmax in *. injection Hhi' as <-. reflexivity.
      * injection Hverdict as Hrej Hreason.
        assert (Hnhi : forall hi, maxSizeMb = Some hi -> ~ (hi < figure)%Q).
        { intros hi Hmax Hlt.
          assert (Scorer.aboveMax maxSizeMb figure = true) by (apply aboveMax_spec; eauto).
          congruence. }
        split.
        { rewrite Hrej. split; [discriminate |].
          intros [(lo & Hmin & Hlt) | (hi & Hmax & Hlt)];
            [exfalso; exact (Hnlo lo Hmin Hlt) | exfalso; exact (Hnhi hi Hmax Hlt)]. }
        split; [intros lo Hmin Hl; exfalso; exact (Hnlo lo Hmin Hl) |].
        split; [intros hi Hmax Hl; exfalso; exact (Hnhi hi Hmax Hl) |].
        intros _. exact Hreason.
Qed.

(** A size that is not positive is treated like no size at all (the guard
    [fileSizeBytes > 0] of step 7). *)
Lemma scoreRelease_nonpositive_size
  releaseName profile attributes bytes sizeContext protocol :
  bytes <= 0 ->
  scoreRelease releaseName profile attributes (Some bytes) sizeContext protocol
  = scoreRelease releaseName profile attributes None sizeContext protocol.
Proof.
  intros Hle. unfold Scorer.scoreRelease.
  destruct sizeContext as [ctx|]; [| reflexivity].
  rewrite (proj2 (Z.ltb_ge 0 bytes) Hle). reflexivity.
Qed.

Lemma scoreRelease_no_size releaseName profile attributes sizeContext protocol :
  let r := scoreRelease releaseName profile attributes None sizeContext protocol in
  ScoringResult.sizeRejected r = false /\ ScoringResult.sizeRejectionReason r = None.
Proof.
  unfold Scorer.scoreRelease. split_pairs. split; reflexivity.
Qed.

(** C5 (as amended): for a TV-context call with a file size and a size
    context.  With a positive size: a season pack whose episodeCount is
    absent or <= 0 is not validated, sizeRejected is false; otherwise the
    figure compared with episodeMinSizeMb and episodeMaxSizeMb is the
    per-episode average (total MB divided by episodeCount) for a season pack
    with a positive episodeCount, and the total MB for a release that is not
    a season pack; sizeRejected holds iff the figure is below the minimum or
    above the maximum, and the reason embeds the figure (to 0 decimals) and
    the bound.  With a size of 0 or less nothing is validated: the result is
    the one of the call without a size, and sizeRejected is false. *)
Theorem scoreRelease_tv_size_validation
  releaseName profile attributes bytes ctx protocol :
  SizeValidationContext.mediaType ctx = MediaType.tv ->
  let r := scoreRelease releaseName profile attributes (Some bytes) (Some ctx) protocol in
  let fileSizeMb := (inject_Z bytes / inject_Z (1024 * 1024))%Q in
  let seasonPack := Scorer.truthy (SizeValidationContext.isSeasonPack ctx) in
  let minSizeMb := ScoringProfile.episodeMinSizeMb profile in
  let maxSizeMb := ScoringProfile.episodeMaxSizeMb profile in
  (0 < bytes ->
   (seasonPack = true ->
    (SizeValidationContext.episodeCount ctx = None
     \/ exists n, SizeValidationContext.episodeCount ctx = Some n /\ n <= 0) ->
    ScoringResult.sizeRejected r = false /\ ScoringResult.sizeRejectionReason r = None)
   /\
   (forall (figure : Q) (perEp : string),
      (seasonPack = true /\ perEp = " per episode (avg)"
       /\ exists n, SizeValidationContext.episodeCount ctx = Some n /\ 0 < n
                    /\ figure = (fileSizeMb / inject_Z n)%Q)
      \/ (seasonPack = false /\ perEp = "" /\ figure = fileSizeMb) ->
      (ScoringResult.sizeRejected r = true <->
         (exists lo, minSizeMb = Some lo /\ (figure < lo)%Q)
         \/ (exists hi, maxSizeMb = Some hi /\ (hi < figure)%Q))
      /\ (forall lo, minSizeMb = Some lo -> (figure < lo)%Q ->
            ScoringResult.sizeRejectionReason r =
              Some ("Episode size " +:+ JsFormat.toFixed 0 figure +:+ " MB" +:+ perEp
                    +:+ " is below minimum " +:+ numberToString lo +:+ " MB"))
      /\ (forall hi, maxSizeMb = Some hi -> (hi < figure)%Q ->
            (forall lo, minSizeMb = Some lo -> ~ (figure < lo)%Q) ->
            ScoringResult.sizeRejectionReason r =
              Some ("Episode size " +:+ JsFormat.toFixed 0 figure +:+ " MB" +:+ perEp
                    +:+ " exceeds maximum " +:+ numberToString hi +:+ " MB"))
      /\ (ScoringResult.sizeRejected r = false ->
            ScoringResult.sizeRejectionReason r = None)))
  /\ (bytes <= 0 ->
      r = scoreRelease releaseName profile attributes None (Some ctx) protocol
      /\ ScoringResult.sizeRejected r = false
      /\ ScoringResult.sizeRejectionReason r = None).
Proof.
  intros Htv r fileSizeMb seasonPack minSizeMb maxSizeMb. split.
  - intros Hpos.
    exact (tv_size_validation_positive releaseName profile attributes bytes ctx protocol
             Hpos Htv).
  - intros Hle. unfold r.
    rewrite (scoreRelease_nonpositive_size releaseName profile attributes bytes
               (Some ctx) protocol Hle).
    split; [reflexivity |].
    apply (scoreRelease_no_size releaseName profile attributes (Some ctx) protocol).
Qed.

End ScorerProperties.

(** ** The claims at concrete inputs *)

(** The season pack of the specification (10 GiB, 10 episodes, cap 800 MB):
    the average of 1024 MB per episode is what is compared and reported. *)
Lemma scoreRelease_tv_size_validation_witness :
  let r := Examples.score Examples.release "Show.S01" Examples.profile None
             (Some Examples.tenGiB) (Some (Examples.seasonPack (Some 10))) None in
  ScoringResult.sizeRejected r = true
  /\ ScoringResult.sizeRejectionReason r
     = Some "Episode size 1024 MB per episode (avg) exceeds maximum 800 MB".
Proof.
  intros r. subst r. unfold Examples.score.
  destruct (scoreRelease_tv_size_validation
              (Examples.parseAs Examples.release) Examples.matcher Examples.library
              Examples.showNumber "Show.S01" Examples.profile None Examples.tenGiB
              (Examples.seasonPack (Some 10)) None)
    as [Hpositive _]; [reflexivity |].
  destruct (Hpositive eq_refl) as [_ Hfigure].
  destruct (Hfigure (inject_Z Examples.tenGiB / inject_Z (1024 * 1024) / inject_Z 10)%Q
              " per episode (avg)")
    as (Hrejected & _ & Hreason & _).
  { left. split; [reflexivity |]. split; [reflexivity |].
    exists 10. split; [reflexivity |]. split; reflexivity. }
  split.
  - apply Hrejected. right. exists (800 # 1)%Q. split; reflexivity.
  - rewrite (Hreason (800 # 1)%Q); [reflexivity | reflexivity | reflexivity |].
    intros lo [= <-]. discriminate.
Defined.

(** C1 as stated fails for a match that mutual exclusivity drops: a release
    tagged DV and HDR matches the Dolby Vision format and the generic HDR
    format; the profile resolves -999999 for the generic one, but only Dolby
    Vision is counted, and the result is not banned. *)
Lemma matched_ban_score_dropped_by_exclusivity :
  let r := Scorer.scoreRelease (Examples.parseAs Examples.release) Examples.dvAndHdrMatcher
             Examples.library Examples.showNumber
             "Movie.2024.2160p.WEB-DL.DV.HDR.DDP5.1-GROUP" Examples.hdrBanProfile
             None None None None in
  (exists mf,
      In mf (Examples.dvAndHdrMatcher Examples.release Examples.library)
      /\ CustomFormat.id (MatchedFormat.format mf) = "hdr-generic"
      /\ default 0 (ScoringProfile.formatScores Examples.hdrBanProfile
                      !! CustomFormat.id (MatchedFormat.format mf)) <= -999999)
  /\ ScoringResult.isBanned r = false
  /\ ScoringResult.totalScore r = JsNum.Fin 3000
  /\ ScoringResult.bannedReasons r = []
  /\ map (fun f => CustomFormat.id (ScoredFormat.format f)) (ScoringResult.matchedFormats r)
     = ["hdr-dolby-vision"].
Proof.
  split.
  - exists (MatchedFormat.mk Examples.genericHdr []).
    split; [right; left; reflexivity |]. split; [reflexivity |].
    apply Z.leb_le. vm_compute. reflexivity.
  - vm_compute. repeat split; reflexivity.
Qed.

(** The same with the modelled matcher on the release of the tests (tagged
    DV and HDR): generic HDR is among the matches, resolves to -999999, and
    the result is not banned. *)
Example exclusivity_drops_banned_generic_hdr :
  let r := Examples.score Examples.release "Movie" Examples.hdrBanProfile
             None None None None in
  In "hdr-generic"
     (Scorer.getMatchedFormatIds (Examples.parseAs Examples.release) Examples.matcher
        Examples.library "Movie" None)
  /\ ScoringProfile.formatScores Examples.hdrBanProfile !! "hdr-generic" = Some (-999999)
  /\ ScoringResult.isBanned r = false
  /\ ScoringResult.bannedReasons r = [].
Proof. vm_compute. split; [right; left; reflexivity | repeat split; reflexivity]. Qed.

Example show_number_decimals :
  map Examples.showNumber [(3 # 2)%Q; (800 # 1)%Q; (-3 # 4)%Q; 0%Q; (6 # 4)%Q]
  = ["1.5"; "800"; "-0.75"; "0"; "1.5"].
Proof. vm_compute. reflexivity. Qed.

(** C5 as stated fails for a supplied size of 0 bytes: the season pack
    averages 0 MB per episode, below the minimum of 100 MB, and is not
    rejected (the guard [fileSizeBytes > 0] skips the whole validation). *)
Lemma scoreRelease_zero_size_not_validated :
  let r := Examples.score Examples.release "Show.S01" Examples.profile None
             (Some 0) (Some (Examples.seasonPack (Some 10))) None in
  ScoringProfile.episodeMinSizeMb Examples.profile = Some (100 # 1)%Q
  /\ (inject_Z 0 / inject_Z (1024 * 1024) / inject_Z 10 < 100 # 1)%Q
  /\ ScoringResult.sizeRejected r = false
  /\ ScoringResult.sizeRejectionReason r = None.
Proof. vm_compute. repeat split; reflexivity. Qed.

(** C9 as stated fails when a format without a bucket scores 0: the
    sentinel format of the tests (category 'other', no profile entry) is
    matched and has no bucket, and the nine subtotals still add up to the
    total. *)
Lemma breakdown_sum_equal_with_unmapped_format :
  let r := Examples.scoreSentinel "Movie" Examples.profile None None None None in
  JsNum.Fin (ScoreBreakdown.sum (ScoringResult.breakdown r)) = ScoringResult.totalScore r
  /\ exists f, In f (ScoringResult.matchedFormats r)
               /\ CustomFormat.category (ScoredFormat.format f) = "other"
               /\ ScorerSpec.bucketOf f = None.
Proof.
  vm_compute. split; [reflexivity |].
  eexists. split; [left; reflexivity |]. split; reflexivity.
Qed.

(** In the modelled matcher a negated condition on a missing release group
    matches: the raw match is false and the negation of section 4.1 applies
    to it.  The tests of the matcher negate no condition on a missing
    attribute. *)
Lemma negated_condition_on_missing_group_matches :
  Matcher.evaluateCondition Examples.literalRegExp
    (Examples.groupMatches "SPARKS" true true) Examples.releaseWithoutGroup
  = Exc.Ok (ConditionMatchResult.mk (Examples.groupMatches "SPARKS" true true) true false).
Proof. reflexivity. Qed.

(** ** The examples of the specification and of the tests *)

Example score_release_total :
  ScoringResult.totalScore (Examples.score Examples.release "Movie" Examples.profile None None None None)
  = JsNum.Fin 23000.
Proof. vm_compute. reflexivity. Qed.

Example score_release_hdr_bucket :
  CategoryScore.formats
    (ScoreBreakdown.hdr
       (ScoringResult.breakdown
          (Examples.score Examples.release "Movie" Examples.profile None None None None)))
  = ["Dolby Vision"].
Proof. vm_compute. reflexivity. Qed.

Example score_cam_banned :
  let r := Examples.score Examples.camRelease "Movie.2024.CAM.x264-GROUP"
             Examples.profile None None None None in
  ScoringResult.isBanned r = true
  /\ ScoringResult.totalScore r = JsNum.NegInf
  /\ ScoringResult.bannedReasons r = ["CAM"]
  /\ ScoringResult.meetsMinimum r = false.
Proof. vm_compute. repeat split; reflexivity. Qed.

Example season_pack_rejected :
  let r := Examples.score Examples.release "Show.S01" Examples.profile None
             (Some Examples.tenGiB) (Some (Examples.seasonPack (Some 10))) None in
  ScoringResult.sizeRejected r = true
  /\ ScoringResult.sizeRejectionReason r
     = Some "Episode size 1024 MB per episode (avg) exceeds maximum 800 MB".
Proof. vm_compute. split; reflexivity. Qed.

Example season_pack_unknown_count :
  ScoringResult.sizeRejected
    (Examples.score Examples.release "Show.S01" Examples.profile None
       (Some Examples.tenGiB) (Some (Examples.seasonPack (Some 0))) None) = false.
Proof. vm_compute. reflexivity. Qed.

Example torrent_rejected :
  let r := Examples.score Examples.release "Movie" Examples.profile None None None
             (Some Protocol.torrent) in
  ScoringResult.protocolRejected r = true
  /\ ScoringResult.protocolRejectionReason r
     = Some "Protocol 'torrent' not allowed. Profile accepts: usenet"
  /\ ScoringResult.meetsMinimum r = false.
Proof. vm_compute. repeat split; reflexivity. Qed.
Example toFixed_season_pack : JsFormat.toFixed 0 (10240 # 10) = "1024".
Proof. vm_compute. reflexivity. Qed.

Example toFixed_two_digits : JsFormat.toFixed 2 (1 # 16) = "0.06".
Proof. vm_compute. reflexivity. Qed.

Example toFixed_tie_goes_up : JsFormat.toFixed 0 (5 # 2) = "3".
Proof. vm_compute. reflexivity. Qed.

Example join_protocols : JsFormat.join ", " ["torrent"; "usenet"] = "torrent, usenet".
Proof. reflexivity. Qed.


(** The cases of [matcher.test.ts] on the modelled matcher. *)

Example invalid_regex_never_matches :
  MatcherSpec.conditionMatches Examples.literalRegExp
    (Examples.titleMatches "[invalid(" true false) Examples.release = false.
Proof. reflexivity. Qed.

Example missing_group_does_not_match :
  MatcherSpec.conditionMatches Examples.literalRegExp
    (Examples.groupMatches "SPARKS" true false) Examples.releaseWithoutGroup = false.
Proof. reflexivity. Qed.

Example title_match_ignores_case :
  MatcherSpec.conditionMatches Examples.literalRegExp
    (Examples.titleMatches "remux" true false) Examples.release = true.
Proof. vm_compute. reflexivity. Qed.

Example negation_inverts_raw_match :
  Matcher.evaluateCondition Examples.literalRegExp
    (Examples.resolutionIs "2160p" true true) Examples.release
  = Exc.Ok (ConditionMatchResult.mk (Examples.resolutionIs "2160p" true true) false true).
Proof. reflexivity. Qed.

Example sdr_keyword_matches_null_hdr :
  MatcherSpec.conditionMatches Examples.literalRegExp
    (Examples.hdrIs "sdr" true false) Examples.camRelease = true.
Proof. reflexivity. Qed.

Example empty_format_matches :
  Matcher.evaluateFormat Examples.literalRegExp Examples.sentinel Examples.release
  = Exc.Ok (Matcher.FormatMatchResult.mk true []).
Proof. reflexivity. Qed.

Example only_optional_none_match :
  let format :=
    CustomFormat.mk "test-format" "Test Format" "" "other" []
      [Examples.resolutionIs "480p" false false; Examples.resolutionIs "720p" false false] in
  Matcher.FormatMatchResult.matches
    <$> (match Matcher.evaluateFormat Examples.literalRegExp format Examples.release with
         | Exc.Ok r => Some r
         | Exc.Throw _ => None
         end) = Some false.
Proof. reflexivity. Qed.

Example only_optional_one_matches :
  let format :=
    CustomFormat.mk "test-format" "Test Format" "" "other" []
      [Examples.resolutionIs "480p" false false; Examples.resolutionIs "2160p" false false] in
  Matcher.FormatMatchResult.matches
    <$> (match Matcher.evaluateFormat Examples.literalRegExp format Examples.release with
         | Exc.Ok r => Some r
         | Exc.Throw _ => None
         end) = Some true.
Proof. reflexivity. Qed.

Example required_fails_optional_matches :
  let format :=
    CustomFormat.mk "test-format" "Test Format" "" "other" []
      [Examples.resolutionIs "1080p" true false; Examples.hdrIs "dolby-vision" false false] in
  Matcher.FormatMatchResult.matches
    <$> (match Matcher.evaluateFormat Examples.literalRegExp format Examples.release with
         | Exc.Ok r => Some r
         | Exc.Throw _ => None
         end) = Some false.
Proof. reflexivity. Qed.

Example compare_banned_releases_tie :
  Comparison.winner
    (Scorer.compareReleases (Examples.parseAs Examples.camRelease) Examples.matcher
       Examples.library Examples.showNumber "A.CAM" "B.CAM" Examples.profile
       None None None None)
  = Winner.tie.
Proof. vm_compute. reflexivity. Qed.

Example upgrade_from_banned_existing :
  let u := Scorer.isUpgrade (Examples.parseAs Examples.release) Examples.matcher
             Examples.library Examples.showNumber "Old.CAM" "Movie"
             Examples.profile
             (UpgradeOptions.mk None None (Some Examples.camRelease) None None None) in
  UpgradeResult.isUpgrade u = true /\ UpgradeResult.improvement u = JsNum.PosInf.
Proof. vm_compute. split; reflexivity. Qed.

Example exclusivity_keeps_dolby_vision :
  map (fun mf => CustomFormat.id (MatchedFormat.format mf))
      (Scorer.applyMutualExclusivity
         [MatchedFormat.mk Examples.genericHdr []; MatchedFormat.mk Examples.remux2160 [];
          MatchedFormat.mk Examples.dolbyVision []]
         Examples.profile)
  = ["2160p-remux"; "hdr-dolby-vision"].
Proof. vm_compute. reflexivity. Qed.

Example exclusivity_unlisted_hdr_ranks_last :
  map (fun mf => CustomFormat.id (MatchedFormat.format mf))
      (Scorer.applyMutualExclusivity
         [MatchedFormat.mk (CustomFormat.mk "hdr-custom" "Custom HDR" "" "hdr" [] []) [];
          MatchedFormat.mk (CustomFormat.mk "hdr-sdr" "SDR" "" "hdr" [] []) []]
         Examples.profile)
  = ["hdr-sdr"].
Proof. vm_compute. reflexivity. Qed.

(** * Further properties of the scorer *)

Section ScorerCoverage.

Variable parseRelease : string -> ReleaseAttributes.t.
Variable matchFormats : ReleaseAttributes.t -> list CustomFormat.t -> list MatchedFormat.t.
Variable ALL_FORMATS : list CustomFormat.t.
Variable numberToString : Q -> string.

Abbreviation scoreRelease :=
  (Scorer.scoreRelease parseRelease matchFormats ALL_FORMATS numberToString).
Abbreviation compareReleases :=
  (Scorer.compareReleases parseRelease matchFormats ALL_FORMATS numberToString).
Abbreviation isUpgrade :=
  (Scorer.isUpgrade parseRelease matchFormats ALL_FORMATS numberToString).
Abbreviation filterQualityReleases :=
  (Scorer.filterQualityReleases parseRelease matchFormats ALL_FORMATS numberToString).
Abbreviation rankReleases :=
  (Scorer.rankReleases parseRelease matchFormats ALL_FORMATS numberToString).
Abbreviation getMatchedFormatIds :=
  (Scorer.getMatchedFormatIds parseRelease matchFormats ALL_FORMATS).
Abbreviation debugRelease :=
  (Scorer.debugRelease parseRelease matchFormats ALL_FORMATS).
Abbreviation scoredOf := (ScorerSpec.scoredOf parseRelease matchFormats ALL_FORMATS).
Abbreviation sumScores := ScorerSpec.sumScores.

(** ** Size limits of movies *)

(** What a pair of bounds decides about a size, and what it reports. *)
Lemma bounds_verdict (minSize maxSize : option Q) (size : Q)
  (rejected : bool) (reason : option string) (below above : string -> string) :
  (rejected, reason) =
    (if Scorer.belowMin minSize size
     then (true, Some (below (Scorer.showBound numberToString minSize)))
     else if Scorer.aboveMax maxSize size
          then (true, Some (above (Scorer.showBound numberToString maxSize)))
          else (false, None)) ->
  (rejected = true <->
     (exists lo, minSize = Some lo /\ (size < lo)%Q)
     \/ (exists hi, maxSize = Some hi /\ (hi < size)%Q))
  /\ (forall lo, minSize = Some lo -> (size < lo)%Q ->
        reason = Some (below (numberToString lo)))
  /\ (forall hi, maxSize = Some hi -> (hi < size)%Q ->
        (forall lo, minSize = Some lo -> ~ (size < lo)%Q) ->
        reason = Some (above (numberToString hi)))
  /\ (rejected = false -> reason = None).
Proof.
  intros Hverdict.
  destruct (Scorer.belowMin minSize size) eqn:Hlo.
  - injection Hverdict as -> ->.
    pose proof (proj1 (belowMin_spec _ _) Hlo) as (lo & Hmin & Hlt).
    split; [split; [intros _; left; eauto | reflexivity] |].
    split; [intros lo' Hlo' _; rewrite Hmin in *; now injection Hlo' as <- |].
    split; [| discriminate].
    intros hi _ _ Hnot. exfalso. exact (Hnot lo Hmin Hlt).
  - assert (Hnlo : forall lo, minSize = Some lo -> ~ (size < lo)%Q).
    { intros lo Hmin Hlt.
      assert (Scorer.belowMin minSize size = true) by (apply belowMin_spec; eauto).
      congruence. }
    destruct (Scorer.aboveMax maxSize size) eqn:Hhi.
    + injection Hverdict as -> ->.
      pose proof (proj1 (aboveMax_spec _ _) Hhi) as (hi & Hmax & Hlt).
      split; [split; [intros _; right; eauto | reflexivity] |].
      split; [intros lo Hmin Hl; exfalso; exact (Hnlo lo Hmin Hl) |].
      split; [| discriminate].
      intros hi' Hhi' _ _. rewrite Hmax in *. now injection Hhi' as <-.
    + injection Hverdict as -> ->.
      assert (Hnhi : forall hi, maxSize = Some hi -> ~ (hi < size)%Q).
      { intros hi Hmax Hlt.
        assert (Scorer.aboveMax maxSize size = true) by (apply aboveMax_spec; eauto).
        congruence. }
      split.
      { split; [discriminate |].
        intros [(lo & Hmin & Hlt) | (hi & Hmax & Hlt)];
          [exfalso; exact (Hnlo lo Hmin Hlt) | exfalso; exact (Hnhi hi Hmax Hlt)]. }
      split; [intros lo Hmin Hl; exfalso; exact (Hnlo lo Hmin Hl) |].
      split; [intros hi Hmax Hl; exfalso; exact (Hnhi hi Hmax Hl) |].
      reflexivity.
Qed.

Lemma movie_size_check releaseName profile attributes bytes ctx protocol :
  0 < bytes ->
  SizeValidationContext.mediaType ctx = MediaType.movie ->
  let r := scoreRelease releaseName profile attributes (Some bytes) (Some ctx) protocol in
  let fileSizeGb := (inject_Z bytes / inject_Z (1024 * 1024 * 1024))%Q in
  let minSize := ScoringProfile.movieMinSizeGb profile in
  let maxSize := ScoringProfile.movieMaxSizeGb profile in
  (ScoringResult.sizeRejected r, ScoringResult.sizeRejectionReason r) =
    if Scorer.belowMin minSize fileSizeGb then
      (true, Some ("Movie size " +:+ JsFormat.toFixed 2 fileSizeGb
                   +:+ " GB is below minimum " +:+ Scorer.showBound numberToString minSize
                   +:+ " GB"))
    else if Scorer.aboveMax maxSize fileSizeGb then
      (true, Some ("Movie size " +:+ JsFormat.toFixed 2 fileSizeGb
                   +:+ " GB exceeds maximum " +:+ Scorer.showBound numberToString maxSize
                   +:+ " GB"))
    else (false, None).
Proof.
  intros Hpos Hmovie. unfold Scorer.scoreRelease.
  rewrite (proj2 (Z.ltb_lt 0 bytes) Hpos), Hmovie.
  cbv zeta.
  repeat match goal with
         | |- context [let '(_, _) := ?X in _] => destruct X as [? ?]
         end.
  reflexivity.
Qed.

(** X1: for a movie with a positive size, step 7 compares the size in GB
    (bytes / 1024^3) with movieMinSizeGb and movieMaxSizeGb only: the release
    is size-rejected iff the size is below the minimum or above the maximum,
    the minimum is reported first, and the reason carries the size to two
    decimals and the bound. *)
Theorem scoreRelease_movie_size_validation
  releaseName profile attributes bytes ctx protocol :
  0 < bytes ->
  SizeValidationContext.mediaType ctx = MediaType.movie ->
  let r := scoreRelease releaseName profile attributes (Some bytes) (Some ctx) protocol in
  let fileSizeGb := (inject_Z bytes / inject_Z (1024 * 1024 * 1024))%Q in
  let minSize := ScoringProfile.movieMinSizeGb profile in
  let maxSize := ScoringProfile.movieMaxSizeGb profile in
  (ScoringResult.sizeRejected r = true <->
     (exists lo, minSize = Some lo /\ (fileSizeGb < lo)%Q)
     \/ (exists hi, maxSize = Some hi /\ (hi < fileSizeGb)%Q))
  /\ (forall lo, minSize = Some lo -> (fileSizeGb < lo)%Q ->
        ScoringResult.sizeRejectionReason r =
          Some ("Movie size " +:+ JsFormat.toFixed 2 fileSizeGb
                +:+ " GB is below minimum " +:+ numberToString lo +:+ " GB"))
  /\ (forall hi, maxSize = Some hi -> (hi < fileSizeGb)%Q ->
        (forall lo, minSize = Some lo -> ~ (fileSizeGb < lo)%Q) ->
        ScoringResult.sizeRejectionReason r =
          Some ("Movie size " +:+ JsFormat.toFixed 2 fileSizeGb
                +:+ " GB exceeds maximum " +:+ numberToString hi +:+ " GB"))
  /\ (ScoringResult.sizeRejected r = false -> ScoringResult.sizeRejectionReason r = None).
Proof.
  intros Hpos Hmovie r fileSizeGb minSize maxSize.
  pose proof (movie_size_check releaseName profile attributes bytes ctx protocol
                Hpos Hmovie) as Hcheck.
  cbv zeta in Hcheck. fold r fileSizeGb minSize maxSize in Hcheck.
  exact (bounds_verdict minSize maxSize fileSizeGb _ _
           (fun b => "Movie size " +:+ JsFormat.toFixed 2 fileSizeGb
                     +:+ " GB is below minimum " +:+ b +:+ " GB")
           (fun b => "Movie size " +:+ JsFormat.toFixed 2 fileSizeGb
                     +:+ " GB exceeds maximum " +:+ b +:+ " GB")
           Hcheck).
Qed.

(** ** Protocol restrictions *)

Lemma Protocol_eqb_eq (a b : Protocol.t) : Protocol.eqb a b = true <-> a = b.
Proof. destruct a, b; cbn; split; (reflexivity || discriminate). Qed.

Lemma includes_protocol (p : Protocol.t) (allowed : list Protocol.t) :
  existsb (Protocol.eqb p) allowed = true <-> In p allowed.
Proof.
  rewrite existsb_exists. split.
  - intros (q & Hq & Heq). apply Protocol_eqb_eq in Heq. now subst q.
  - intros Hin. exists p. split; [exact Hin | now apply Protocol_eqb_eq].
Qed.

(** X2: a release is protocol-rejected iff a protocol is supplied, the
    profile has a non-empty allowedProtocols list, and the protocol is not in
    it; the reason names the protocol and lists what the profile accepts.  A
    profile without the list, or with an empty one, rejects no protocol. *)
Theorem scoreRelease_protocol_validation
  releaseName profile attributes fileSizeBytes sizeContext protocol :
  let r := scoreRelease releaseName profile attributes fileSizeBytes sizeContext protocol in
  (ScoringResult.protocolRejected r = true <->
     exists p allowed,
       protocol = Some p /\ ScoringProfile.allowedProtocols profile = Some allowed
       /\ allowed <> [] /\ ~ In p allowed)
  /\ (forall p allowed,
        protocol = Some p -> ScoringProfile.allowedProtocols profile = Some allowed ->
        allowed <> [] -> ~ In p allowed ->
        ScoringResult.protocolRejectionReason r =
          Some ("Protocol '" +:+ Protocol.toString p +:+ "' not allowed. Profile accepts: "
                +:+ JsFormat.join ", " (map Protocol.toString allowed)))
  /\ (ScoringResult.protocolRejected r = false ->
        ScoringResult.protocolRejectionReason r = None)
  /\ (ScoringProfile.allowedProtocols profile = None
      \/ ScoringProfile.allowedProtocols profile = Some [] ->
      ScoringResult.protocolRejected r = false).
Proof.
  intros r.
  assert (Hpair :
    (ScoringResult.protocolRejected r, ScoringResult.protocolRejectionReason r) =
      match protocol, ScoringProfile.allowedProtocols profile with
      | Some p, Some allowed =>
          if (0 <? length allowed)%nat && negb (existsb (Protocol.eqb p) allowed)
          then (true, Some ("Protocol '" +:+ Protocol.toString p
                            +:+ "' not allowed. Profile accepts: "
                            +:+ JsFormat.join ", " (map Protocol.toString allowed)))
          else (false, None)
      | _, _ => (false, None)
      end).
  { unfold r, Scorer.scoreRelease.
    match goal with
    | |- context [let '(_, _) := ?X in _] => destruct X as [? ?]
    end.
    match goal with
    | |- context [let '(_, _) := ?X in _] => destruct X as [? ?]
    end.
    reflexivity. }
  clearbody r.
  destruct protocol as [p|], (ScoringProfile.allowedProtocols profile) as [allowed|].
  2-4: injection Hpair as -> ->;
       (split; [split; [discriminate | intros (? & ? & ? & ? & _); congruence] |]);
       (split; [intros ? ? ? ?; congruence |]);
       (split; reflexivity).
  destruct (existsb (Protocol.eqb p) allowed) eqn:Hin.
  - rewrite andb_false_r in Hpair. injection Hpair as -> ->.
    apply includes_protocol in Hin.
    split; [split; [discriminate |] |].
    { intros (p' & allowed' & [= <-] & [= <-] & _ & Hnot). contradiction. }
    split; [intros p' allowed' [= <-] [= <-] _ Hnot; contradiction |].
    split; [reflexivity |]. intros [H | H]; [discriminate H | reflexivity].
  - assert (Hnot : ~ In p allowed).
    { intros H. apply includes_protocol in H. congruence. }
    destruct allowed as [|q rest].
    + cbn in Hpair. injection Hpair as -> ->.
      split; [split; [discriminate |] |].
      { intros (p' & allowed' & _ & [= <-] & Hne & _). congruence. }
      split; [intros p' allowed' _ [= <-] Hne; congruence |].
      split; [reflexivity |]. intros _. reflexivity.
    + cbn [length Nat.ltb Nat.leb andb negb] in Hpair. injection Hpair as -> ->.
      split; [split; [intros _ | reflexivity] |].
      { exists p, (q :: rest). repeat split; (reflexivity || discriminate || assumption). }
      split; [intros p' allowed' [= <-] [= <-] _ _; reflexivity |].
      split; [discriminate |]. intros [H | H]; discriminate H.
Qed.

(** ** Rejections and the rest of the result *)

Lemma size_pair_consistent releaseName profile attributes fileSizeBytes sizeContext protocol :
  let r := scoreRelease releaseName profile attributes fileSizeBytes sizeContext protocol in
  (ScoringResult.sizeRejected r = true
   /\ exists reason, ScoringResult.sizeRejectionReason r = Some reason)
  \/ (ScoringResult.sizeRejected r = false /\ ScoringResult.sizeRejectionReason r = None).
Proof.
  unfold Scorer.scoreRelease.
  match goal with
  | |- context [let '(_, _) := ?X in _] =>
      assert (Hsize : (fst X = true /\ exists reason, snd X = Some reason)
                      \/ (fst X = false /\ snd X = None));
      [| destruct X as [? ?]]
  end.
  { repeat match goal with
           | |- context [match ?d with _ => _ end] => destruct d
           end; cbn [fst snd]; eauto. }
  match goal with
  | |- context [let '(_, _) := ?X in _] => destruct X as [? ?]
  end.
  exact Hsize.
Qed.

(** X3: a rejection always comes with its reason and a reason only with a
    rejection: sizeRejectionReason is present iff sizeRejected, and
    protocolRejectionReason is present iff protocolRejected. *)
Theorem scoreRelease_reason_iff_rejected
  releaseName profile attributes fileSizeBytes sizeContext protocol :
  let r := scoreRelease releaseName profile attributes fileSizeBytes sizeContext protocol in
  (ScoringResult.sizeRejected r = true <->
     exists reason, ScoringResult.sizeRejectionReason r = Some reason)
  /\ (ScoringResult.protocolRejected r = true <->
     exists reason, ScoringResult.protocolRejectionReason r = Some reason).
Proof.
  intros r. split.
  - destruct (size_pair_consistent releaseName profile attributes fileSizeBytes
                sizeContext protocol) as [[Hrej Hreason] | [Hrej Hreason]];
      fold r in Hrej, Hreason; rewrite Hrej.
    + split; [intros _; exact Hreason | reflexivity].
    + rewrite Hreason. split; [discriminate | intros (? & [=])].
  - unfold r, Scorer.scoreRelease.
    match goal with
    | |- context [let '(_, _) := ?X in _] => destruct X as [? ?]
    end.
    match goal with
    | |- context [let '(_, _) := ?X in _] =>
        assert (Hproto : (fst X = true /\ exists reason, snd X = Some reason)
                         \/ (fst X = false /\ snd X = None));
        [| destruct X as [? ?]]
    end.
    { repeat match goal with
             | |- context [match ?d with _ => _ end] => destruct d
             end; cbn [fst snd]; eauto. }
    cbn [ScoringResult.protocolRejected ScoringResult.protocolRejectionReason fst snd] in *.
    destruct Hproto as [[-> Hreason] | [-> ->]].
    + split; [intros _; exact Hreason | reflexivity].
    + split; [discriminate | intros (? & [=])].
Qed.

(** X4: the file size, the size context and the protocol decide only the
    rejection flags and (through them) meetsMinimum: the matched formats, the
    breakdown, the ban and the total are those of the same call without
    them, and a context can only turn meetsMinimum from true to false. *)
Theorem scoreRelease_context_only_rejects
  releaseName profile attributes fileSizeBytes sizeContext protocol :
  let r := scoreRelease releaseName profile attributes fileSizeBytes sizeContext protocol in
  let r0 := scoreRelease releaseName profile attributes None None None in
  ScoringResult.matchedFormats r = ScoringResult.matchedFormats r0
  /\ ScoringResult.breakdown r = ScoringResult.breakdown r0
  /\ ScoringResult.isBanned r = ScoringResult.isBanned r0
  /\ ScoringResult.bannedReasons r = ScoringResult.bannedReasons r0
  /\ ScoringResult.totalScore r = ScoringResult.totalScore r0
  /\ ScoringResult.meetsMinimum r =
       ScoringResult.meetsMinimum r0
       && negb (ScoringResult.sizeRejected r) && negb (ScoringResult.protocolRejected r).
Proof.
  intros r r0.
  destruct (scoreRelease_shape parseRelease matchFormats ALL_FORMATS numberToString
              releaseName profile attributes fileSizeBytes sizeContext protocol)
    as (Hm & Hbd & Hb & Hr & Ht & Hmin).
  destruct (scoreRelease_shape parseRelease matchFormats ALL_FORMATS numberToString
              releaseName profile attributes None None None)
    as (Hm0 & Hbd0 & Hb0 & Hr0 & Ht0 & Hmin0).
  fold r in Hm, Hbd, Hb, Hr, Ht, Hmin. fold r0 in Hm0, Hbd0, Hb0, Hr0, Ht0, Hmin0.
  assert (Hs0 : ScoringResult.sizeRejected r0 = false)
    by apply scoreRelease_no_sizeContext.
  assert (Hp0 : ScoringResult.protocolRejected r0 = false)
    by apply scoreRelease_no_protocol.
  assert (Hban : ScoringResult.isBanned r = ScoringResult.isBanned r0) by congruence.
  split; [congruence |]. split; [congruence |]. split; [exact Hban |].
  split; [congruence |]. split; [rewrite Ht, Ht0, Hban; reflexivity |].
  rewrite Hmin, Hmin0, Hs0, Hp0, Hban. cbn [negb].
  destruct (ScoringResult.isBanned r0), (ScoringResult.sizeRejected r),
    (ScoringResult.protocolRejected r), (Qle_bool _ _); reflexivity.
Qed.

(** X5: the release name is read only to parse attributes and to label the
    result: two calls whose attributes resolve to the same record (supplied,
    or parsed from the names) return results that differ in releaseName
    alone. *)
Theorem scoreRelease_same_attributes_same_result
  name1 name2 profile attributes1 attributes2 fileSizeBytes sizeContext protocol :
  match attributes1 with Some a => a | None => parseRelease name1 end
  = match attributes2 with Some a => a | None => parseRelease name2 end ->
  let r1 := scoreRelease name1 profile attributes1 fileSizeBytes sizeContext protocol in
  let r2 := scoreRelease name2 profile attributes2 fileSizeBytes sizeContext protocol in
  r2 = ScoringResult.mk name2
         (ScoringResult.profile r1) (ScoringResult.totalScore r1)
         (ScoringResult.matchedFormats r1) (ScoringResult.breakdown r1)
         (ScoringResult.meetsMinimum r1) (ScoringResult.isBanned r1)
         (ScoringResult.bannedReasons r1) (ScoringResult.sizeRejected r1)
         (ScoringResult.sizeRejectionReason r1) (ScoringResult.protocolRejected r1)
         (ScoringResult.protocolRejectionReason r1).
Proof.
  intros Hattrs. unfold Scorer.scoreRelease. rewrite Hattrs.
  repeat match goal with
         | |- context [let '(_, _) := ?X in _] => destruct X as [? ?]
         end.
  reflexivity.
Qed.

(** ** What mutual exclusivity keeps *)

Lemma applyMutualExclusivity_cases (matchedFormats : list MatchedFormat.t)
  (profile : ScoringProfile.t) :
  let result := Scorer.applyMutualExclusivity matchedFormats profile in
  let hdrFormats := List.filter Scorer.isHdr matchedFormats in
  let otherFormats := List.filter (fun mf => negb (Scorer.isHdr mf)) matchedFormats in
  ((length hdrFormats <= 1)%nat /\ result = matchedFormats)
  \/ ((1 < length hdrFormats)%nat
      /\ exists best pre post,
           result = otherFormats ++ [best] /\ hdrFormats = pre ++ best :: post).
Proof.
  intros result hdrFormats otherFormats.
  unfold result, Scorer.applyMutualExclusivity. fold hdrFormats otherFormats.
  destruct (Nat.ltb_spec 1 (length hdrFormats)) as [Hmany | Hfew].
  - right. split; [exact Hmany |].
    destruct hdrFormats as [|b l] eqn:Hhdr; [cbn in Hmany; lia |].
    cbn [fold_left].
    replace (Scorer.hdrStep (None, JsNum.PosInf) b)
      with (Some b, JsNum.Fin (Scorer.effectivePriority b)) by reflexivity.
    destruct (fold_hdrStep_best l b) as (best & pre & post & -> & Hsplit & _ & _).
    exists best, pre, post. split; [reflexivity | exact Hsplit].
  - left. split; [exact Hfew | reflexivity].
Qed.

Lemma length_filter_split {A : Type} (f : A -> bool) (l : list A) :
  length l = (length (List.filter f l) + length (List.filter (fun x => negb (f x)) l))%nat.
Proof.
  induction l as [|x l IH]; [reflexivity |].
  cbn [List.filter]. destruct (f x); cbn [negb length]; lia.
Qed.

(** X6: after mutual exclusivity at most one format of category hdr is
    left, and one is left whenever one matched; every format of the result
    is one of the matches (nothing is invented), so the result is no longer
    than the input. *)
Theorem applyMutualExclusivity_at_most_one_hdr
  (matchedFormats : list MatchedFormat.t) (profile : ScoringProfile.t) :
  let result := Scorer.applyMutualExclusivity matchedFormats profile in
  (length (List.filter Scorer.isHdr result) <= 1)%nat
  /\ (List.filter Scorer.isHdr matchedFormats <> [] ->
      List.filter Scorer.isHdr result <> [])
  /\ (forall mf, In mf result -> In mf matchedFormats)
  /\ (length result <= length matchedFormats)%nat.
Proof.
  intros result.
  destruct (applyMutualExclusivity_cases matchedFormats profile)
    as [[Hfew Hsame] | (Hmany & best & pre & post & Hres & Hsplit)];
    fold result in Hsame || fold result in Hres.
  - rewrite Hsame. split; [exact Hfew |]. split; [tauto |]. split; [tauto | lia].
  - assert (Hin : In best (List.filter Scorer.isHdr matchedFormats))
      by (rewrite Hsplit; apply in_or_app; right; left; reflexivity).
    apply filter_In in Hin. destruct Hin as [Hin Hbest].
    assert (Hhdr : List.filter Scorer.isHdr result = [best]).
    { rewrite Hres, List.filter_app.
      destruct (filter_negb_idem Scorer.isHdr matchedFormats) as [_ ->].
      cbn [List.filter]. now rewrite Hbest. }
    split; [rewrite Hhdr; cbn; lia |]. split; [rewrite Hhdr; discriminate |].
    split.
    + intros mf Hmf. rewrite Hres in Hmf. apply in_app_or in Hmf.
      destruct Hmf as [Hmf | [<- | []]]; [| exact Hin].
      apply filter_In in Hmf. apply Hmf.
    + rewrite Hres, length_app. cbn [length].
      rewrite (length_filter_split Scorer.isHdr matchedFormats). lia.
Qed.

(** X7: mutual exclusivity is idempotent: applied to its own result, under
    any profile, it changes nothing. *)
Theorem applyMutualExclusivity_idempotent
  (matchedFormats : list MatchedFormat.t) (profile profile' : ScoringProfile.t) :
  Scorer.applyMutualExclusivity
    (Scorer.applyMutualExclusivity matchedFormats profile) profile'
  = Scorer.applyMutualExclusivity matchedFormats profile.
Proof.
  set (result := Scorer.applyMutualExclusivity matchedFormats profile).
  assert (Hone : (length (List.filter Scorer.isHdr result) <= 1)%nat).
  { destruct (applyMutualExclusivity_cases matchedFormats profile)
      as [[Hfew Hsame] | (Hmany & best & pre & post & Hres & Hsplit)];
      fold result in Hsame || fold result in Hres.
    - now rewrite Hsame.
    - assert (Hin : In best (List.filter Scorer.isHdr matchedFormats))
        by (rewrite Hsplit; apply in_or_app; right; left; reflexivity).
      apply filter_In in Hin. destruct Hin as [_ Hbest].
      rewrite Hres, List.filter_app.
      destruct (filter_negb_idem Scorer.isHdr matchedFormats) as [_ ->].
      cbn [List.filter]. rewrite Hbest. cbn. lia. }
  unfold Scorer.applyMutualExclusivity at 1.
  destruct (Nat.ltb_spec 1 (length (List.filter Scorer.isHdr result))); [lia | reflexivity].
Qed.

(** ** Categories and buckets *)

Lemma bucket_of_category (category : string) :
  Scorer.categoryToBreakdownKey category =
    if String.eqb "resolution" category then Some ScoreBreakdown.Kresolution
    else if String.eqb "source" category then Some ScoreBreakdown.Ksource
    else if String.eqb "codec" category then Some ScoreBreakdown.Kcodec
    else if String.eqb "audio" category then Some ScoreBreakdown.Kaudio
    else if String.eqb "hdr" category then Some ScoreBreakdown.Khdr
    else if String.eqb "streaming" category then Some ScoreBreakdown.Kstreaming
    else if String.eqb "enhancement" category then Some ScoreBreakdown.Kenhancement
    else if String.eqb "banned" category then Some ScoreBreakdown.Kbanned
    else if String.eqb "release_group_tier" category
         then Some ScoreBreakdown.KreleaseGroupTier
    else if String.eqb "micro" category then Some ScoreBreakdown.KreleaseGroupTier
    else if String.eqb "low_quality" category then Some ScoreBreakdown.KreleaseGroupTier
    else None.
Proof. reflexivity. Qed.

Lemma inBucket_hdr (f : ScoredFormat.t) :
  ScorerSpec.inBucket ScoreBreakdown.Khdr f
  = String.eqb (CustomFormat.category (ScoredFormat.format f)) "hdr".
Proof.
  unfold ScorerSpec.inBucket, ScorerSpec.bucketOf. rewrite bucket_of_category.
  rewrite (String.eqb_sym _ "hdr").
  repeat match goal with
         | |- context [String.eqb ?k ?c] =>
             lazymatch k with
             | "hdr" => fail
             | _ =>
                 let H := fresh in
                 destruct (String.eqb k c) eqn:H;
                 [apply String.eqb_eq in H; try rewrite <- H; reflexivity |]
             end
         end.
  destruct (String.eqb "hdr" _); reflexivity.
Qed.

Lemma inBucket_releaseGroupTier (f : ScoredFormat.t) :
  let category := CustomFormat.category (ScoredFormat.format f) in
  ScorerSpec.inBucket ScoreBreakdown.KreleaseGroupTier f
  = String.eqb "release_group_tier" category || String.eqb "micro" category
    || String.eqb "low_quality" category.
Proof.
  intros category.
  unfold ScorerSpec.inBucket, ScorerSpec.bucketOf. fold category.
  rewrite bucket_of_category.
  repeat match goal with
         | |- context [if String.eqb ?k category then _ else _] =>
             let H := fresh in
             destruct (String.eqb k category) eqn:H;
             [apply String.eqb_eq in H; try rewrite <- H; reflexivity |]
         end.
  reflexivity.
Qed.

Lemma filter_ext_eq {A : Type} (f g : A -> bool) (l : list A) :
  (forall x, f x = g x) -> List.filter f l = List.filter g l.
Proof.
  intros H. induction l as [|x l IH]; [reflexivity |].
  cbn [List.filter]. now rewrite H, IH.
Qed.

Lemma filter_calculateFormatScores (p : CustomFormat.t -> bool)
  (matched : list MatchedFormat.t) (profile : ScoringProfile.t) :
  List.filter (fun f => p (ScoredFormat.format f))
    (Scorer.calculateFormatScores matched profile)
  = Scorer.calculateFormatScores
      (List.filter (fun mf => p (MatchedFormat.format mf)) matched) profile.
Proof.
  unfold Scorer.calculateFormatScores.
  induction matched as [|mf l IH]; [reflexivity |].
  cbn [map List.filter ScoredFormat.format].
  destruct (p (MatchedFormat.format mf)); cbn [map]; now rewrite IH.
Qed.

(** X8: in every scoring result at most one matched format has the
    category hdr, and the hdr bucket of the breakdown names at most one
    format: HDR tiers are never counted twice. *)
Theorem scoreRelease_counts_one_hdr
  releaseName profile attributes fileSizeBytes sizeContext protocol :
  let r := scoreRelease releaseName profile attributes fileSizeBytes sizeContext protocol in
  (length (List.filter
             (fun f => String.eqb (CustomFormat.category (ScoredFormat.format f)) "hdr")
             (ScoringResult.matchedFormats r)) <= 1)%nat
  /\ (length (CategoryScore.formats (ScoreBreakdown.hdr (ScoringResult.breakdown r))) <= 1)%nat.
Proof.
  intros r.
  destruct (scoreRelease_shape parseRelease matchFormats ALL_FORMATS numberToString
              releaseName profile attributes fileSizeBytes sizeContext protocol)
    as (Hm & Hbd & _).
  fold r in Hm, Hbd.
  assert (Hone :
    (length (List.filter
               (fun f => String.eqb (CustomFormat.category (ScoredFormat.format f)) "hdr")
               (ScoringResult.matchedFormats r)) <= 1)%nat).
  { rewrite Hm. unfold ScorerSpec.scoredOf.
    rewrite (filter_calculateFormatScores
               (fun format => String.eqb (CustomFormat.category format) "hdr")).
    unfold Scorer.calculateFormatScores. rewrite length_map.
    set (matched := matchFormats _ ALL_FORMATS).
    destruct (applyMutualExclusivity_cases matched profile)
      as [[Hfew ->] | (Hmany & best & pre & post & -> & Hsplit)].
    - exact Hfew.
    - assert (Hin : In best (List.filter Scorer.isHdr matched))
        by (rewrite Hsplit; apply in_or_app; right; left; reflexivity).
      apply filter_In in Hin. destruct Hin as [_ Hbest].
      change (fun mf => String.eqb (CustomFormat.category (MatchedFormat.format mf)) "hdr")
        with Scorer.isHdr.
      rewrite List.filter_app.
      destruct (filter_negb_idem Scorer.isHdr matched) as [_ ->].
      cbn [List.filter]. rewrite Hbest. cbn. lia. }
  split; [exact Hone |].
  change (ScoreBreakdown.hdr (ScoringResult.breakdown r))
    with (ScoreBreakdown.get ScoreBreakdown.Khdr (ScoringResult.breakdown r)).
  rewrite Hbd, <- Hm. unfold Scorer.buildBreakdown.
  rewrite fold_breakdownStep_bucket.
  cbn [CategoryScore.formats ScoreBreakdown.get ScoreBreakdown.hdr Scorer.emptyBreakdown
       Scorer.emptyCategory app].
  rewrite length_map.
  rewrite (filter_ext_eq _ _ _ inBucket_hdr). exact Hone.
Qed.

(** X9: the releaseGroupTier bucket collects the formats of the three
    categories release_group_tier, micro and low_quality, and no others: its
    subtotal is the sum of their scores and its list their names, in match
    order. *)
Theorem scoreRelease_group_tier_bucket
  releaseName profile attributes fileSizeBytes sizeContext protocol :
  let r := scoreRelease releaseName profile attributes fileSizeBytes sizeContext protocol in
  let inTier (f : ScoredFormat.t) :=
    let category := CustomFormat.category (ScoredFormat.format f) in
    String.eqb "release_group_tier" category || String.eqb "micro" category
    || String.eqb "low_quality" category in
  ScoreBreakdown.releaseGroupTier (ScoringResult.breakdown r) =
    CategoryScore.mk
      (sumScores (List.filter inTier (ScoringResult.matchedFormats r)))
      (map (fun f => CustomFormat.name (ScoredFormat.format f))
           (List.filter inTier (ScoringResult.matchedFormats r))).
Proof.
  intros r inTier.
  destruct (scoreRelease_shape parseRelease matchFormats ALL_FORMATS numberToString
              releaseName profile attributes fileSizeBytes sizeContext protocol)
    as (Hm & Hbd & _).
  fold r in Hm, Hbd.
  change (ScoreBreakdown.releaseGroupTier (ScoringResult.breakdown r))
    with (ScoreBreakdown.get ScoreBreakdown.KreleaseGroupTier (ScoringResult.breakdown r)).
  rewrite Hbd, <- Hm. unfold Scorer.buildBreakdown.
  rewrite fold_breakdownStep_bucket.
  rewrite (filter_ext_eq _ inTier _ inBucket_releaseGroupTier).
  reflexivity.
Qed.

(** ** Sizes without a size context *)

Lemma scoreRelease_size_without_context releaseName profile attributes fileSizeBytes protocol :
  scoreRelease releaseName profile attributes fileSizeBytes None protocol
  = scoreRelease releaseName profile attributes None None protocol.
Proof.
  unfold Scorer.scoreRelease. destruct fileSizeBytes; reflexivity.
Qed.

(** X10: the byte sizes handed to compareReleases and to isUpgrade, and the
    sizeBytes of the releases handed to filterQualityReleases and to
    rankReleases, change nothing: these functions score without a size
    context, so they return what they return without the sizes. *)
Theorem sizes_without_context_are_ignored
  release1 release2 profile attrs1 attrs2 size1Bytes size2Bytes
  minimumImprovement allowSidegrade (releases : list Release.t) :
  let withoutSize (r : Release.t) := Release.mk (Release.name r) (Release.attributes r) None in
  compareReleases release1 release2 profile attrs1 attrs2 size1Bytes size2Bytes
  = compareReleases release1 release2 profile attrs1 attrs2 None None
  /\ isUpgrade release1 release2 profile
       (UpgradeOptions.mk minimumImprovement allowSidegrade attrs1 attrs2
          size1Bytes size2Bytes)
     = isUpgrade release1 release2 profile
         (UpgradeOptions.mk minimumImprovement allowSidegrade attrs1 attrs2 None None)
  /\ filterQualityReleases releases profile
     = filterQualityReleases (map withoutSize releases) profile
  /\ rankReleases releases profile = rankReleases (map withoutSize releases) profile.
Proof.
  intros withoutSize.
  assert (Hscored :
    map (fun r => scoreRelease (Release.name r) profile (Release.attributes r)
                    (Release.sizeBytes r) None None) releases
    = map (fun r => scoreRelease (Release.name r) profile (Release.attributes r)
                      (Release.sizeBytes r) None None) (map withoutSize releases)).
  { rewrite map_map. apply map_ext. intros r.
    cbn [withoutSize Release.name Release.attributes Release.sizeBytes].
    apply scoreRelease_size_without_context. }
  unfold Scorer.compareReleases, Scorer.isUpgrade, Scorer.filterQualityReleases,
    Scorer.rankReleases.
  cbn [UpgradeOptions.minimumImprovement UpgradeOptions.allowSidegrade
       UpgradeOptions.existingAttrs UpgradeOptions.candidateAttrs
       UpgradeOptions.existingSizeBytes UpgradeOptions.candidateSizeBytes].
  rewrite (scoreRelease_size_without_context release1 profile attrs1 size1Bytes None).
  rewrite (scoreRelease_size_without_context release2 profile attrs2 size2Bytes None).
  rewrite <- Hscored.
  repeat split; reflexivity.
Qed.

(** ** More on comparing two releases *)

Lemma winner_swap (b1 b2 : bool) (x y : Z) :
  let t1 := if b1 then JsNum.NegInf else JsNum.Fin x in
  let t2 := if b2 then JsNum.NegInf else JsNum.Fin y in
  (if JsNum.gtb_Q (JsNum.sub t2 t1) 0 then Winner.release1
   else if JsNum.ltb_Q (JsNum.sub t2 t1) 0 then Winner.release2 else Winner.tie)
  = CoverageSpec.flipWinner
      (if JsNum.gtb_Q (JsNum.sub t1 t2) 0 then Winner.release1
       else if JsNum.ltb_Q (JsNum.sub t1 t2) 0 then Winner.release2 else Winner.tie)
  /\ JsNum.abs (JsNum.sub t2 t1) = JsNum.abs (JsNum.sub t1 t2).
Proof.
  destruct b1, b2; cbv zeta; cbn [JsNum.sub JsNum.abs]; try (split; reflexivity).
  rewrite !gtb_Q_Fin_0, !ltb_Q_Fin_0. split.
  - destruct (Z.ltb_spec 0 (y - x)), (Z.ltb_spec (y - x) 0),
      (Z.ltb_spec 0 (x - y)), (Z.ltb_spec (x - y) 0); (reflexivity || lia).
  - f_equal. lia.
Qed.

Lemma compareReleases_unfold
  release1 release2 profile attrs1 attrs2 size1Bytes size2Bytes :
  let s1 := scoreRelease release1 profile attrs1 size1Bytes None None in
  let s2 := scoreRelease release2 profile attrs2 size2Bytes None None in
  let diff := JsNum.sub (ScoringResult.totalScore s1) (ScoringResult.totalScore s2) in
  compareReleases release1 release2 profile attrs1 attrs2 size1Bytes size2Bytes
  = Comparison.mk
      (if JsNum.gtb_Q diff 0 then Winner.release1
       else if JsNum.ltb_Q diff 0 then Winner.release2 else Winner.tie)
      s1 s2 (JsNum.abs diff).
Proof. reflexivity. Qed.

(** X11: compareReleases is symmetric: with the two releases exchanged the
    winner is the other way round (a tie stays a tie), the two scoring
    results change places and scoreDifference is the same. *)
Theorem compareReleases_swap
  release1 release2 profile attrs1 attrs2 size1Bytes size2Bytes :
  let c := compareReleases release1 release2 profile attrs1 attrs2 size1Bytes size2Bytes in
  let c' := compareReleases release2 release1 profile attrs2 attrs1 size2Bytes size1Bytes in
  Comparison.winner c' = CoverageSpec.flipWinner (Comparison.winner c)
  /\ Comparison.release1Score c' = Comparison.release2Score c
  /\ Comparison.release2Score c' = Comparison.release1Score c
  /\ Comparison.scoreDifference c' = Comparison.scoreDifference c.
Proof.
  intros c c'. unfold c, c'. rewrite !compareReleases_unfold.
  cbn [Comparison.winner Comparison.release1Score Comparison.release2Score
       Comparison.scoreDifference].
  set (s1 := scoreRelease release1 profile attrs1 size1Bytes None None).
  set (s2 := scoreRelease release2 profile attrs2 size2Bytes None None).
  destruct (scoreRelease_shape parseRelease matchFormats ALL_FORMATS numberToString
              release1 profile attrs1 size1Bytes None None) as (_ & _ & _ & _ & Ht1 & _).
  destruct (scoreRelease_shape parseRelease matchFormats ALL_FORMATS numberToString
              release2 profile attrs2 size2Bytes None None) as (_ & _ & _ & _ & Ht2 & _).
  fold s1 in Ht1. fold s2 in Ht2. rewrite Ht1, Ht2.
  destruct (winner_swap (ScoringResult.isBanned s1) (ScoringResult.isBanned s2)
              (sumScores (scoredOf release1 profile attrs1))
              (sumScores (scoredOf release2 profile attrs2)))
    as (Hwinner & Habs).
  cbv zeta in Hwinner, Habs. rewrite Hwinner, Habs.
  repeat split.
Qed.

(** X12: scoreDifference is the absolute difference of the two sums when
    neither release is banned, +Infinity when exactly one is banned (and the
    other release wins), and NaN when both are banned. *)
Theorem compareReleases_scoreDifference
  release1 release2 profile attrs1 attrs2 size1Bytes size2Bytes :
  let c := compareReleases release1 release2 profile attrs1 attrs2 size1Bytes size2Bytes in
  let s1 := Comparison.release1Score c in
  let s2 := Comparison.release2Score c in
  (ScoringResult.isBanned s1 = false -> ScoringResult.isBanned s2 = false ->
     Comparison.scoreDifference c =
       JsNum.Fin (Z.abs (sumScores (ScoringResult.matchedFormats s1)
                         - sumScores (ScoringResult.matchedFormats s2))))
  /\ (ScoringResult.isBanned s1 = true -> ScoringResult.isBanned s2 = false ->
      Comparison.scoreDifference c = JsNum.PosInf
      /\ Comparison.winner c = Winner.release2)
  /\ (ScoringResult.isBanned s1 = false -> ScoringResult.isBanned s2 = true ->
      Comparison.scoreDifference c = JsNum.PosInf
      /\ Comparison.winner c = Winner.release1)
  /\ (ScoringResult.isBanned s1 = true -> ScoringResult.isBanned s2 = true ->
      Comparison.scoreDifference c = JsNum.NaN).
Proof.
  intros c s1 s2. unfold s1, s2, c. rewrite compareReleases_unfold.
  cbn [Comparison.winner Comparison.release1Score Comparison.release2Score
       Comparison.scoreDifference].
  clear c s1 s2.
  set (s1 := scoreRelease release1 profile attrs1 size1Bytes None None).
  set (s2 := scoreRelease release2 profile attrs2 size2Bytes None None).
  destruct (scoreRelease_shape parseRelease matchFormats ALL_FORMATS numberToString
              release1 profile attrs1 size1Bytes None None) as (Hm1 & _ & _ & _ & Ht1 & _).
  destruct (scoreRelease_shape parseRelease matchFormats ALL_FORMATS numberToString
              release2 profile attrs2 size2Bytes None None) as (Hm2 & _ & _ & _ & Ht2 & _).
  fold s1 in Ht1, Hm1. fold s2 in Ht2, Hm2. rewrite Ht1, Ht2, Hm1, Hm2.
  split; [| split; [| split]]; intros H1 H2; rewrite H1, H2;
    try split; reflexivity.
Qed.

(** ** More on upgrades *)

Lemma isUpgrade_unfold existingRelease candidateRelease profile options :
  let e := scoreRelease existingRelease profile (UpgradeOptions.existingAttrs options)
             (UpgradeOptions.existingSizeBytes options) None None in
  let c := scoreRelease candidateRelease profile (UpgradeOptions.candidateAttrs options)
             (UpgradeOptions.candidateSizeBytes options) None None in
  let improvement := JsNum.sub (ScoringResult.totalScore c) (ScoringResult.totalScore e) in
  isUpgrade existingRelease candidateRelease profile options =
    if ScoringResult.isBanned c || negb (ScoringResult.meetsMinimum c)
    then UpgradeResult.mk false (JsNum.Fin 0) e c
    else UpgradeResult.mk
           (if default false (UpgradeOptions.allowSidegrade options)
            then JsNum.geb_Q improvement
                   (default 0%Q (UpgradeOptions.minimumImprovement options))
            else JsNum.gtb_Q improvement
                   (default 0%Q (UpgradeOptions.minimumImprovement options)))
           improvement e c.
Proof.
  intros e c improvement. unfold Scorer.isUpgrade. fold e c. fold improvement.
  assert (Hs : ScoringResult.sizeRejected c = false) by apply scoreRelease_no_sizeContext.
  assert (Hp : ScoringResult.protocolRejected c = false) by apply scoreRelease_no_protocol.
  rewrite Hs, Hp, !orb_false_r. reflexivity.
Qed.

Lemma meetsMinimum_total releaseName profile attributes fileSizeBytes sizeContext protocol :
  let r := scoreRelease releaseName profile attributes fileSizeBytes sizeContext protocol in
  ScoringResult.meetsMinimum r = true ->
  ScoringResult.isBanned r = false
  /\ ScoringResult.totalScore r = JsNum.Fin (sumScores (scoredOf releaseName profile attributes))
  /\ (default 0%Q (ScoringProfile.minScore profile)
      <= inject_Z (sumScores (scoredOf releaseName profile attributes)))%Q.
Proof.
  intros r Hmeets.
  destruct (scoreRelease_shape parseRelease matchFormats ALL_FORMATS numberToString
              releaseName profile attributes fileSizeBytes sizeContext protocol)
    as (_ & _ & _ & _ & Ht & Hmin).
  fold r in Ht, Hmin. rewrite Hmeets in Hmin. symmetry in Hmin.
  apply andb_true_iff in Hmin. destruct Hmin as [Hmin Hle].
  apply andb_true_iff in Hmin. destruct Hmin as [Hmin _].
  apply andb_true_iff in Hmin. destruct Hmin as [Hban _].
  apply negb_true_iff in Hban. rewrite Hban in Ht.
  split; [exact Hban |]. split; [exact Ht |]. now apply Qle_bool_iff.
Qed.

(** X13: a release is an upgrade over itself only on request: scored
    against the same attributes the improvement is 0, and the verdict is
    true iff the release meets the minimum and either sidegrades are allowed
    with minimumImprovement <= 0, or they are not and minimumImprovement < 0.
    With the defaults it is never an upgrade. *)
Theorem isUpgrade_same_release
  releaseName profile minimumImprovement allowSidegrade attrs existingSize candidateSize :
  let options :=
    UpgradeOptions.mk minimumImprovement allowSidegrade attrs attrs
      existingSize candidateSize in
  let u := isUpgrade releaseName releaseName profile options in
  let threshold := default 0%Q minimumImprovement in
  UpgradeResult.improvement u = JsNum.Fin 0
  /\ (UpgradeResult.isUpgrade u = true <->
      ScoringResult.meetsMinimum (UpgradeResult.candidate u) = true
      /\ ((default false allowSidegrade = true /\ (threshold <= 0)%Q)
          \/ (default false allowSidegrade = false /\ (threshold < 0)%Q)))
  /\ (minimumImprovement = None -> default false allowSidegrade = false ->
      UpgradeResult.isUpgrade u = false).
Proof.
  intros options u threshold.
  assert (Hu : u =
    let c := scoreRelease releaseName profile attrs None None None in
    if ScoringResult.isBanned c || negb (ScoringResult.meetsMinimum c)
    then UpgradeResult.mk false (JsNum.Fin 0) c c
    else UpgradeResult.mk
           (if default false allowSidegrade
            then JsNum.geb_Q (JsNum.sub (ScoringResult.totalScore c)
                                        (ScoringResult.totalScore c)) threshold
            else JsNum.gtb_Q (JsNum.sub (ScoringResult.totalScore c)
                                        (ScoringResult.totalScore c)) threshold)
           (JsNum.sub (ScoringResult.totalScore c) (ScoringResult.totalScore c)) c c).
  { unfold u. rewrite isUpgrade_unfold. unfold options.
    cbn [UpgradeOptions.minimumImprovement UpgradeOptions.allowSidegrade
         UpgradeOptions.existingAttrs UpgradeOptions.candidateAttrs
         UpgradeOptions.existingSizeBytes UpgradeOptions.candidateSizeBytes].
    rewrite (scoreRelease_size_without_context releaseName profile attrs existingSize None).
    rewrite (scoreRelease_size_without_context releaseName profile attrs candidateSize None).
    reflexivity. }
  cbv zeta in Hu. clearbody u. subst u.
  set (c := scoreRelease releaseName profile attrs None None None).
  destruct (ScoringResult.meetsMinimum c) eqn:Hmeets.
  - destruct (meetsMinimum_total releaseName profile attrs None None None Hmeets)
      as (Hban & Ht & _).
    fold c in Hban, Ht. rewrite Hban, Ht. cbn [orb negb JsNum.sub].
    rewrite Z.sub_diag.
    cbn [UpgradeResult.improvement UpgradeResult.isUpgrade UpgradeResult.candidate].
    rewrite Hmeets.
    split; [reflexivity |]. split.
    + destruct (default false allowSidegrade); cbn [JsNum.geb_Q JsNum.gtb_Q].
      * change (inject_Z 0) with 0%Q. rewrite Qle_bool_iff.
        split; [intros H; split; [reflexivity | left; now split] |].
        intros [_ [[_ H] | [Hfalse _]]]; [exact H | discriminate].
      * change (inject_Z 0) with 0%Q.
        change (negb (Qle_bool 0 threshold)) with (JsFormat.Qltb threshold 0).
        rewrite Qltb_lt.
        split; [intros H; split; [reflexivity | right; now split] |].
        intros [_ [[Htrue _] | [_ H]]]; [discriminate | exact H].
    + intros Hmin Hside. unfold threshold. rewrite Hmin, Hside. reflexivity.
  - rewrite orb_true_r.
    cbn [UpgradeResult.improvement UpgradeResult.isUpgrade UpgradeResult.candidate].
    rewrite Hmeets.
    split; [reflexivity |]. split; [| reflexivity].
    split; [discriminate | intros [H _]; discriminate H].
Qed.

(** X14: with the default options isUpgrade and compareReleases agree: the
    candidate is an upgrade iff it meets the minimum and compareReleases
    (candidate first) names it the winner. *)
Theorem isUpgrade_agrees_with_compareReleases
  existingRelease candidateRelease profile existingAttrs candidateAttrs
  existingSize candidateSize :
  let u := isUpgrade existingRelease candidateRelease profile
             (UpgradeOptions.mk None None existingAttrs candidateAttrs
                existingSize candidateSize) in
  let c := compareReleases candidateRelease existingRelease profile
             candidateAttrs existingAttrs candidateSize existingSize in
  UpgradeResult.candidate u = Comparison.release1Score c
  /\ UpgradeResult.existing u = Comparison.release2Score c
  /\ (UpgradeResult.isUpgrade u = true <->
      ScoringResult.meetsMinimum (UpgradeResult.candidate u) = true
      /\ Comparison.winner c = Winner.release1).
Proof.
  intros u c. unfold u, c. rewrite isUpgrade_unfold, compareReleases_unfold.
  cbn [UpgradeOptions.minimumImprovement UpgradeOptions.allowSidegrade
       UpgradeOptions.existingAttrs UpgradeOptions.candidateAttrs
       UpgradeOptions.existingSizeBytes UpgradeOptions.candidateSizeBytes
       Comparison.winner Comparison.release1Score Comparison.release2Score
       default].
  clear u c.
  set (e := scoreRelease existingRelease profile existingAttrs existingSize None None).
  set (c := scoreRelease candidateRelease profile candidateAttrs candidateSize None None).
  set (diff := JsNum.sub (ScoringResult.totalScore c) (ScoringResult.totalScore e)).
  destruct (ScoringResult.meetsMinimum c) eqn:Hmeets.
  - destruct (meetsMinimum_total candidateRelease profile candidateAttrs candidateSize
                None None Hmeets) as (Hban & _ & _).
    fold c in Hban. rewrite Hban. cbn [orb negb].
    cbn [UpgradeResult.isUpgrade UpgradeResult.candidate UpgradeResult.existing].
    split; [reflexivity |]. split; [reflexivity |]. rewrite Hmeets.
    destruct (JsNum.gtb_Q diff 0).
    + split; [intros _; split; reflexivity | reflexivity].
    + split; [discriminate |]. intros [_ H].
      destruct (JsNum.ltb_Q diff 0); discriminate H.
  - rewrite orb_true_r.
    cbn [UpgradeResult.isUpgrade UpgradeResult.candidate UpgradeResult.existing].
    split; [reflexivity |]. split; [reflexivity |]. rewrite Hmeets.
    split; [discriminate | intros [H _]; discriminate H].
Qed.

(** X15: over a banned existing release every candidate that meets the
    minimum is an upgrade, whatever allowSidegrade is and for every finite
    minimumImprovement (the thresholds of the options are rational numbers
    or absent; the values Infinity and NaN are not among them): the
    improvement is +Infinity. *)
Theorem isUpgrade_over_banned_release
  existingRelease candidateRelease profile options :
  let u := isUpgrade existingRelease candidateRelease profile options in
  ScoringResult.isBanned (UpgradeResult.existing u) = true ->
  ScoringResult.meetsMinimum (UpgradeResult.candidate u) = true ->
  UpgradeResult.improvement u = JsNum.PosInf /\ UpgradeResult.isUpgrade u = true.
Proof.
  intros u. unfold u. rewrite isUpgrade_unfold. clear u.
  set (e := scoreRelease existingRelease profile (UpgradeOptions.existingAttrs options)
              (UpgradeOptions.existingSizeBytes options) None None).
  set (c := scoreRelease candidateRelease profile (UpgradeOptions.candidateAttrs options)
              (UpgradeOptions.candidateSizeBytes options) None None).
  assert (He : forall x : UpgradeResult.t, UpgradeResult.existing x = e ->
                 ScoringResult.isBanned (UpgradeResult.existing x) = true ->
                 ScoringResult.totalScore e = JsNum.NegInf).
  { intros x -> Hb.
    destruct (scoreRelease_shape parseRelease matchFormats ALL_FORMATS numberToString
                existingRelease profile (UpgradeOptions.existingAttrs options)
                (UpgradeOptions.existingSizeBytes options) None None)
      as (_ & _ & _ & _ & Ht & _).
    fold e in Ht. now rewrite Hb in Ht. }
  destruct (ScoringResult.meetsMinimum c) eqn:Hmeets.
  - destruct (meetsMinimum_total candidateRelease profile
                (UpgradeOptions.candidateAttrs options)
                (UpgradeOptions.candidateSizeBytes options) None None Hmeets)
      as (Hban & Ht & _).
    fold c in Hban, Ht. rewrite Hban. cbn [orb negb].
    cbn [UpgradeResult.existing UpgradeResult.candidate UpgradeResult.improvement
         UpgradeResult.isUpgrade].
    intros Hbanned _.
    rewrite (He (UpgradeResult.mk false (JsNum.Fin 0) e c) eq_refl Hbanned), Ht.
    cbn [JsNum.sub].
    split; [reflexivity |]. destruct (default false _); reflexivity.
  - rewrite orb_true_r. cbn [UpgradeResult.candidate]. intros _ H. congruence.
Qed.

(** ** More on filtering *)

(** X16: filterQualityReleases returns, in input order, exactly the scoring
    results of the given releases that meet the minimum; every result it
    returns is free of all three rejection flags and has a finite total of
    at least the profile's minScore (0 when the profile has none). *)
Theorem filterQualityReleases_spec (releases : list Release.t) (profile : ScoringProfile.t) :
  let score (r : Release.t) :=
    scoreRelease (Release.name r) profile (Release.attributes r) (Release.sizeBytes r)
      None None in
  filterQualityReleases releases profile
    = List.filter ScoringResult.meetsMinimum (map score releases)
  /\ (forall r, In r (filterQualityReleases releases profile) <->
        exists release, In release releases /\ r = score release
                        /\ ScoringResult.meetsMinimum r = true)
  /\ (forall r, In r (filterQualityReleases releases profile) ->
        ScoringResult.isBanned r = false
        /\ ScoringResult.sizeRejected r = false
        /\ ScoringResult.protocolRejected r = false
        /\ exists total,
             ScoringResult.totalScore r = JsNum.Fin total
             /\ (default 0%Q (ScoringProfile.minScore profile) <= inject_Z total)%Q).
Proof.
  intros score.
  pose proof (filterQualityReleases_meetsMinimum parseRelease matchFormats ALL_FORMATS
                numberToString releases profile) as Hfilter.
  fold score in Hfilter.
  assert (Hmem : forall r, In r (filterQualityReleases releases profile) <->
            exists release, In release releases /\ r = score release
                            /\ ScoringResult.meetsMinimum r = true).
  { intros r. rewrite Hfilter, filter_In, in_map_iff. split.
    - intros [(release & <- & Hin) Hmeets]. exists release. repeat split; assumption.
    - intros (release & Hin & -> & Hmeets). split; [exists release; split; auto | exact Hmeets]. }
  split; [exact Hfilter |]. split; [exact Hmem |].
  intros r Hin. apply Hmem in Hin. destruct Hin as (release & _ & -> & Hmeets).
  destruct (meetsMinimum_flags parseRelease matchFormats ALL_FORMATS numberToString
              (Release.name release) profile (Release.attributes release)
              (Release.sizeBytes release) None None Hmeets) as (Hb & Hs & Hp).
  destruct (meetsMinimum_total (Release.name release) profile (Release.attributes release)
              (Release.sizeBytes release) None None Hmeets) as (_ & Ht & Hle).
  repeat (split; [assumption |]).
  eexists. split; [exact Ht | exact Hle].
Qed.

(** ** Ranking *)

Lemma insert_perm {A : Type} (cmp : A -> A -> JsNum.num) (x : A) (l : list A) :
  Permutation (JsArray.insert cmp x l) (x :: l).
Proof.
  induction l as [|y l IH]; [reflexivity |].
  cbn [JsArray.insert]. destruct (JsArray.positive (cmp x y)); [| reflexivity].
  rewrite IH. apply perm_swap.
Qed.

Lemma sort_perm {A : Type} (cmp : A -> A -> JsNum.num) (l : list A) :
  Permutation (JsArray.sort cmp l) l.
Proof.
  induction l as [|x l IH]; [reflexivity |].
  unfold JsArray.sort in *. cbn [fold_right]. rewrite insert_perm. now constructor.
Qed.

Lemma ltb_total_cases (b1 b2 : bool) (x y : Z) :
  let t1 := if b1 then JsNum.NegInf else JsNum.Fin x in
  let t2 := if b2 then JsNum.NegInf else JsNum.Fin y in
  JsNum.ltb t1 t2 =
    match b1, b2 with
    | true, true => false
    | true, false => true
    | false, true => false
    | false, false => x <? y
    end.
Proof. destruct b1, b2; reflexivity. Qed.

Lemma rankedBefore_trans (a b c : ScoringResult.t) :
  CoverageSpec.totalMatchesBan a -> CoverageSpec.totalMatchesBan b ->
  CoverageSpec.totalMatchesBan c ->
  CoverageSpec.rankedBefore a b -> CoverageSpec.rankedBefore b c ->
  CoverageSpec.rankedBefore a c.
Proof.
  intros (x & Ha) (y & Hb) (z & Hc) [Hab1 Hab2] [Hbc1 Hbc2].
  split; [tauto |].
  intros Hsame. rewrite Ha, Hb in Hab2. rewrite Hb, Hc in Hbc2. rewrite Ha, Hc.
  rewrite ltb_total_cases in *.
  destruct (CoverageSpec.rejected a) eqn:Hra, (CoverageSpec.rejected b) eqn:Hrb,
    (CoverageSpec.rejected c) eqn:Hrc;
    try discriminate Hsame;
    try (specialize (Hab1 eq_refl); discriminate Hab1);
    try (specialize (Hbc1 eq_refl); discriminate Hbc1);
    specialize (Hab2 eq_refl); specialize (Hbc2 eq_refl);
    destruct (ScoringResult.isBanned a), (ScoringResult.isBanned b),
      (ScoringResult.isBanned c);
    try reflexivity; try discriminate;
    apply Z.ltb_ge; apply Z.ltb_ge in Hab2; apply Z.ltb_ge in Hbc2; lia.
Qed.

Lemma rankCompare_order (a b : ScoringResult.t) :
  CoverageSpec.totalMatchesBan a -> CoverageSpec.totalMatchesBan b ->
  if JsArray.positive (Scorer.rankCompare a b)
  then CoverageSpec.rankedBefore b a
  else CoverageSpec.rankedBefore a b.
Proof.
  intros (x & Ha) (y & Hb).
  unfold Scorer.rankCompare, CoverageSpec.rankedBefore.
  change (ScoringResult.isBanned a || ScoringResult.sizeRejected a
          || ScoringResult.protocolRejected a) with (CoverageSpec.rejected a).
  change (ScoringResult.isBanned b || ScoringResult.sizeRejected b
          || ScoringResult.protocolRejected b) with (CoverageSpec.rejected b).
  destruct (CoverageSpec.rejected a), (CoverageSpec.rejected b);
    cbn [andb negb]; try (cbn; split; (discriminate || reflexivity || tauto)).
  - unfold JsArray.positive. rewrite Ha, Hb.
    destruct (sub_totals_gt (ScoringResult.isBanned b) (ScoringResult.isBanned a) y x)
      as [Hgt _].
    cbv zeta in Hgt. rewrite Hgt. unfold JsNum.gtb. rewrite !ltb_total_cases.
    destruct (ScoringResult.isBanned a), (ScoringResult.isBanned b);
      try (split; [tauto | reflexivity]).
    destruct (Z.ltb_spec x y); (split; [tauto |]); intros _;
      first [reflexivity | apply Z.ltb_ge; lia].
  - unfold JsArray.positive. rewrite Ha, Hb.
    destruct (sub_totals_gt (ScoringResult.isBanned b) (ScoringResult.isBanned a) y x)
      as [Hgt _].
    cbv zeta in Hgt. rewrite Hgt. unfold JsNum.gtb. rewrite !ltb_total_cases.
    destruct (ScoringResult.isBanned a), (ScoringResult.isBanned b);
      try (split; [tauto | reflexivity]).
    destruct (Z.ltb_spec x y); (split; [tauto |]); intros _;
      first [reflexivity | apply Z.ltb_ge; lia].
Qed.

Lemma insert_sorted (x : ScoringResult.t) (l : list ScoringResult.t) :
  CoverageSpec.totalMatchesBan x -> Forall CoverageSpec.totalMatchesBan l ->
  StronglySorted CoverageSpec.rankedBefore l ->
  StronglySorted CoverageSpec.rankedBefore (JsArray.insert Scorer.rankCompare x l).
Proof.
  intros Hx Hl Hsorted. induction Hsorted as [|y rest Hrest IH Hy].
  - cbn. constructor; constructor.
  - inversion Hl as [|? ? Hwy Hwrest]; subst.
    cbn [JsArray.insert].
    pose proof (rankCompare_order x y Hx Hwy) as Horder.
    destruct (JsArray.positive (Scorer.rankCompare x y)).
    + constructor; [apply IH; exact Hwrest |].
      apply List.Forall_forall. intros z Hz.
      apply (Permutation_in _ (insert_perm Scorer.rankCompare x rest)) in Hz.
      destruct Hz as [<- | Hz]; [exact Horder |].
      rewrite List.Forall_forall in Hy. now apply Hy.
    + constructor; [constructor; assumption |].
      constructor; [exact Horder |].
      apply List.Forall_forall. intros z Hz.
      rewrite List.Forall_forall in Hy, Hwrest.
      apply (rankedBefore_trans x y z); auto.
Qed.

Lemma sort_sorted (l : list ScoringResult.t) :
  Forall CoverageSpec.totalMatchesBan l ->
  StronglySorted CoverageSpec.rankedBefore (JsArray.sort Scorer.rankCompare l).
Proof.
  induction l as [|x l IH]; intros Hl; [constructor |].
  inversion Hl as [|? ? Hx Hrest]; subst.
  unfold JsArray.sort. cbn [fold_right]. apply insert_sorted.
  - exact Hx.
  - apply List.Forall_forall. intros z Hz.
    apply (Permutation_in _ (sort_perm Scorer.rankCompare l)) in Hz.
    rewrite List.Forall_forall in Hrest. now apply Hrest.
  - now apply IH.
Qed.

Lemma StronglySorted_lookup_lt {A : Type} (R : A -> A -> Prop) (l : list A) :
  StronglySorted R l ->
  forall (i j : nat) (a b : A), (i < j)%nat -> l !! i = Some a -> l !! j = Some b -> R a b.
Proof.
  induction 1 as [|x l Hl IH Hx]; intros i j a b Hij Ha Hb.
  - destruct i; discriminate Ha.
  - destruct j as [|j]; [lia |]. cbn in Hb.
    destruct i as [|i].
    + cbn in Ha. injection Ha as <-.
      rewrite List.Forall_forall in Hx. apply Hx.
      apply list_elem_of_In. eapply list_elem_of_lookup_2. exact Hb.
    + cbn in Ha. apply (IH i j); (lia || assumption).
Qed.

Lemma scoreRelease_totalMatchesBan
  releaseName profile attributes fileSizeBytes sizeContext protocol :
  CoverageSpec.totalMatchesBan
    (scoreRelease releaseName profile attributes fileSizeBytes sizeContext protocol).
Proof.
  destruct (scoreRelease_shape parseRelease matchFormats ALL_FORMATS numberToString
              releaseName profile attributes fileSizeBytes sizeContext protocol)
    as (_ & _ & _ & _ & Ht & _).
  eexists. exact Ht.
Qed.

Lemma map_imap_inverse {A B : Type} (g : B -> A) (l : list A) :
  forall f : nat -> A -> B, (forall i x, g (f i x) = x) -> map g (imap f l) = l.
Proof.
  induction l as [|x l IH]; intros f H; [reflexivity |].
  cbn [imap map]. rewrite H. f_equal. apply IH. intros i y. apply H.
Qed.

Lemma rankReleases_results (releases : list Release.t) (profile : ScoringProfile.t) :
  map RankedResult.result (rankReleases releases profile)
  = JsArray.sort Scorer.rankCompare
      (map (fun r => scoreRelease (Release.name r) profile (Release.attributes r)
                       (Release.sizeBytes r) None None) releases).
Proof.
  unfold Scorer.rankReleases. apply map_imap_inverse. reflexivity.
Qed.

(** X17: rankReleases returns one entry per release: the scoring results of
    the releases, rearranged (a permutation, nothing lost or repeated), with
    the ranks 1, 2, ..., n in list order. *)
Theorem rankReleases_permutation_and_ranks
  (releases : list Release.t) (profile : ScoringProfile.t) :
  let ranked := rankReleases releases profile in
  length ranked = length releases
  /\ Permutation (map RankedResult.result ranked)
       (map (fun r => scoreRelease (Release.name r) profile (Release.attributes r)
                        (Release.sizeBytes r) None None) releases)
  /\ (forall (i : nat) x, ranked !! i = Some x -> RankedResult.rank x = Z.of_nat i + 1).
Proof.
  intros ranked.
  assert (Hperm : Permutation (map RankedResult.result ranked)
            (map (fun r => scoreRelease (Release.name r) profile (Release.attributes r)
                             (Release.sizeBytes r) None None) releases)).
  { unfold ranked. rewrite rankReleases_results. apply sort_perm. }
  split; [| split; [exact Hperm |]].
  - apply Permutation_length in Hperm. now rewrite !length_map in Hperm.
  - intros i x Hx. unfold ranked, Scorer.rankReleases in Hx.
    rewrite list_lookup_imap in Hx.
    destruct (_ !! i); [| discriminate Hx].
    cbn in Hx. injection Hx as <-. reflexivity.
Qed.

(** X18: the ranking is ordered: whenever one entry stands before another,
    it is not a rejected result before an accepted one, and if both are
    rejected or both accepted its total is not the smaller one.  Since
    rankReleases scores without size context and protocol, the rejected
    entries are exactly the banned ones. *)
Theorem rankReleases_sorted (releases : list Release.t) (profile : ScoringProfile.t) :
  let ranked := rankReleases releases profile in
  (forall (i j : nat) a b,
      (i < j)%nat -> ranked !! i = Some a -> ranked !! j = Some b ->
      CoverageSpec.rankedBefore (RankedResult.result a) (RankedResult.result b))
  /\ (forall x, In x ranked ->
        CoverageSpec.rejected (RankedResult.result x)
        = ScoringResult.isBanned (RankedResult.result x)).
Proof.
  intros ranked.
  set (scored := map (fun r => scoreRelease (Release.name r) profile (Release.attributes r)
                                 (Release.sizeBytes r) None None) releases).
  assert (Hresults : map RankedResult.result ranked = JsArray.sort Scorer.rankCompare scored)
    by apply rankReleases_results.
  assert (Hscored : forall r, In r scored ->
            CoverageSpec.totalMatchesBan r
            /\ ScoringResult.sizeRejected r = false
            /\ ScoringResult.protocolRejected r = false).
  { intros r Hr. apply in_map_iff in Hr. destruct Hr as (release & <- & _).
    split; [apply scoreRelease_totalMatchesBan |].
    split; [apply scoreRelease_no_sizeContext | apply scoreRelease_no_protocol]. }
  split.
  - intros i j a b Hij Ha Hb.
    apply (StronglySorted_lookup_lt CoverageSpec.rankedBefore
             (map RankedResult.result ranked)) with (i := i) (j := j).
    + rewrite Hresults. apply sort_sorted.
      apply List.Forall_forall. intros r Hr. now apply Hscored.
    + exact Hij.
    + change (map RankedResult.result ranked) with (RankedResult.result <$> ranked).
      rewrite list_lookup_fmap, Ha. reflexivity.
    + change (map RankedResult.result ranked) with (RankedResult.result <$> ranked).
      rewrite list_lookup_fmap, Hb. reflexivity.
  - intros x Hx.
    assert (Hin : In (RankedResult.result x) scored).
    { apply (Permutation_in _ (sort_perm Scorer.rankCompare scored)).
      rewrite <- Hresults. now apply in_map. }
    destruct (Hscored _ Hin) as (_ & Hs & Hp).
    unfold CoverageSpec.rejected. rewrite Hs, Hp, !orb_false_r. reflexivity.
Qed.

(** ** Explaining a score *)

Lemma protocol_pair_consistent
  releaseName profile attributes fileSizeBytes sizeContext protocol :
  let r := scoreRelease releaseName profile attributes fileSizeBytes sizeContext protocol in
  (ScoringResult.protocolRejected r = true
   /\ exists reason, ScoringResult.protocolRejectionReason r = Some reason)
  \/ (ScoringResult.protocolRejected r = false
      /\ ScoringResult.protocolRejectionReason r = None).
Proof.
  unfold Scorer.scoreRelease.
  match goal with
  | |- context [let '(_, _) := ?X in _] => destruct X as [? ?]
  end.
  match goal with
  | |- context [let '(_, _) := ?X in _] =>
      assert (Hproto : (fst X = true /\ exists reason, snd X = Some reason)
                       \/ (fst X = false /\ snd X = None));
      [| destruct X as [? ?]]
  end.
  { repeat match goal with
           | |- context [match ?d with _ => _ end] => destruct d
           end; cbn [fst snd]; eauto. }
  exact Hproto.
Qed.

(** X19: explainScore joins with line feeds a list of lines that opens with
    the release, the profile and the total and closes with the verdict; it
    has the line BANNED iff the result is banned, SIZE REJECTED iff it is
    size-rejected and PROTOCOL REJECTED iff it is protocol-rejected, and one
    line per bucket that lists a format. *)
Theorem explainScore_sections (result : ScoringResult.t) :
  let lines := Scorer.explainLines result in
  Scorer.explainScore result = JsFormat.join JsShow.newline lines
  /\ (exists rest,
        lines = [ "Release: " +:+ ScoringResult.releaseName result;
                  "Profile: " +:+ ScoringResult.profile result;
                  "Total Score: " +:+ JsShow.num (ScoringResult.totalScore result);
                  "" ] ++ rest)
  /\ (exists front,
        lines = front ++ [ "";
                           "Meets Minimum: "
                           +:+ (if ScoringResult.meetsMinimum result then "Yes" else "No") ])
  /\ (In "BANNED" lines <-> ScoringResult.isBanned result = true)
  /\ (In "SIZE REJECTED" lines <-> ScoringResult.sizeRejected result = true)
  /\ (In "PROTOCOL REJECTED" lines <-> ScoringResult.protocolRejected result = true)
  /\ length lines =
       (7 + (if ScoringResult.isBanned result then 3 else 0)
        + (if ScoringResult.sizeRejected result then 3 else 0)
        + (if ScoringResult.protocolRejected result then 3 else 0)
        + length (List.filter
                    (fun k =>
                       (0 <? length (CategoryScore.formats
                                       (ScoreBreakdown.get k
                                          (ScoringResult.breakdown result))))%nat)
                    ScoreBreakdown.keys))%nat.
Proof.
  intros lines. split; [reflexivity |].
  split; [eexists; reflexivity |].
  split; [eexists; unfold lines, Scorer.explainLines; rewrite !app_assoc; reflexivity |].
  assert (Hcat : forall s ks,
            In s (map (fun k => Scorer.categoryLine k
                                  (ScoreBreakdown.get k (ScoringResult.breakdown result))) ks) ->
            exists tail, s = String " " tail).
  { intros s ks Hs. apply in_map_iff in Hs. destruct Hs as (k & <- & _).
    eexists. reflexivity. }
  unfold lines, Scorer.explainLines.
  split; [| split; [| split]].
  - split.
    + intros Hin.
      repeat (apply in_app_or in Hin; destruct Hin as [Hin | Hin]);
        try (destruct (ScoringResult.isBanned result); [reflexivity |]);
        try (apply Hcat in Hin; destruct Hin as (? & Hin); discriminate Hin);
        repeat match goal with
               | H : In _ (if ?b then _ else _) |- _ => destruct b
               end;
        cbn in Hin; intuition discriminate.
    + intros ->. apply in_or_app. right. apply in_or_app. left.
      left. reflexivity.
  - split.
    + intros Hin.
      repeat (apply in_app_or in Hin; destruct Hin as [Hin | Hin]);
        try (destruct (ScoringResult.sizeRejected result); [reflexivity |]);
        try (apply Hcat in Hin; destruct Hin as (? & Hin); discriminate Hin);
        repeat match goal with
               | H : In _ (if ?b then _ else _) |- _ => destruct b
               end;
        cbn in Hin; intuition discriminate.
    + intros ->. do 2 (apply in_or_app; right). apply in_or_app. left.
      left. reflexivity.
  - split.
    + intros Hin.
      repeat (apply in_app_or in Hin; destruct Hin as [Hin | Hin]);
        try (destruct (ScoringResult.protocolRejected result); [reflexivity |]);
        try (apply Hcat in Hin; destruct Hin as (? & Hin); discriminate Hin);
        repeat match goal with
               | H : In _ (if ?b then _ else _) |- _ => destruct b
               end;
        cbn in Hin; intuition discriminate.
    + intros ->. do 3 (apply in_or_app; right). apply in_or_app. left.
      left. reflexivity.
  - rewrite !length_app, length_map.
    destruct (ScoringResult.isBanned result), (ScoringResult.sizeRejected result),
      (ScoringResult.protocolRejected result); cbn [length]; lia.
Qed.

(** X20: for a result of scoreRelease the explanation prints real reasons:
    a SIZE REJECTED or PROTOCOL REJECTED section is followed by the reason
    the result carries (never by an undefined one), and the BANNED section
    by the names of the banning formats. *)
Theorem explainScore_prints_reasons
  releaseName profile attributes fileSizeBytes sizeContext protocol :
  let r := scoreRelease releaseName profile attributes fileSizeBytes sizeContext protocol in
  let lines := Scorer.explainLines r in
  (ScoringResult.sizeRejected r = true ->
     exists reason, ScoringResult.sizeRejectionReason r = Some reason
                    /\ In ("Reason: " +:+ reason) lines)
  /\ (ScoringResult.protocolRejected r = true ->
     exists reason, ScoringResult.protocolRejectionReason r = Some reason
                    /\ In ("Reason: " +:+ reason) lines)
  /\ (ScoringResult.isBanned r = true ->
     ScoringResult.bannedReasons r <> []
     /\ In ("Reasons: " +:+ JsFormat.join ", " (ScoringResult.bannedReasons r)) lines).
Proof.
  intros r lines. unfold lines, Scorer.explainLines. split; [| split].
  - intros Hrej.
    destruct (size_pair_consistent releaseName profile attributes fileSizeBytes
                sizeContext protocol) as [[_ (reason & Hreason)] | [Hno _]];
      fold r in Hreason || fold r in Hno; [| congruence].
    exists reason. split; [exact Hreason |]. rewrite Hrej, Hreason.
    do 2 (apply in_or_app; right). apply in_or_app. left.
    right. left. reflexivity.
  - intros Hrej.
    destruct (protocol_pair_consistent releaseName profile attributes fileSizeBytes
                sizeContext protocol) as [[_ (reason & Hreason)] | [Hno _]];
      fold r in Hreason || fold r in Hno; [| congruence].
    exists reason. split; [exact Hreason |]. rewrite Hrej, Hreason.
    do 3 (apply in_or_app; right). apply in_or_app. left.
    right. left. reflexivity.
  - intros Hban. split.
    + destruct (scoreRelease_shape parseRelease matchFormats ALL_FORMATS numberToString
                  releaseName profile attributes fileSizeBytes sizeContext protocol)
        as (_ & _ & Hb & Hr & _).
      fold r in Hb, Hr. rewrite Hr. rewrite Hban in Hb. symmetry in Hb.
      apply existsb_exists in Hb. destruct Hb as (f & Hin & Hf).
      intros Hnil. apply map_eq_nil in Hnil.
      assert (Hin' : In f (List.filter Scorer.isBanScore
                             (scoredOf releaseName profile attributes)))
        by (apply filter_In; split; assumption).
      rewrite Hnil in Hin'. destruct Hin'.
    + rewrite Hban.
      apply in_or_app. right. apply in_or_app. left.
      right. left. reflexivity.
Qed.

(** ** Matched ids and the debug view *)

(** X21: getMatchedFormatIds lists the ids of everything that matched,
    before mutual exclusivity: every format of a scoring result has its id
    in the list, the result holds no more formats than the list has ids, and
    the two agree, in order, whenever at most one hdr format matched. *)
Theorem getMatchedFormatIds_covers_result
  releaseName profile attributes fileSizeBytes sizeContext protocol :
  let r := scoreRelease releaseName profile attributes fileSizeBytes sizeContext protocol in
  let ids := getMatchedFormatIds releaseName attributes in
  let debug := debugRelease releaseName attributes in
  (forall f, In f (ScoringResult.matchedFormats r) ->
             In (CustomFormat.id (ScoredFormat.format f)) ids)
  /\ (length (ScoringResult.matchedFormats r) <= length ids)%nat
  /\ ((length (List.filter (fun d => String.eqb (DebugFormat.category d) "hdr")
                           (DebugResult.matchedFormats debug)) <= 1)%nat ->
      map (fun f => CustomFormat.id (ScoredFormat.format f)) (ScoringResult.matchedFormats r)
      = ids).
Proof.
  intros r ids debug.
  destruct (scoreRelease_shape parseRelease matchFormats ALL_FORMATS numberToString
              releaseName profile attributes fileSizeBytes sizeContext protocol)
    as (Hm & _).
  fold r in Hm. rewrite Hm. unfold ScorerSpec.scoredOf, ids, Scorer.getMatchedFormatIds.
  set (matched := matchFormats _ ALL_FORMATS).
  assert (Hdebug : DebugResult.matchedFormats debug
                   = map (fun m =>
                            DebugFormat.mk
                              (CustomFormat.id (MatchedFormat.format m))
                              (CustomFormat.name (MatchedFormat.format m))
                              (CustomFormat.category (MatchedFormat.format m))
                              (map (fun c =>
                                      DebugCondition.mk
                                        (FormatCondition.type (ConditionMatchResult.condition c))
                                        (ConditionMatchResult.matches c)
                                        (FormatCondition.required
                                           (ConditionMatchResult.condition c))
                                        (FormatCondition.negate
                                           (ConditionMatchResult.condition c)))
                                   (MatchedFormat.conditionResults m)))
                         matched) by reflexivity.
  destruct (applyMutualExclusivity_cases matched profile)
    as [[Hfew Hsame] | (Hmany & best & pre & post & Hres & Hsplit)].
  - rewrite Hsame. unfold Scorer.calculateFormatScores.
    split; [| split].
    + intros f Hf. apply in_map_iff in Hf. destruct Hf as (mf & <- & Hmf).
      cbn [ScoredFormat.format]. apply in_map_iff. exists mf. split; [reflexivity | exact Hmf].
    + rewrite !length_map. lia.
    + intros _. rewrite map_map. reflexivity.
  - split; [| split].
    + intros f Hf. unfold Scorer.calculateFormatScores in Hf.
      apply in_map_iff in Hf. destruct Hf as (mf & <- & Hmf).
      cbn [ScoredFormat.format]. apply in_map_iff. exists mf. split; [reflexivity |].
      rewrite Hres in Hmf. apply in_app_or in Hmf.
      destruct Hmf as [Hmf | [<- | []]].
      * apply filter_In in Hmf. apply Hmf.
      * assert (Hin : In best (List.filter Scorer.isHdr matched))
          by (rewrite Hsplit; apply in_or_app; right; left; reflexivity).
        apply filter_In in Hin. apply Hin.
    + unfold Scorer.calculateFormatScores. rewrite !length_map, Hres, length_app.
      cbn [length]. rewrite (length_filter_split Scorer.isHdr matched). lia.
    + intros Hone. exfalso. rewrite Hdebug in Hone.
      assert (Hlen : length (List.filter
                               (fun d => String.eqb (DebugFormat.category d) "hdr")
                               (map (fun m =>
                                       DebugFormat.mk
                                         (CustomFormat.id (MatchedFormat.format m))
                                         (CustomFormat.name (MatchedFormat.format m))
                                         (CustomFormat.category (MatchedFormat.format m))
                                         (map (fun c =>
                                                 DebugCondition.mk
                                                   (FormatCondition.type
                                                      (ConditionMatchResult.condition c))
                                                   (ConditionMatchResult.matches c)
                                                   (FormatCondition.required
                                                      (ConditionMatchResult.condition c))
                                                   (FormatCondition.negate
                                                      (ConditionMatchResult.condition c)))
                                              (MatchedFormat.conditionResults m)))
                                    matched))
                      = length (List.filter Scorer.isHdr matched)).
      { clear. induction matched as [|m l IH]; [reflexivity |].
        cbn [map List.filter DebugFormat.category].
        unfold Scorer.isHdr at 1.
        destruct (String.eqb _ "hdr"); cbn [length]; now rewrite IH. }
      lia.
Qed.

(** The debug view: debugRelease shows the same matches as
    getMatchedFormatIds, one entry per matched format in the same order,
    under the release name it was given; each entry carries the id, name and
    category of its format and one condition record per condition result,
    with the flags of the condition. *)
Theorem debugRelease_lists_matches releaseName attributes :
  let debug := debugRelease releaseName attributes in
  let matched :=
    matchFormats (match attributes with Some a => a | None => parseRelease releaseName end)
      ALL_FORMATS in
  DebugResult.releaseName debug = releaseName
  /\ map DebugFormat.id (DebugResult.matchedFormats debug)
     = getMatchedFormatIds releaseName attributes
  /\ (forall (i : nat) d,
        DebugResult.matchedFormats debug !! i = Some d ->
        exists m,
          matched !! i = Some m
          /\ DebugFormat.id d = CustomFormat.id (MatchedFormat.format m)
          /\ DebugFormat.name d = CustomFormat.name (MatchedFormat.format m)
          /\ DebugFormat.category d = CustomFormat.category (MatchedFormat.format m)
          /\ map DebugCondition.matched (DebugFormat.conditions d)
             = map ConditionMatchResult.matches (MatchedFormat.conditionResults m)
          /\ map DebugCondition.negate (DebugFormat.conditions d)
             = map (fun c => FormatCondition.negate (ConditionMatchResult.condition c))
                   (MatchedFormat.conditionResults m)
          /\ map DebugCondition.required (DebugFormat.conditions d)
             = map (fun c => FormatCondition.required (ConditionMatchResult.condition c))
                   (MatchedFormat.conditionResults m)).
Proof.
  intros debug matched. split; [reflexivity |]. split.
  - unfold debug, Scorer.debugRelease, Scorer.getMatchedFormatIds.
    cbn [DebugResult.matchedFormats]. rewrite map_map. reflexivity.
  - intros i d Hd. unfold debug, Scorer.debugRelease in Hd.
    cbn [DebugResult.matchedFormats] in Hd. fold matched in Hd.
    change (map ?f matched) with (f <$> matched) in Hd.
    rewrite list_lookup_fmap in Hd.
    destruct (matched !! i) as [m|]; [| discriminate Hd].
    cbn in Hd. injection Hd as <-. exists m. split; [reflexivity |].
    cbn [DebugFormat.id DebugFormat.name DebugFormat.category DebugFormat.conditions].
    rewrite !map_map. repeat split; reflexivity.
Qed.

End ScorerCoverage.

(** * Release group formats *)

Lemma keepIdChars_allChars (s : string) :
  CoverageSpec.allChars Groups.isIdChar (Groups.keepIdChars s) = true.
Proof.
  induction s as [|c s IH]; [reflexivity |].
  cbn [Groups.keepIdChars]. destruct (Groups.isIdChar c) eqn:Hc; [| exact IH].
  cbn [CoverageSpec.allChars]. now rewrite Hc, IH.
Qed.

Lemma backslash_is_special (c : ascii) :
  Groups.isRegExpSpecial c = false -> Ascii.eqb c "\" = false.
Proof.
  intros Hc. destruct (Ascii.eqb c "\") eqn:Heq; [| reflexivity].
  apply Ascii.eqb_eq in Heq. subst c. discriminate Hc.
Qed.

Lemma unescape_escape (s : string) :
  CoverageSpec.unescapeRegExp (Groups.escapeRegExp s) = s.
Proof.
  induction s as [|c s IH]; [reflexivity |].
  cbn [Groups.escapeRegExp]. destruct (Groups.isRegExpSpecial c) eqn:Hc.
  - cbn [CoverageSpec.unescapeRegExp]. rewrite Ascii.eqb_refl. now rewrite IH.
  - cbn [CoverageSpec.unescapeRegExp]. rewrite (backslash_is_special c Hc). now rewrite IH.
Qed.

Lemma escape_plain (s : string) :
  CoverageSpec.allChars (fun c => negb (Groups.isRegExpSpecial c)) s = true ->
  Groups.escapeRegExp s = s.
Proof.
  induction s as [|c s IH]; [reflexivity |].
  cbn [CoverageSpec.allChars Groups.escapeRegExp]. intros H.
  apply andb_true_iff in H. destruct H as [Hc Hs].
  apply negb_true_iff in Hc. rewrite Hc. now rewrite IH.
Qed.

Lemma append_nonempty (a b : string) : b <> "" -> a +:+ b <> "".
Proof. destruct a; cbn; [auto | discriminate]. Qed.

Lemma isIdChar_isSlugChar (c : ascii) : Groups.isIdChar c = CoverageSpec.isSlugChar c.
Proof.
  destruct c as [b0 b1 b2 b3 b4 b5 b6 b7].
  destruct b0, b1, b2, b3, b4, b5, b6, b7; vm_compute; reflexivity.
Qed.

Lemma toLowerAscii_slugChar (c : ascii) :
  CoverageSpec.isSlugChar c = true -> Matcher.toLowerAscii c = c.
Proof.
  destruct c as [b0 b1 b2 b3 b4 b5 b6 b7].
  destruct b0, b1, b2, b3, b4, b5, b6, b7; vm_compute; intros H;
    first [reflexivity | discriminate H].
Qed.

Lemma allChars_ext (p q : ascii -> bool) (s : string) :
  (forall c, p c = q c) -> CoverageSpec.allChars p s = CoverageSpec.allChars q s.
Proof.
  intros Hpq. induction s as [|c s IH]; [reflexivity |].
  cbn [CoverageSpec.allChars]. now rewrite Hpq, IH.
Qed.

(** A name of slug characters is its own slug. *)
Lemma slug_of_slug_name (name : string) :
  CoverageSpec.allChars CoverageSpec.isSlugChar name = true ->
  Groups.keepIdChars (Matcher.toLowerCase name) = name.
Proof.
  induction name as [|c name IH]; [reflexivity |].
  cbn [CoverageSpec.allChars Matcher.toLowerCase Groups.keepIdChars]. intros H.
  apply andb_true_iff in H. destruct H as [Hc Hname].
  rewrite (toLowerAscii_slugChar c Hc), isIdChar_isSlugChar, Hc.
  now rewrite (IH Hname).
Qed.

(** X22: createGroupFormat keeps the name, files the format under the
    category release_group_tier (the releaseGroupTier bucket of the
    breakdown), gives it the description it was given or, without one or with
    an empty one, the name followed by " release group" (so never an empty
    one), the tags Release Group followed by the given tags, and an id of the
    form group-<slug> where the slug has only the characters a-z, 0-9 and
    the hyphen (a name made of these characters is its own slug); names that
    differ only in letter case get the same id. *)
Theorem createGroupFormat_shape (name : string) (description : option string)
  (tags : option (list string)) :
  let format := Groups.createGroupFormat name description tags in
  CustomFormat.name format = name
  /\ (exists slug, CustomFormat.id format = "group-" +:+ slug
                   /\ CoverageSpec.allChars CoverageSpec.isSlugChar slug = true)
  /\ (CoverageSpec.allChars CoverageSpec.isSlugChar name = true ->
      CustomFormat.id format = "group-" +:+ name)
  /\ (forall name' description' tags',
        Matcher.toLowerCase name' = Matcher.toLowerCase name ->
        CustomFormat.id (Groups.createGroupFormat name' description' tags')
        = CustomFormat.id format)
  /\ CustomFormat.category format = "release_group_tier"
  /\ Scorer.categoryToBreakdownKey (CustomFormat.category format)
     = Some ScoreBreakdown.KreleaseGroupTier
  /\ (forall d, description = Some d -> d <> "" -> CustomFormat.description format = d)
  /\ (description = None \/ description = Some "" ->
      CustomFormat.description format = name +:+ " release group")
  /\ CustomFormat.description format <> ""
  /\ CustomFormat.tags format = "Release Group" :: default [] tags
  /\ (tags = None -> CustomFormat.tags format = ["Release Group"]).
Proof.
  intros format. split; [reflexivity |]. split.
  { eexists. split; [reflexivity |].
    rewrite <- (allChars_ext Groups.isIdChar CoverageSpec.isSlugChar _ isIdChar_isSlugChar).
    apply keepIdChars_allChars. }
  split.
  { intros Hslug. unfold format, Groups.createGroupFormat. cbn [CustomFormat.id].
    now rewrite (slug_of_slug_name name Hslug). }
  split.
  { intros name' description' tags' Hlower.
    unfold format, Groups.createGroupFormat. cbn [CustomFormat.id]. now rewrite Hlower. }
  split; [reflexivity |]. split; [reflexivity |].
  unfold format, Groups.createGroupFormat. cbn [CustomFormat.description CustomFormat.tags].
  split.
  { intros d -> Hd. apply String.eqb_neq in Hd. now rewrite Hd. }
  split.
  { intros [-> | ->]; reflexivity. }
  split.
  { destruct description as [d|]; [| apply append_nonempty; discriminate].
    destruct (String.eqb d "") eqn:Hd; [apply append_nonempty; discriminate |].
    now apply String.eqb_neq. }
  split; [reflexivity |].
  intros ->. reflexivity.
Qed.

(** X23: the single condition of a group format is a required, not
    negated release_group condition whose pattern is the name between ^ and
    $ with a backslash before each regular-expression special character:
    reading the escapes back returns the name, and a name without special
    characters is its own pattern body. *)
Theorem createGroupFormat_pattern (name : string) (description : option string)
  (tags : option (list string)) :
  let format := Groups.createGroupFormat name description tags in
  exists condition escaped,
    CustomFormat.conditions format = [condition]
    /\ FormatCondition.type condition = ConditionType.release_group
    /\ FormatCondition.required condition = true
    /\ FormatCondition.negate condition = false
    /\ FormatCondition.pattern condition = Some ("^" +:+ escaped +:+ "$")
    /\ CoverageSpec.unescapeRegExp escaped = name
    /\ (CoverageSpec.allChars (fun c => negb (Groups.isRegExpSpecial c)) name = true ->
        escaped = name).
Proof.
  intros format. eexists. exists (Groups.escapeRegExp name).
  split; [reflexivity |]. repeat (split; [reflexivity |]).
  split; [apply unescape_escape | apply escape_plain].
Qed.

Section GroupTable.

Variable RELEASE_GROUP_FORMATS : list CustomFormat.t.

Abbreviation isKnownGroup := (Groups.isKnownGroup RELEASE_GROUP_FORMATS).

Lemma toLowerCase_empty (s : string) : Matcher.toLowerCase s = "" <-> s = "".
Proof. destruct s; cbn; split; (reflexivity || discriminate). Qed.

(** X24: isKnownGroup is false for an absent or empty group, does not
    depend on letter case, is true for the name of every format of the table
    (an empty name apart), and is true only for a group that equals a name of
    the table up to letter case. *)
Theorem isKnownGroup_spec :
  isKnownGroup None = false
  /\ isKnownGroup (Some "") = false
  /\ (forall g g', Matcher.toLowerCase g = Matcher.toLowerCase g' ->
        isKnownGroup (Some g) = isKnownGroup (Some g'))
  /\ (forall format, In format RELEASE_GROUP_FORMATS -> CustomFormat.name format <> "" ->
        isKnownGroup (Some (CustomFormat.name format)) = true)
  /\ (forall g, isKnownGroup (Some g) = true <->
        g <> ""
        /\ exists format, In format RELEASE_GROUP_FORMATS
                          /\ Matcher.toLowerCase (CustomFormat.name format)
                             = Matcher.toLowerCase g).
Proof.
  assert (Hiff : forall g, isKnownGroup (Some g) = true <->
            g <> ""
            /\ exists format, In format RELEASE_GROUP_FORMATS
                              /\ Matcher.toLowerCase (CustomFormat.name format)
                                 = Matcher.toLowerCase g).
  { intros g. unfold Groups.isKnownGroup, Groups.RELEASE_GROUP_NAMES.
    destruct (String.eqb g "") eqn:Hg.
    - apply String.eqb_eq in Hg. split; [discriminate | intros [H _]; contradiction].
    - apply String.eqb_neq in Hg. rewrite existsb_exists. split.
      + intros (name & Hin & Heq). apply in_map_iff in Hin.
        destruct Hin as (format & <- & Hin). apply String.eqb_eq in Heq.
        split; [exact Hg |]. exists format. split; [exact Hin | now symmetry].
      + intros (_ & format & Hin & Heq). exists (CustomFormat.name format).
        split; [now apply in_map |]. apply String.eqb_eq. now symmetry. }
  split; [reflexivity |]. split; [reflexivity |]. split; [| split; [| exact Hiff]].
  - intros g g' Hlower.
    destruct (isKnownGroup (Some g)) eqn:Hk, (isKnownGroup (Some g')) eqn:Hk';
      try reflexivity.
    + apply Hiff in Hk. destruct Hk as (Hne & format & Hin & Heq).
      assert (isKnownGroup (Some g') = true).
      { apply Hiff. split.
        - intros ->. apply Hne. apply toLowerCase_empty. now rewrite Hlower.
        - exists format. split; [exact Hin | congruence]. }
      congruence.
    + apply Hiff in Hk'. destruct Hk' as (Hne & format & Hin & Heq).
      assert (isKnownGroup (Some g) = true).
      { apply Hiff. split.
        - intros ->. apply Hne. apply toLowerCase_empty. now rewrite <- Hlower.
        - exists format. split; [exact Hin | congruence]. }
      congruence.
  - intros format Hin Hne. apply Hiff. split; [exact Hne |].
    exists format. split; [exact Hin | reflexivity].
Qed.

End GroupTable.

(** * The further properties at concrete inputs *)

(** A movie of 1 GiB against a minimum of 1.5 GB. *)
Lemma scoreRelease_movie_size_validation_witness :
  let r := Examples.score Examples.release "Movie" CoverageExamples.movieProfile None
             (Some CoverageExamples.oneGiB) (Some CoverageExamples.movieContext) None in
  ScoringResult.sizeRejected r = true
  /\ ScoringResult.sizeRejectionReason r
     = Some "Movie size 1.00 GB is below minimum 1.5 GB".
Proof.
  intros r. subst r. unfold Examples.score.
  destruct (scoreRelease_movie_size_validation
              (Examples.parseAs Examples.release) Examples.matcher Examples.library
              Examples.showNumber "Movie" CoverageExamples.movieProfile None
              CoverageExamples.oneGiB CoverageExamples.movieContext None)
    as (Hrejected & Hreason & _); [reflexivity | reflexivity |].
  split.
  - apply Hrejected. left. exists (3 # 2)%Q. split; reflexivity.
  - rewrite (Hreason (3 # 2)%Q); reflexivity.
Defined.

(** Two episodes whose names parse to the same attributes score alike. *)
Lemma scoreRelease_same_attributes_same_result_witness :
  ScoringResult.totalScore
    (Examples.score Examples.release "Show.S01E02.2160p.REMUX" Examples.profile
       None None None None)
  = ScoringResult.totalScore
      (Examples.score Examples.release "Show.S01E01.2160p.REMUX" Examples.profile
         None None None None).
Proof.
  unfold Examples.score.
  rewrite (scoreRelease_same_attributes_same_result
             (Examples.parseAs Examples.release) Examples.matcher Examples.library
             Examples.showNumber
             "Show.S01E01.2160p.REMUX" "Show.S01E02.2160p.REMUX" Examples.profile
             None None None None None eq_refl).
  reflexivity.
Defined.

(** A release that meets the minimum is an upgrade over a CAM, even when an
    improvement of a million points is asked for. *)
Lemma isUpgrade_over_banned_release_witness :
  let u := Scorer.isUpgrade (Examples.parseAs Examples.release) Examples.matcher
             Examples.library Examples.showNumber "Old.CAM" "Movie" Examples.profile
             (UpgradeOptions.mk (Some (1000000 # 1)%Q) None
                (Some Examples.camRelease) None None None) in
  UpgradeResult.improvement u = JsNum.PosInf /\ UpgradeResult.isUpgrade u = true.
Proof.
  apply (isUpgrade_over_banned_release
           (Examples.parseAs Examples.release) Examples.matcher Examples.library
           Examples.showNumber "Old.CAM" "Movie" Examples.profile
           (UpgradeOptions.mk (Some (1000000 # 1)%Q) None
              (Some Examples.camRelease) None None None));
    vm_compute; reflexivity.
Defined.

(** ** Examples of the further functions *)

Example rank_puts_banned_last :
  map (fun x => (ScoringResult.releaseName (RankedResult.result x), RankedResult.rank x))
      (Scorer.rankReleases (Examples.parseAs Examples.release) Examples.matcher
         Examples.library Examples.showNumber
         [ Release.mk "A.CAM" (Some Examples.camRelease) None;
           Release.mk "B.REMUX" None None;
           Release.mk "C.CAM" (Some Examples.camRelease) None;
           Release.mk "D.NoGroup" (Some Examples.releaseWithoutGroup) None ]
         Examples.profile)
  = [("B.REMUX", 1); ("D.NoGroup", 2); ("A.CAM", 3); ("C.CAM", 4)].
Proof. vm_compute. reflexivity. Qed.

Example explain_banned_release :
  Scorer.explainLines
    (Examples.score Examples.camRelease "Movie.2024.CAM.x264-GROUP" Examples.profile
       None None None None)
  = [ "Release: Movie.2024.CAM.x264-GROUP";
      "Profile: Test Profile";
      "Total Score: -Infinity";
      "";
      "BANNED";
      "Reasons: CAM";
      "";
      "Score Breakdown:";
      "  banned: -999999 (CAM)";
      "";
      "Meets Minimum: No" ].
Proof. vm_compute. reflexivity. Qed.

Example explain_release_breakdown :
  Scorer.explainLines
    (Examples.score Examples.release "Movie" Examples.profile None None None None)
  = [ "Release: Movie";
      "Profile: Test Profile";
      "Total Score: 23000";
      "";
      "Score Breakdown:";
      "  resolution: +20000 (2160p Remux)";
      "  hdr: +3000 (Dolby Vision)";
      "";
      "Meets Minimum: Yes" ].
Proof. vm_compute. reflexivity. Qed.

Example matched_ids_include_dropped_hdr :
  Scorer.getMatchedFormatIds (Examples.parseAs Examples.release) Examples.matcher
    Examples.library "Movie" None
  = ["2160p-remux"; "hdr-generic"; "hdr-dolby-vision"].
Proof. vm_compute. reflexivity. Qed.

Example group_format_ids :
  map CustomFormat.id CoverageExamples.groups
  = ["group-d-z0n3"; "group-flux"; "group-erai-raws"].
Proof. vm_compute. reflexivity. Qed.

Example group_format_pattern_escapes :
  map FormatCondition.pattern
      (CustomFormat.conditions (Groups.createGroupFormat "E.N.D" None None))
  = [Some "^E\.N\.D$"].
Proof. vm_compute. reflexivity. Qed.

Example known_group_ignores_case :
  Groups.isKnownGroup CoverageExamples.groups (Some "flux") = true
  /\ Groups.isKnownGroup CoverageExamples.groups (Some "SPARKS") = false
  /\ Groups.isKnownGroup CoverageExamples.groups None = false.
Proof. vm_compute. repeat split; reflexivity. Qed.
